(** * Yandex Metrika client: request construction and retry core

    A shallow embedding of [src/client.ts] (class [YandexMetrikaClient]).

    Conventions of the embedding
    - A JavaScript string is the sequence of bytes of its UTF-8 encoding
      (Rocq's [string]); every string the code compares against is ASCII.
    - A JavaScript number is modelled on its integer values, as [Z]. It is
      printed in decimal, which is how the engine prints a safe integer
      (at most 2^53 - 1 in absolute value); the statements about an
      argument that is printed into a URL are about safe integers.
    - [undefined] for an optional argument is [None].
    - The outside world is a [World]: the network, which decides how the
      n-th [fetch] of a run settles, and the chronological list of the
      effects performed so far (requests sent, delays awaited).
    - An [async] method is a computation [IO A]: from a world to a settled
      promise (rejected with an error, or fulfilled with a value) and the
      world it leaves behind. *)

From Stdlib Require Import String Ascii List ZArith Lia Bool DecimalString.
Import ListNotations.

#[local] Open Scope string_scope.
#[local] Open Scope Z_scope.

(** ** JavaScript primitives used by the client *)

Module Js.

(** An [Error] object, as far as the client looks at it. *)
Record Error : Type := mkError { name : string; message : string }.

(** [new Error(msg)] *)
Definition new_Error (msg : string) : Error := mkError "Error" msg.

(** Truthiness of a string: only the empty string is falsy. *)
Definition truthy (s : string) : bool :=
  match s with
  | EmptyString => false
  | String _ _ => true
  end.

(** Truthiness of an optional string argument ([undefined] is falsy). *)
Definition truthy_opt (o : option string) : bool :=
  match o with
  | None => false
  | Some s => truthy s
  end.

(** A parameter with a default value: the default stands in for
    [undefined]. *)
Definition defaultTo {A} (supplied : option A) (default : A) : A :=
  match supplied with
  | Some v => v
  | None => default
  end.

(** [x || d] on an optional number: [undefined] and [0] are falsy. *)
Definition or_default (x : option Z) (d : Z) : Z :=
  match x with
  | None => d
  | Some v => if v =? 0 then d else v
  end.

(** [s.includes(sub)] *)
Fixpoint includes (s sub : string) : bool :=
  String.prefix sub s
  || match s with
     | EmptyString => false
     | String _ s' => includes s' sub
     end.

(** [`${n}`] for an integer [n]: its decimal digits, with a minus sign
    when it is negative. This is what the engine prints for every safe
    integer; from 10^21 on the engine prints an exponent instead, and
    the status codes and identifiers the client prints are far below. *)
Definition Number_toString (n : Z) : string :=
  NilZero.string_of_int (Z.to_int n).

(** [Number.isSafeInteger(n)] for an integer [n]. *)
Definition Number_isSafeInteger (n : Z) : bool :=
  Z.abs n <=? 9007199254740991.

(** [xs.join(sep)] *)
Definition join (sep : string) (xs : list string) : string :=
  String.concat sep xs.

(** Removing a literal prefix: [Some rest] when [s = p ++ rest]. *)
Fixpoint stripPrefix (p s : string) : option string :=
  match p, s with
  | EmptyString, _ => Some s
  | String a p', String b s' =>
      if Ascii.eqb a b then stripPrefix p' s' else None
  | String _ _, EmptyString => None
  end.

(** The line terminators of regular expressions: LF, CR, U+2028 and
    U+2029 (the last two by their UTF-8 bytes). *)
Definition LF : string := String (ascii_of_nat 10) EmptyString.
Definition CR : string := String (ascii_of_nat 13) EmptyString.
Definition LS : string :=
  String (ascii_of_nat 226) (String (ascii_of_nat 128)
    (String (ascii_of_nat 168) EmptyString)).
Definition PS : string :=
  String (ascii_of_nat 226) (String (ascii_of_nat 128)
    (String (ascii_of_nat 169) EmptyString)).

Definition hasLineTerminator (s : string) : bool :=
  includes s LF || includes s CR || includes s LS || includes s PS.

(** The regular expression [(.+)$] tried at some position, [s] being the
    rest of the input from there: without the [s] and [m] flags it
    matches exactly when the rest is not empty and holds no line
    terminator, and it captures all of it. *)
Definition dotPlusEnd (s : string) : bool :=
  truthy s && negb (hasLineTerminator s).

(** [\d] *)
Definition isDigit (c : ascii) : bool :=
  ((48 <=? nat_of_ascii c) && (nat_of_ascii c <=? 57))%nat.

Definition isAlpha (c : ascii) : bool :=
  ((65 <=? nat_of_ascii c) && (nat_of_ascii c <=? 90)
   || (97 <=? nat_of_ascii c) && (nat_of_ascii c <=? 122))%nat.

Definition charIn (c : ascii) (set : string) : bool :=
  existsb (Ascii.eqb c) (list_ascii_of_string set).

(** The characters [encodeURIComponent] leaves as they are. *)
Definition isUnreserved (c : ascii) : bool :=
  isAlpha c || isDigit c || charIn c "-_.!~*'()".

Definition hexDigit (n : nat) : ascii :=
  nth n (list_ascii_of_string "0123456789ABCDEF") "0"%char.

(** [encodeURIComponent(s)]: every byte of the UTF-8 encoding that is
    not an unreserved character becomes [%XX]. *)
Fixpoint encodeURIComponent (s : string) : string :=
  match s with
  | EmptyString => EmptyString
  | String c s' =>
      if isUnreserved c then String c (encodeURIComponent s')
      else
        let n := nat_of_ascii c in
        String "%" (String (hexDigit (n / 16)) (String (hexDigit (n mod 16))
          (encodeURIComponent s')))
  end.

(** [xs.map(f)] for an [f] that may throw: the first exception ends the
    traversal. *)
Fixpoint Array_map {A B} (f : A -> Error + B) (xs : list A)
  : Error + list B :=
  match xs with
  | [] => inr []
  | x :: xs' =>
      match f x with
      | inl e => inl e
      | inr y =>
          match Array_map f xs' with
          | inl e => inl e
          | inr ys => inr (y :: ys)
          end
      end
  end.

(** The members every object literal inherits from [Object.prototype],
    each with the text a template literal prints for it. All of them
    are objects, hence truthy. *)
Definition Object_prototype : list (string * string) :=
  [ ("constructor", "function Object() { [native code] }");
    ("__defineGetter__", "function __defineGetter__() { [native code] }");
    ("__defineSetter__", "function __defineSetter__() { [native code] }");
    ("hasOwnProperty", "function hasOwnProperty() { [native code] }");
    ("__lookupGetter__", "function __lookupGetter__() { [native code] }");
    ("__lookupSetter__", "function __lookupSetter__() { [native code] }");
    ("isPrototypeOf", "function isPrototypeOf() { [native code] }");
    ("propertyIsEnumerable",
     "function propertyIsEnumerable() { [native code] }");
    ("toString", "function toString() { [native code] }");
    ("valueOf", "function valueOf() { [native code] }");
    ("__proto__", "[object Object]");
    ("toLocaleString", "function toLocaleString() { [native code] }") ].

Fixpoint assoc (key : string) (entries : list (string * string))
  : option string :=
  match entries with
  | [] => None
  | (k, v) :: entries' =>
      if (k =? key)%string then Some v else assoc key entries'
  end.

(** [obj[key]] on an object literal with the own properties [own]: an
    own property first, then the prototype; [None] is [undefined]. The
    value is given by the text a template literal prints for it. *)
Definition get_property (own : list (string * string)) (key : string)
  : option string :=
  match assoc key own with
  | Some v => Some v
  | None => assoc key Object_prototype
  end.

(** [`${v}`] for a property value. *)
Definition template (v : option string) : string :=
  match v with
  | Some text => text
  | None => "undefined"
  end.

(** [Object.keys(obj)] *)
Definition Object_keys (own : list (string * string)) : list string :=
  map fst own.

End Js.

Import Js.

(** ** The outside world *)

(** The value a response body parses to; the client passes it through
    without looking at it. *)
Inductive JsonValue : Type := Json (source : string).

(** A settled promise. *)
Definition Promise (A : Type) : Type := (Error + A)%type.

(** What the client reads of a [Response]: its status, what [text()]
    yields and how [json()] settles. *)
Record Response : Type := mkResponse {
  status : Z;
  text : string;
  json : Promise JsonValue
}.

(** [response.ok] *)
Definition ok (r : Response) : bool :=
  (200 <=? status r) && (status r <=? 299).

(** How one [fetch] settles: rejected (the abort of the timeout timer is
    the rejection named [AbortError]), or answered. *)
Inductive FetchOutcome : Type :=
| Rejected (e : Error)
| Responded (r : Response).

(** The rejection [fetch] produces when [controller.abort()] fires. *)
Definition AbortError : Error :=
  mkError "AbortError" "This operation was aborted".

Inductive Event : Type :=
| Fetch (url authorization : string)
| Sleep (ms : Z).

Definition Network : Type := nat -> string -> FetchOutcome.

Record World : Type := mkWorld {
  network : Network;
  events : list Event
}.

Definition is_fetch (e : Event) : bool :=
  match e with
  | Fetch _ _ => true
  | Sleep _ => false
  end.

(** Number of requests sent so far. *)
Definition fetchCount (evs : list Event) : nat :=
  List.length (List.filter is_fetch evs).

(** Delays awaited so far, in order. *)
Fixpoint sleeps (evs : list Event) : list Z :=
  match evs with
  | [] => []
  | Sleep ms :: evs' => ms :: sleeps evs'
  | Fetch _ _ :: evs' => sleeps evs'
  end.

Definition initial (net : Network) : World := mkWorld net [].

(** ** Asynchronous computations *)

Definition IO (A : Type) : Type := World -> Promise A * World.

Definition ret {A} (a : A) : IO A := fun w => (inr a, w).

Definition throw {A} (e : Error) : IO A := fun w => (inl e, w).

Definition bind {A B} (m : IO A) (k : A -> IO B) : IO B :=
  fun w =>
    match m w with
    | (inr a, w') => k a w'
    | (inl e, w') => (inl e, w')
    end.

Declare Scope io_scope.
Delimit Scope io_scope with io.
Notation "x <- m ;; k" := (bind m (fun x => k))
  (at level 61, m at next level, right associativity) : io_scope.
Notation "m ;; k" := (bind m (fun _ => k))
  (at level 61, right associativity) : io_scope.
#[local] Open Scope io_scope.

(** [try { body } catch (error) { handler }] where [body] either throws
    or executes [return p] for a promise [p] that is not awaited: a
    rejection of [p] is the rejection of the method, it does not reach
    the [catch] clause. *)
Definition try_catch {A} (body : IO (Promise A)) (handler : Error -> IO A)
  : IO A :=
  fun w =>
    match body w with
    | (inl e, w') => handler e w'
    | (inr (inl e), w') => (inl e, w')
    | (inr (inr a), w') => (inr a, w')
    end.

(** [await fetch(url, { headers, signal })] *)
Definition fetch (url authorization : string) : IO Response :=
  fun w =>
    let w' := mkWorld (network w) (events w ++ [Fetch url authorization]) in
    match network w (fetchCount (events w)) url with
    | Rejected e => (inl e, w')
    | Responded r => (inr r, w')
    end.

(** [await this.delay(ms)] *)
Definition delay (ms : Z) : IO unit :=
  fun w => (inr tt, mkWorld (network w) (events w ++ [Sleep ms])).

(** Running a call from a world in which nothing has happened yet. *)
Definition run {A} (m : IO A) (net : Network) : Promise A * list Event :=
  let (p, w) := m (initial net) in (p, events w).

(** ** The client *)

Module YandexMetrikaClient.

Definition API_BASE : string := "https://api-metrika.yandex.net".
Definition API_MANAGMENT : string := "management/v1".
Definition API_REPORTS : string := "stat/v1/data".

Record ClientConfig : Type := mkConfig {
  timeout : option Z;
  retries : option Z;
  retryDelay : option Z
}.

(** [Required<ClientConfig>] *)
Record RequiredConfig : Type := mkRequired {
  r_timeout : Z;
  r_retries : Z;
  r_retryDelay : Z
}.

Record Client : Type := mkClient {
  token : string;
  config : RequiredConfig
}.

Definition constructor (tok : string) (cfg : ClientConfig) : Client :=
  mkClient tok
    (mkRequired (or_default (timeout cfg) 30000)
                (or_default (retries cfg) 3)
                (or_default (retryDelay cfg) 1000)).

(** [config: ClientConfig = {}] *)
Definition no_config : ClientConfig := mkConfig None None None.

Definition isRetryableError (error : Error) : bool :=
  (name error =? "AbortError")%string
  || (truthy (message error) && includes (message error) "500")
  || (truthy (message error) && includes (message error) "502")
  || (truthy (message error) && includes (message error) "503").

Definition authorization (c : Client) : string := "OAuth " ++ token c.

(** One pass through the [try] block of [makeRequest]. *)
Definition attemptRequest (c : Client) (url : string)
  : IO (Promise JsonValue) :=
  response <- fetch url (authorization c) ;;
  if negb (ok response) then
    let errorText := text response in
    throw (new_Error ("Yandex Metrika error "
                      ++ Number_toString (status response)
                      ++ ": " ++ errorText))
  else ret (json response).

(** [makeRequest], with the number of re-invocations still possible as
    the structurally decreasing argument. *)
Fixpoint makeRequest_loop (budget : nat) (c : Client) (url : string)
    (attempt : Z) : IO JsonValue :=
  try_catch (attemptRequest c url)
    (fun error =>
       if (attempt <? r_retries (config c)) && isRetryableError error then
         match budget with
         | S budget' =>
             delay (r_retryDelay (config c) * attempt) ;;
             makeRequest_loop budget' c url (attempt + 1)
         | O => throw error
         end
       else throw error).

Definition makeRequest (c : Client) (url : string) (attempt : Z)
  : IO JsonValue :=
  makeRequest_loop (Z.to_nat (r_retries (config c) - attempt)) c url attempt.

(** *** Query builder *)

Definition counterIdError : Error :=
  new_Error "Counter ID must be a non-empty string".

(** [if (dateFrom) url += `&date1=${dateFrom}`] and its siblings *)
Definition appendParam (url key : string) (value : option string)
  : string :=
  match value with
  | Some v => if truthy v then url ++ key ++ v else url
  | None => url
  end.

Section Engine.

(** The time value of [new Date(dateString)] as the JavaScript engine
    computes it; [None] is [NaN]. *)
Variable Date_getTime : string -> option Z.

(** [/^\d{4}-\d{2}-\d{2}$/.test(dateString)] *)
Definition dateRegex_test (dateString : string) : bool :=
  match list_ascii_of_string dateString with
  | [y1; y2; y3; y4; h1; m1; m2; h2; d1; d2] =>
      isDigit y1 && isDigit y2 && isDigit y3 && isDigit y4
      && Ascii.eqb h1 "-"
      && isDigit m1 && isDigit m2
      && Ascii.eqb h2 "-"
      && isDigit d1 && isDigit d2
  | _ => false
  end.

Definition isValidDate (dateString : string) : bool :=
  if negb (dateRegex_test dateString) then false
  else
    match Date_getTime dateString with
    | Some _ => true
    | None => false
    end.

(** [dateFrom && !this.isValidDate(dateFrom)] *)
Definition suppliedInvalid (date : option string) : bool :=
  match date with
  | Some d => truthy d && negb (isValidDate d)
  | None => false
  end.

(** Here and below [counterId] is a string, as its type says, and
    [!counterId || typeof counterId !== 'string'] is the test that it
    is empty. *)
Definition getVisits (c : Client) (counterId : string)
    (dateFrom dateTo : option string) : IO JsonValue :=
  if negb (truthy counterId) then throw counterIdError
  else if suppliedInvalid dateFrom then
    throw (new_Error "dateFrom must be in YYYY-MM-DD format")
  else if suppliedInvalid dateTo then
    throw (new_Error "dateTo must be in YYYY-MM-DD format")
  else
    let url := API_BASE ++ "/" ++ API_REPORTS ++ "?ids=" ++ counterId
               ++ "&metrics=ym:s:visits" in
    makeRequest c url 1.

End Engine.

Definition getContentAnalyticsSources (c : Client) (counterId : string)
    (dateFrom dateTo : option string) : IO JsonValue :=
  if negb (truthy counterId) then throw counterIdError
  else
    let url := API_BASE ++ "/" ++ API_REPORTS
               ++ "?preset=publishers_sources&id=" ++ counterId in
    let url := appendParam url "&date1=" dateFrom in
    let url := appendParam url "&date2=" dateTo in
    makeRequest c url 1.

Definition getTrafficSourcesTypes (c : Client) (counterId : string)
  : IO JsonValue :=
  if negb (truthy counterId) then throw counterIdError
  else
    let url := API_BASE ++ "/" ++ API_REPORTS
               ++ "?dimensions=ym:s:lastTrafficSource&metrics=ym:s:visits,ym:s:users&filters=ym:s:lastTrafficSource=.('organic','direct','referral')&id="
               ++ counterId ++ "&lang=ru" in
    makeRequest c url 1.

(** The [filters] string [getSearchEnginesData] assembles. *)
Definition searchEnginesFilters (excludeRobots newUsersOnly : bool)
  : string :=
  let filters := "ym:s:trafficSource=='organic'" in
  let filters :=
    if excludeRobots then filters ++ " AND ym:s:isRobot=='No'"
    else filters in
  let filters :=
    if newUsersOnly then filters ++ " AND ym:s:isNewUser=='Yes'"
    else filters in
  filters.

Definition getSearchEnginesData (c : Client) (counterId : string)
    (excludeRobots newUsersOnly : option bool) : IO JsonValue :=
  let excludeRobots := defaultTo excludeRobots false in
  let newUsersOnly := defaultTo newUsersOnly false in
  if negb (truthy counterId) then throw counterIdError
  else
    let filters := searchEnginesFilters excludeRobots newUsersOnly in
    let url := API_BASE ++ "/" ++ API_REPORTS
               ++ "?dimensions=ym:s:searchEngine&metrics=ym:s:visits,ym:s:users&filters="
               ++ encodeURIComponent filters ++ "&id=" ++ counterId in
    makeRequest c url 1.

Definition defaultCities : list string := ["Москва"; "Санкт-Петербург"].

(** The [filters] string [getRegionalData] assembles. *)
Definition regionalFilters (cities : list string) : string :=
  let citiesFilter := join "," (map (fun city => "'" ++ city ++ "'") cities) in
  "ym:s:regionCityName=.(" ++ citiesFilter ++ ")".

Definition getRegionalData (c : Client) (counterId : string)
    (cities : option (list string)) : IO JsonValue :=
  let cities := defaultTo cities defaultCities in
  if negb (truthy counterId) then throw counterIdError
  else
    let filters := regionalFilters cities in
    let url := API_BASE ++ "/" ++ API_REPORTS
               ++ "?metrics=ym:s:visits,ym:s:users&filters="
               ++ encodeURIComponent filters ++ "&id=" ++ counterId
               ++ "&lang=ru" in
    makeRequest c url 1.

(** The [filters] string [getPageDepthAnalysis] assembles. *)
Definition pageDepthFilters (minPages : Z) : string :=
  "ym:s:pageViews>" ++ Number_toString minPages.

Definition getPageDepthAnalysis (c : Client) (counterId : string)
    (minPages : option Z) : IO JsonValue :=
  let minPages := defaultTo minPages 5 in
  if negb (truthy counterId) then throw counterIdError
  else
    let filters := pageDepthFilters minPages in
    let url := API_BASE ++ "/" ++ API_REPORTS
               ++ "?metrics=ym:s:visits&filters="
               ++ encodeURIComponent filters ++ "&id=" ++ counterId in
    makeRequest c url 1.

Definition getOrganicSearchPerformance (c : Client) (counterId : string)
    (dateFrom dateTo : option string) : IO JsonValue :=
  if negb (truthy counterId) then throw counterIdError
  else
    let url := API_BASE ++ "/" ++ API_REPORTS
               ++ "?dimensions=ym:s:searchEngine,ym:s:searchPhrase&metrics=ym:s:visits,ym:s:users,ym:s:pageviews&filters=ym:s:trafficSource=='organic'&id="
               ++ counterId in
    let url := appendParam url "&date1=" dateFrom in
    let url := appendParam url "&date2=" dateTo in
    makeRequest c url 1.

Definition getContentAnalyticsArticles (c : Client) (counterId : string)
    (dateFrom dateTo : option string) : IO JsonValue :=
  if negb (truthy counterId) then throw counterIdError
  else
    let url := API_BASE ++ "/" ++ API_REPORTS ++ "?ids=" ++ counterId
               ++ "&dimensions=ym:s:publisherArticle&metrics=ym:s:publisherviews&filters=(ym:s:publisherArticle!n)&sort=-ym:s:publisherviews" in
    let url := appendParam url "&date1=" dateFrom in
    let url := appendParam url "&date2=" dateTo in
    makeRequest c url 1.

(** *** Attribution rewriting *)

Definition attributionPrefixMap : list (string * string) :=
  [ ("automatic", "automatic");
    ("last", "last");
    ("first", "first");
    ("lastsign", "lastsign");
    ("last_yandex_direct_click", "last_yandex_direct_click");
    ("cross_device_first", "cross_device_first");
    ("cross_device_last", "cross_device_last");
    ("cross_device_last_significant", "cross_device_last_significant");
    ("cross_device_last_yandex_direct_click",
     "cross_device_last_yandex_direct_click") ].

(** The alternatives of the first group of [dimensionPattern], in the
    order the pattern lists them. *)
Definition patternPrefixes : list string :=
  [ "automatic"; "last"; "first"; "lastsign";
    "last_yandex_direct_click"; "lastYandexDirectClick";
    "cross_device_first"; "crossDeviceFirst";
    "cross_device_last"; "crossDeviceLast";
    "cross_device_last_significant"; "crossDeviceLastSignificant";
    "cross_device_last_yandex_direct_click";
    "crossDeviceLastYandexDirectClick" ].

(** [(a1|a2|...)(.+)$] tried on [s]: the alternatives are tried from
    left to right, and the first one after which [(.+)$] succeeds gives
    the match. The result is the pair of the two captures. *)
Fixpoint matchAlternatives (alts : list string) (s : string)
  : option (string * string) :=
  match alts with
  | [] => None
  | a :: alts' =>
      match stripPrefix a s with
      | Some rest =>
          if dotPlusEnd rest then Some (a, rest)
          else matchAlternatives alts' s
      | None => matchAlternatives alts' s
      end
  end.

(** [dimension.match(dimensionPattern)]: captures 1 and 2 *)
Definition dimensionPattern_match (dimension : string)
  : option (string * string) :=
  match stripPrefix "ym:s:" dimension with
  | Some s => matchAlternatives patternPrefixes s
  | None => None
  end.

(** [dimension.match(/^ym:s:(.+)$/)]: capture 1 *)
Definition basePattern_match (dimension : string) : option string :=
  match stripPrefix "ym:s:" dimension with
  | Some s => if dotPlusEnd s then Some s else None
  | None => None
  end.

Definition buildDimensionNameWithAttribution (dimension : string)
    (attribution : option string) : Error + string :=
  let attribution := defaultTo attribution "automatic" in
  if negb (truthy_opt (get_property attributionPrefixMap attribution)) then
    inl (new_Error ("Invalid attribution: " ++ attribution
                    ++ ". Must be one of: "
                    ++ join ", " (Object_keys attributionPrefixMap)))
  else
    let prefix := template (get_property attributionPrefixMap attribution) in
    match dimensionPattern_match dimension with
    | Some (_, rest) => inr ("ym:s:" ++ prefix ++ rest)
    | None =>
        match basePattern_match dimension with
        | Some base => inr ("ym:s:" ++ prefix ++ base)
        | None => inr dimension
        end
    end.

(** The [processedDimensions] of [getDataByTime]. *)
Definition processDimensions (dimensions : option (list string))
    (attribution : option string) : Error + option (list string) :=
  match dimensions with
  | Some dims =>
      if truthy_opt attribution && (0 <? Z.of_nat (List.length dims)) then
        match
          Array_map
            (fun dim => buildDimensionNameWithAttribution dim attribution)
            dims
        with
        | inl e => inl e
        | inr processed => inr (Some processed)
        end
      else inr dimensions
  | None => inr dimensions
  end.

(** The [url] [getDataByTime] assembles once its arguments have passed
    the checks. *)
Definition dataByTimeURL (counterId : string) (metrics : list string)
    (dateFrom dateTo : option string)
    (processedDimensions : option (list string)) (group : string)
    (topKeys : Z) (timezone : option string) : string :=
  let url := API_BASE ++ "/" ++ API_REPORTS ++ "/bytime?ids="
             ++ counterId ++ "&metrics=" ++ join "," metrics
             ++ "&group=" ++ group
             ++ "&top_keys=" ++ Number_toString topKeys in
  let url := appendParam url "&date1=" dateFrom in
  let url := appendParam url "&date2=" dateTo in
  let url :=
    match processedDimensions with
    | Some dims =>
        if 0 <? Z.of_nat (List.length dims) then
          url ++ "&dimensions=" ++ join "," dims
        else url
    | None => url
    end in
  let url :=
    match timezone with
    | Some tz =>
        if truthy tz then url ++ "&timezone=" ++ encodeURIComponent tz
        else url
    | None => url
    end in
  url.

Definition getDataByTime (c : Client) (counterId : string)
    (metrics : option (list string)) (dateFrom dateTo : option string)
    (dimensions : option (list string)) (group : option string)
    (topKeys : option Z) (timezone attribution : option string)
  : IO JsonValue :=
  let group := defaultTo group "day" in
  let topKeys := defaultTo topKeys 7 in
  if negb (truthy counterId) then throw counterIdError
  else
    match metrics with
    | None => throw (new_Error "At least one metric is required")
    | Some metrics =>
        if Z.of_nat (List.length metrics) =? 0 then
          throw (new_Error "At least one metric is required")
        else if 20 <? Z.of_nat (List.length metrics) then
          throw (new_Error "Maximum 20 metrics allowed per request")
        else if
          match dimensions with
          | Some dims => 10 <? Z.of_nat (List.length dims)
          | None => false
          end
        then throw (new_Error "Maximum 10 dimensions allowed per request")
        else
          match processDimensions dimensions attribution with
          | inl e => throw e
          | inr processedDimensions =>
              makeRequest c
                (dataByTimeURL counterId metrics dateFrom dateTo
                   processedDimensions group topKeys timezone)
                1
          end
    end.

(** *** The remaining reports *)

Definition getAccountInfo (c : Client) (counterId : string) : IO JsonValue :=
  if negb (truthy counterId) then throw counterIdError
  else
    let url := API_BASE ++ "/" ++ API_MANAGMENT ++ "/counter/" ++ counterId in
    makeRequest c url 1.

Definition getSourcesSummary (c : Client) (counterId : string)
  : IO JsonValue :=
  if negb (truthy counterId) then throw counterIdError
  else
    let url := API_BASE ++ "/" ++ API_REPORTS
               ++ "?preset=sources_summary&id=" ++ counterId in
    makeRequest c url 1.

Definition getSourcesSearchPhrases (c : Client) (counterId : string)
  : IO JsonValue :=
  if negb (truthy counterId) then throw counterIdError
  else
    let url := API_BASE ++ "/" ++ API_REPORTS
               ++ "?preset=sources_search_phrases&id=" ++ counterId in
    makeRequest c url 1.

Definition getBrowsersReport (c : Client) (counterId : string)
  : IO JsonValue :=
  if negb (truthy counterId) then throw counterIdError
  else
    let url := API_BASE ++ "/" ++ API_REPORTS
               ++ "?preset=tech_platforms&dimensions=ym:s:browser&id="
               ++ counterId in
    makeRequest c url 1.

Definition getContentAnalyticsCategories (c : Client) (counterId : string)
    (dateFrom dateTo : option string) : IO JsonValue :=
  if negb (truthy counterId) then throw counterIdError
  else
    let url := API_BASE ++ "/" ++ API_REPORTS
               ++ "?preset=publishers_rubrics&id=" ++ counterId in
    let url := appendParam url "&date1=" dateFrom in
    let url := appendParam url "&date2=" dateTo in
    makeRequest c url 1.

Definition getContentAnalyticsAuthors (c : Client) (counterId : string)
    (dateFrom dateTo : option string) : IO JsonValue :=
  if negb (truthy counterId) then throw counterIdError
  else
    let url := API_BASE ++ "/" ++ API_REPORTS
               ++ "?preset=publishers_authors&id=" ++ counterId in
    let url := appendParam url "&date1=" dateFrom in
    let url := appendParam url "&date2=" dateTo in
    makeRequest c url 1.

Definition getContentAnalyticsTopics (c : Client) (counterId : string)
    (dateFrom dateTo : option string) : IO JsonValue :=
  if negb (truthy counterId) then throw counterIdError
  else
    let url := API_BASE ++ "/" ++ API_REPORTS
               ++ "?preset=publishers_thematics&id=" ++ counterId in
    let url := appendParam url "&date1=" dateFrom in
    let url := appendParam url "&date2=" dateTo in
    makeRequest c url 1.

(** The [metrics] string [getGoalsConversion] assembles. *)
Definition goalsMetrics (goalIds : list Z) : string :=
  join ","
    (map (fun id => "ym:s:goal" ++ Number_toString id ++ "conversionRate")
         goalIds).

Definition getGoalsConversion (c : Client) (counterId : string)
    (goalIds : list Z) : IO JsonValue :=
  if negb (truthy counterId) then throw counterIdError
  else
    let metrics := goalsMetrics goalIds in
    let url := API_BASE ++ "/" ++ API_REPORTS ++ "?metrics=ym:s:users,"
               ++ metrics ++ "&id=" ++ counterId in
    makeRequest c url 1.

Definition getUserDemographics (c : Client) (counterId : string)
    (dateFrom dateTo : option string) : IO JsonValue :=
  if negb (truthy counterId) then throw counterIdError
  else
    let url := API_BASE ++ "/" ++ API_REPORTS
               ++ "?dimensions=ym:s:ageInterval,ym:s:gender,ym:s:deviceCategory&metrics=ym:s:visits,ym:s:users,ym:s:pageviews,ym:s:bounceRate,ym:s:avgVisitDurationSeconds&id="
               ++ counterId in
    let url := appendParam url "&date1=" dateFrom in
    let url := appendParam url "&date2=" dateTo in
    makeRequest c url 1.

Definition getDeviceAnalysis (c : Client) (counterId : string)
    (dateFrom dateTo : option string) : IO JsonValue :=
  if negb (truthy counterId) then throw counterIdError
  else
    let url := API_BASE ++ "/" ++ API_REPORTS
               ++ "?dimensions=ym:s:browser,ym:s:operatingSystem&metrics=ym:s:visits,ym:s:pageviews,ym:s:bounceRate,ym:s:avgVisitDurationSeconds&id="
               ++ counterId in
    let url := appendParam url "&date1=" dateFrom in
    let url := appendParam url "&date2=" dateTo in
    makeRequest c url 1.

Definition getPagePerformance (c : Client) (counterId : string)
    (dateFrom dateTo : option string) : IO JsonValue :=
  if negb (truthy counterId) then throw counterIdError
  else
    let url := API_BASE ++ "/" ++ API_REPORTS
               ++ "?dimensions=ym:s:URLPath&metrics=ym:s:pageviews,ym:s:bounceRate,ym:s:avgVisitDurationSeconds&id="
               ++ counterId in
    let url := appendParam url "&date1=" dateFrom in
    let url := appendParam url "&date2=" dateTo in
    makeRequest c url 1.

Definition getNewUsersBySource (c : Client) (counterId : string)
    (dateFrom dateTo : option string) : IO JsonValue :=
  if negb (truthy counterId) then throw counterIdError
  else
    let url := API_BASE ++ "/" ++ API_REPORTS
               ++ "?dimensions=ym:s:trafficSource&metrics=ym:s:newUsers&id="
               ++ counterId in
    let url := appendParam url "&date1=" dateFrom in
    let url := appendParam url "&date2=" dateTo in
    makeRequest c url 1.

Definition getMobileVsDesktop (c : Client) (counterId : string)
    (dateFrom dateTo : option string) : IO JsonValue :=
  if negb (truthy counterId) then throw counterIdError
  else
    let url := API_BASE ++ "/" ++ API_REPORTS
               ++ "?dimensions=ym:s:deviceCategory&metrics=ym:s:visits,ym:s:users,ym:s:pageviews,ym:s:bounceRate,ym:s:avgVisitDurationSeconds&id="
               ++ counterId in
    let url := appendParam url "&date1=" dateFrom in
    let url := appendParam url "&date2=" dateTo in
    makeRequest c url 1.

Definition getGeographicalOrganicTraffic (c : Client) (counterId : string)
    (dateFrom dateTo : option string) : IO JsonValue :=
  if negb (truthy counterId) then throw counterIdError
  else
    let url := API_BASE ++ "/" ++ API_REPORTS
               ++ "?dimensions=ym:s:regionCountry,ym:s:regionCity&metrics=ym:s:visits,ym:s:users&filters=ym:s:trafficSource=='organic'&id="
               ++ counterId in
    let url := appendParam url "&date1=" dateFrom in
    let url := appendParam url "&date2=" dateTo in
    makeRequest c url 1.

Definition getYandexDirectExperiment (c : Client) (counterId : string)
    (experimentId : Z) : IO JsonValue :=
  if negb (truthy counterId) then throw counterIdError
  else
    let url := API_BASE ++ "/" ++ API_REPORTS
               ++ "?metrics=ym:s:bounceRate&dimensions=ym:s:experimentAB"
               ++ Number_toString experimentId ++ "&id=" ++ counterId in
    makeRequest c url 1.

Definition getEcommercePerformance (c : Client) (counterId : string)
    (currency dateFrom dateTo : option string) : IO JsonValue :=
  let currency := defaultTo currency "RUB" in
  if negb (truthy counterId) then throw counterIdError
  else
    let url := API_BASE ++ "/" ++ API_REPORTS
               ++ "?dimensions=ym:s:productCategory,ym:s:regionCountry,ym:s:regionCity&metrics=ym:s:ecommercePurchases,ym:s:ecommerce"
               ++ currency ++ "ConvertedRevenue&id=" ++ counterId in
    let url := appendParam url "&date1=" dateFrom in
    let url := appendParam url "&date2=" dateTo in
    makeRequest c url 1.

Definition getConversionRateBySourceAndLanding (c : Client)
    (counterId : string) (goalId : Z) (dateFrom dateTo : option string)
  : IO JsonValue :=
  if negb (truthy counterId) then throw counterIdError
  else
    let url := API_BASE ++ "/" ++ API_REPORTS
               ++ "?dimensions=ym:s:trafficSource,ym:s:landingPage&metrics=ym:s:visits,ym:s:goal"
               ++ Number_toString goalId ++ "conversionRate&id="
               ++ counterId in
    let url := appendParam url "&date1=" dateFrom in
    let url := appendParam url "&date2=" dateTo in
    makeRequest c url 1.

End YandexMetrikaClient.

Import YandexMetrikaClient.

(** ** JavaScript engines

    How an engine reads a string of the date-only form [YYYY-MM-DD], the
    only strings [isValidDate] hands to [Date]. The server runs on Node,
    whose engine is V8: it wants a month from 01 to 12 and a day from 01
    to 31, and a day that exceeds the length of the month is carried
    over into the following month; this reading is
    [Date_getTime_rolling]. [Date_getTime_strict] is the reading of an
    engine that checks the day against the calendar, which Node's does
    not; the two agree on every date that exists. *)

Module Engines.

Definition digitValue (c : ascii) : Z := Z.of_nat (nat_of_ascii c) - 48.

(** Year, month and day of a string of the date-only form. *)
Definition dateFields (s : string) : option (Z * Z * Z) :=
  if dateRegex_test s then
    match list_ascii_of_string s with
    | [y1; y2; y3; y4; _; m1; m2; _; d1; d2] =>
        Some (1000 * digitValue y1 + 100 * digitValue y2
              + 10 * digitValue y3 + digitValue y4,
              10 * digitValue m1 + digitValue m2,
              10 * digitValue d1 + digitValue d2)
    | _ => None
    end
  else None.

Definition isLeapYear (y : Z) : bool :=
  ((y mod 4 =? 0) && negb (y mod 100 =? 0)) || (y mod 400 =? 0).

Definition daysInMonth (y m : Z) : Z :=
  if m =? 2 then (if isLeapYear y then 29 else 28)
  else if (m =? 4) || (m =? 6) || (m =? 9) || (m =? 11) then 30
  else 31.

(** Days from 1970-01-01 to the given day of the proleptic Gregorian
    calendar. *)
Definition daysFromCivil (y m d : Z) : Z :=
  let y' := if m <=? 2 then y - 1 else y in
  let era := y' / 400 in
  let yoe := y' - era * 400 in
  let mp := (m + 9) mod 12 in
  let doy := (153 * mp + 2) / 5 + d - 1 in
  let doe := yoe * 365 + yoe / 4 - yoe / 100 + doy in
  era * 146097 + doe - 719468.

Definition msPerDay : Z := 86400000.

(** An engine that refuses a day the month does not have. *)
Definition Date_getTime_strict (s : string) : option Z :=
  match dateFields s with
  | Some (y, m, d) =>
      if (1 <=? m) && (m <=? 12) && (1 <=? d) && (d <=? daysInMonth y m)
      then Some (daysFromCivil y m d * msPerDay)
      else None
  | None => None
  end.

(** Node's engine. *)
Definition Date_getTime_rolling (s : string) : option Z :=
  match dateFields s with
  | Some (y, m, d) =>
      if (1 <=? m) && (m <=? 12) && (1 <=? d) && (d <=? 31)
      then Some (daysFromCivil y m d * msPerDay)
      else None
  | None => None
  end.

End Engines.

(** ** Observations on runs and on URLs *)

(** A call fails with [InvalidParameter]: it is rejected with a plain
    [Error] and no effect at all has been performed, in particular no
    request has been sent. *)
Definition InvalidParameter {A} (r : Promise A * list Event) : Prop :=
  exists msg, r = (inl (new_Error msg), []).

(** A call hands a request to the network: the first effect it performs
    is a [fetch]. *)
Definition SendsRequest {A} (r : Promise A * list Event) : Prop :=
  exists url authorization rest, snd r = Fetch url authorization :: rest.

(** The nine attribution models. *)
Definition recognizedModels : list string :=
  [ "automatic"; "last"; "first"; "lastsign"; "last_yandex_direct_click";
    "cross_device_first"; "cross_device_last";
    "cross_device_last_significant";
    "cross_device_last_yandex_direct_click" ].

(** The URLs requested, in order. *)
Fixpoint requestedURLs (evs : list Event) : list string :=
  match evs with
  | [] => []
  | Fetch url _ :: evs' => url :: requestedURLs evs'
  | Sleep _ :: evs' => requestedURLs evs'
  end.

Fixpoint noChar (c : ascii) (s : string) : bool :=
  match s with
  | EmptyString => true
  | String a s' => negb (Ascii.eqb a c) && noChar c s'
  end.

(** The pieces of [s] between the occurrences of [sep]. *)
Fixpoint split (sep : ascii) (s : string) : list string :=
  match s with
  | EmptyString => [EmptyString]
  | String a s' =>
      if Ascii.eqb a sep then EmptyString :: split sep s'
      else
        match split sep s' with
        | piece :: pieces => String a piece :: pieces
        | [] => [String a EmptyString]
        end
  end.

(** What precedes the first [c] of [s] (all of [s] when there is none). *)
Fixpoint beforeFirst (c : ascii) (s : string) : string :=
  match s with
  | EmptyString => EmptyString
  | String a s' => if Ascii.eqb a c then EmptyString
                   else String a (beforeFirst c s')
  end.

(** What follows the first [c] of [s]. *)
Fixpoint afterFirst (c : ascii) (s : string) : option string :=
  match s with
  | EmptyString => None
  | String a s' => if Ascii.eqb a c then Some s' else afterFirst c s'
  end.

Definition parseParam (segment : string) : string * string :=
  (beforeFirst "=" segment,
   match afterFirst "=" segment with
   | Some v => v
   | None => EmptyString
   end).

(** The part of a URL that is sent to the server: what precedes the
    first [#]. What follows is the fragment. *)
Definition withoutFragment (url : string) : string := beforeFirst "#" url.

(** The text after the first [?], cut at every [&]; in each piece the
    key is what precedes the first [=] and the value what follows it. *)
Definition rawParams (text : string) : list (string * string) :=
  match afterFirst "?" text with
  | Some query => map parseParam (split "&" query)
  | None => []
  end.

(** The query parameters of a URL: its query runs from the first [?] to
    the first [#], or to the end of the URL when there is no [#]. *)
Definition queryParams (url : string) : list (string * string) :=
  rawParams (withoutFragment url).

Definition queryKeys (url : string) : list string :=
  map fst (queryParams url).

(** The values the URL gives to the parameter [key], in order. *)
Definition queryValues (key url : string) : list string :=
  map snd (filter (fun kv => (fst kv =? key)%string) (queryParams url)).

(** A string in percent-encoded form: unreserved characters and escapes
    [%XX] only. *)
Fixpoint percentEncoded (s : string) : bool :=
  match s with
  | EmptyString => true
  | String "%" (String h1 (String h2 s')) =>
      charIn h1 "0123456789ABCDEF" && charIn h2 "0123456789ABCDEF"
      && percentEncoded s'
  | String c s' => isUnreserved c && percentEncoded s'
  end.

(** ** Scenarios

    Servers, responses and clients the statements below are about. *)

(** The error [makeRequest] throws for a response with the given
    status. *)
Definition statusError (r : Response) : Error :=
  new_Error ("Yandex Metrika error " ++ Number_toString (status r) ++ ": "
             ++ text r).

(** The three requests and two delays of a call that is retried twice. *)
Definition threeAttempts (c : Client) (url : string) : list Event :=
  [ Fetch url (authorization c);
    Sleep (r_retryDelay (config c) * 1);
    Fetch url (authorization c);
    Sleep (r_retryDelay (config c) * 2);
    Fetch url (authorization c) ].

(** A server that answers every request with the same response. *)
Definition always (r : Response) : Network := fun _ _ => Responded r.

(** A server that answers the n-th request of a run with the n-th
    response of the list, and with [r] once the list is used up. *)
Definition scripted (rs : list Response) (r : Response) : Network :=
  fun n _ => Responded (nth n rs r).

Definition notJson : Promise JsonValue :=
  inl (mkError "SyntaxError" "Unexpected token in JSON").

(** A date argument that [getVisits] is given and that does not pass its
    check: a non-empty string that does not match the pattern or that the
    engine's [Date] cannot read. *)
Definition rejectedDate (Date_getTime : string -> option Z)
    (date : option string) : Prop :=
  exists s,
    date = Some s /\ s <> EmptyString
    /\ (dateRegex_test s = false \/ Date_getTime s = None).

(** The client with the default configuration. *)
Definition defaultClient : Client := constructor "token" no_config.

(** A server that answers every request with [200] and an empty JSON
    object. *)
Definition healthy : Network :=
  always (mkResponse 200 "{}" (inr (Json "{}"))).

(** What the rewriter throws for an attribution the map does not hold. *)
Definition invalidAttribution (a : string) : Error :=
  new_Error ("Invalid attribution: " ++ a
             ++ ". Must be one of: automatic, last, first, lastsign, last_yandex_direct_click, cross_device_first, cross_device_last, cross_device_last_significant, cross_device_last_yandex_direct_click").

(** A string without [&], and a list of strings without it. *)
Definition clean (s : string) : Prop := noChar "&" s = true.

Definition cleanList (xs : list string) : Prop := Forall clean xs.

(** A string that can stand in a query as it is: it holds no [&], which
    would end the parameter, and no [#], which would end the query. *)
Definition tidy (s : string) : Prop := clean s /\ noChar "#" s = true.

Definition tidyOpt (o : option string) : Prop :=
  forall s, o = Some s -> tidy s.

Definition tidyOptList (o : option (list string)) : Prop :=
  forall xs, o = Some xs -> Forall tidy xs.

(** The parameter an optional argument contributes to a URL. *)
Definition optParam (key : string) (value : option string)
  : list (string * string) :=
  match value with
  | Some v => if truthy v then [(key, v)] else []
  | None => []
  end.

(** The parameter the dimensions contribute to the URL of
    [getDataByTime]. *)
Definition dimensionsParam (processedDimensions : option (list string))
  : list (string * string) :=
  match processedDimensions with
  | Some (dim :: dims) => [("dimensions", join "," (dim :: dims))]
  | _ => []
  end.

(** The parameter the time zone contributes to it. *)
Definition timezoneParam (timezone : option string)
  : list (string * string) :=
  match timezone with
  | Some tz => if truthy tz then [("timezone", encodeURIComponent tz)] else []
  | None => []
  end.

(** The parameters of the URL of [getDataByTime]. *)
Definition dataByTimeParams (counterId : string) (metrics : list string)
    (dateFrom dateTo : option string)
    (processedDimensions : option (list string)) (group : string)
    (topKeys : Z) (timezone : option string) : list (string * string) :=
  ([ ("ids", counterId);
     ("metrics", join "," metrics);
     ("group", group);
     ("top_keys", Number_toString topKeys) ]
   ++ optParam "date1" dateFrom
   ++ optParam "date2" dateTo
   ++ dimensionsParam processedDimensions
   ++ timezoneParam timezone)%list.

(** The keys [getDataByTime] gives its parameters. *)
Definition dataByTimeKeys : list string :=
  [ "ids"; "metrics"; "group"; "top_keys"; "date1"; "date2"; "dimensions";
    "timezone" ].

(** A URL with a query and without fragment, and the parameters of that
    query. *)
Definition Built (url : string) (params : list (string * string)) : Prop :=
  (exists query, afterFirst "?" url = Some query)
  /\ rawParams url = params
  /\ noChar "#" url = true.

(** ** The attempts of a call *)

(** The requests and delays of [k] attempts, the first of them numbered
    [attempt]: a delay of [retryDelay] times the number of the attempt
    follows every request but the last. *)
Fixpoint backoffTrace (url authorization : string) (retryDelay attempt : Z)
    (k : nat) : list Event :=
  match k with
  | O => []
  | S k' =>
      Fetch url authorization
      :: match k' with
         | O => []
         | S _ =>
             Sleep (retryDelay * attempt)
             :: backoffTrace url authorization retryDelay (attempt + 1) k'
         end
  end.

(** What the [catch] clause of [makeRequest] receives after an attempt
    that settled as [o], if anything. *)
Definition caught (o : FetchOutcome) : option Error :=
  match o with
  | Rejected e => Some e
  | Responded r => if ok r then None else Some (statusError r)
  end.

(** How the call settles when the attempt that settled as [o] is its
    last. *)
Definition settled (o : FetchOutcome) : Promise JsonValue :=
  match o with
  | Rejected e => inl e
  | Responded r => if ok r then json r else inl (statusError r)
  end.

(** The attempt numbered [attempt], settled as [o], is followed by
    another attempt. *)
Definition retried (c : Client) (attempt : Z) (o : FetchOutcome) : bool :=
  match caught o with
  | Some e => (attempt <? r_retries (config c)) && isRetryableError e
  | None => false
  end.

(** A network on which every request times out. *)
Definition unreachable : Network := fun _ _ => Rejected AbortError.

(** The course of a call that starts in the world [w] with the attempt
    numbered [attempt] and ends as [res]: it makes [k + 1] attempts, [k]
    being the first attempt (counted from 0) that is not followed by
    another one; its effects are the requests and delays of these
    attempts, and it settles as the last attempt does. *)
Definition Course (c : Client) (url : string) (attempt : Z) (w : World)
    (res : Promise JsonValue * World) : Prop :=
  exists k : nat,
    network (snd res) = network w
    /\ events (snd res) =
       (events w
        ++ backoffTrace url (authorization c) (r_retryDelay (config c))
             attempt (S k))%list
    /\ (forall i, (i < k)%nat ->
          retried c (attempt + Z.of_nat i)
            (network w (fetchCount (events w) + i)%nat url) = true)
    /\ retried c (attempt + Z.of_nat k)
         (network w (fetchCount (events w) + k)%nat url) = false
    /\ fst res = settled (network w (fetchCount (events w) + k)%nat url).

(** ** The operations of the client *)

(** A call of one of the public methods, with its arguments. *)
Inductive Call : Type :=
| AccountInfo (counterId : string)
| Visits (counterId : string) (dateFrom dateTo : option string)
| SourcesSummary (counterId : string)
| SourcesSearchPhrases (counterId : string)
| BrowsersReport (counterId : string)
| ContentAnalyticsSources (counterId : string)
    (dateFrom dateTo : option string)
| ContentAnalyticsCategories (counterId : string)
    (dateFrom dateTo : option string)
| ContentAnalyticsAuthors (counterId : string)
    (dateFrom dateTo : option string)
| ContentAnalyticsTopics (counterId : string)
    (dateFrom dateTo : option string)
| TrafficSourcesTypes (counterId : string)
| SearchEnginesData (counterId : string)
    (excludeRobots newUsersOnly : option bool)
| RegionalData (counterId : string) (cities : option (list string))
| PageDepthAnalysis (counterId : string) (minPages : option Z)
| GoalsConversion (counterId : string) (goalIds : list Z)
| UserDemographics (counterId : string) (dateFrom dateTo : option string)
| DeviceAnalysis (counterId : string) (dateFrom dateTo : option string)
| PagePerformance (counterId : string) (dateFrom dateTo : option string)
| OrganicSearchPerformance (counterId : string)
    (dateFrom dateTo : option string)
| NewUsersBySource (counterId : string) (dateFrom dateTo : option string)
| MobileVsDesktop (counterId : string) (dateFrom dateTo : option string)
| GeographicalOrganicTraffic (counterId : string)
    (dateFrom dateTo : option string)
| YandexDirectExperiment (counterId : string) (experimentId : Z)
| ContentAnalyticsArticles (counterId : string)
    (dateFrom dateTo : option string)
| DataByTime (counterId : string) (metrics : option (list string))
    (dateFrom dateTo : option string) (dimensions : option (list string))
    (group : option string) (topKeys : option Z)
    (timezone attribution : option string)
| EcommercePerformance (counterId : string)
    (currency dateFrom dateTo : option string)
| ConversionRateBySourceAndLanding (counterId : string) (goalId : Z)
    (dateFrom dateTo : option string).

(** The method a call stands for, applied to its arguments. *)
Definition perform (Date_getTime : string -> option Z) (c : Client)
    (call : Call) : IO JsonValue :=
  match call with
  | AccountInfo id => getAccountInfo c id
  | Visits id from to => getVisits Date_getTime c id from to
  | SourcesSummary id => getSourcesSummary c id
  | SourcesSearchPhrases id => getSourcesSearchPhrases c id
  | BrowsersReport id => getBrowsersReport c id
  | ContentAnalyticsSources id from to =>
      getContentAnalyticsSources c id from to
  | ContentAnalyticsCategories id from to =>
      getContentAnalyticsCategories c id from to
  | ContentAnalyticsAuthors id from to =>
      getContentAnalyticsAuthors c id from to
  | ContentAnalyticsTopics id from to =>
      getContentAnalyticsTopics c id from to
  | TrafficSourcesTypes id => getTrafficSourcesTypes c id
  | SearchEnginesData id robots new => getSearchEnginesData c id robots new
  | RegionalData id cities => getRegionalData c id cities
  | PageDepthAnalysis id minPages => getPageDepthAnalysis c id minPages
  | GoalsConversion id goalIds => getGoalsConversion c id goalIds
  | UserDemographics id from to => getUserDemographics c id from to
  | DeviceAnalysis id from to => getDeviceAnalysis c id from to
  | PagePerformance id from to => getPagePerformance c id from to
  | OrganicSearchPerformance id from to =>
      getOrganicSearchPerformance c id from to
  | NewUsersBySource id from to => getNewUsersBySource c id from to
  | MobileVsDesktop id from to => getMobileVsDesktop c id from to
  | GeographicalOrganicTraffic id from to =>
      getGeographicalOrganicTraffic c id from to
  | YandexDirectExperiment id experimentId =>
      getYandexDirectExperiment c id experimentId
  | ContentAnalyticsArticles id from to =>
      getContentAnalyticsArticles c id from to
  | DataByTime id metrics from to dimensions group topKeys timezone
      attribution =>
      getDataByTime c id metrics from to dimensions group topKeys timezone
        attribution
  | EcommercePerformance id currency from to =>
      getEcommercePerformance c id currency from to
  | ConversionRateBySourceAndLanding id goalId from to =>
      getConversionRateBySourceAndLanding c id goalId from to
  end.

(** The counter identifier a call is given. *)
Definition counterIdOf (call : Call) : string :=
  match call with
  | AccountInfo id | Visits id _ _ | SourcesSummary id
  | SourcesSearchPhrases id | BrowsersReport id
  | ContentAnalyticsSources id _ _ | ContentAnalyticsCategories id _ _
  | ContentAnalyticsAuthors id _ _ | ContentAnalyticsTopics id _ _
  | TrafficSourcesTypes id | SearchEnginesData id _ _ | RegionalData id _
  | PageDepthAnalysis id _ | GoalsConversion id _ | UserDemographics id _ _
  | DeviceAnalysis id _ _ | PagePerformance id _ _
  | OrganicSearchPerformance id _ _ | NewUsersBySource id _ _
  | MobileVsDesktop id _ _ | GeographicalOrganicTraffic id _ _
  | YandexDirectExperiment id _ | ContentAnalyticsArticles id _ _
  | DataByTime id _ _ _ _ _ _ _ _ | EcommercePerformance id _ _ _
  | ConversionRateBySourceAndLanding id _ _ _ => id
  end.

(** ** Parameter tables *)

(** A query written from its parameters, and a URL written from a path
    and its parameters. *)
Definition renderQuery (params : list (string * string)) : string :=
  join "&" (map (fun kv => fst kv ++ String "=" (snd kv)) params).

Definition renderURL (path : string) (params : list (string * string))
  : string :=
  path ++ String "?" (renderQuery params).

(** A parameter that can be written and read back: no [=] in the key,
    and neither [&] nor [#] in the key and in the value. *)
Definition plainParam (kv : string * string) : Prop :=
  noChar "=" (fst kv) = true /\ tidy (fst kv) /\ tidy (snd kv).

(** The reports that take a counter identifier and an optional date
    range and append the dates to the URL. *)
Inductive DateRangeReport : Type :=
| ContentSources | ContentCategories | ContentAuthors | ContentTopics
| Demographics | Devices | Pages | OrganicSearch | NewUsers
| MobileDesktop | GeographicalOrganic | ContentArticles.

Definition dateRangeReport (report : DateRangeReport)
  : Client -> string -> option string -> option string -> IO JsonValue :=
  match report with
  | ContentSources => getContentAnalyticsSources
  | ContentCategories => getContentAnalyticsCategories
  | ContentAuthors => getContentAnalyticsAuthors
  | ContentTopics => getContentAnalyticsTopics
  | Demographics => getUserDemographics
  | Devices => getDeviceAnalysis
  | Pages => getPagePerformance
  | OrganicSearch => getOrganicSearchPerformance
  | NewUsers => getNewUsersBySource
  | MobileDesktop => getMobileVsDesktop
  | GeographicalOrganic => getGeographicalOrganicTraffic
  | ContentArticles => getContentAnalyticsArticles
  end.

(** The parameters each of them always sends. *)
Definition dateRangeParams (report : DateRangeReport) (counterId : string)
  : list (string * string) :=
  match report with
  | ContentSources =>
      [("preset", "publishers_sources"); ("id", counterId)]
  | ContentCategories =>
      [("preset", "publishers_rubrics"); ("id", counterId)]
  | ContentAuthors =>
      [("preset", "publishers_authors"); ("id", counterId)]
  | ContentTopics =>
      [("preset", "publishers_thematics"); ("id", counterId)]
  | Demographics =>
      [("dimensions", "ym:s:ageInterval,ym:s:gender,ym:s:deviceCategory");
       ("metrics",
        "ym:s:visits,ym:s:users,ym:s:pageviews,ym:s:bounceRate,ym:s:avgVisitDurationSeconds");
       ("id", counterId)]
  | Devices =>
      [("dimensions", "ym:s:browser,ym:s:operatingSystem");
       ("metrics",
        "ym:s:visits,ym:s:pageviews,ym:s:bounceRate,ym:s:avgVisitDurationSeconds");
       ("id", counterId)]
  | Pages =>
      [("dimensions", "ym:s:URLPath");
       ("metrics",
        "ym:s:pageviews,ym:s:bounceRate,ym:s:avgVisitDurationSeconds");
       ("id", counterId)]
  | OrganicSearch =>
      [("dimensions", "ym:s:searchEngine,ym:s:searchPhrase");
       ("metrics", "ym:s:visits,ym:s:users,ym:s:pageviews");
       ("filters", "ym:s:trafficSource=='organic'");
       ("id", counterId)]
  | NewUsers =>
      [("dimensions", "ym:s:trafficSource");
       ("metrics", "ym:s:newUsers");
       ("id", counterId)]
  | MobileDesktop =>
      [("dimensions", "ym:s:deviceCategory");
       ("metrics",
        "ym:s:visits,ym:s:users,ym:s:pageviews,ym:s:bounceRate,ym:s:avgVisitDurationSeconds");
       ("id", counterId)]
  | GeographicalOrganic =>
      [("dimensions", "ym:s:regionCountry,ym:s:regionCity");
       ("metrics", "ym:s:visits,ym:s:users");
       ("filters", "ym:s:trafficSource=='organic'");
       ("id", counterId)]
  | ContentArticles =>
      [("ids", counterId);
       ("dimensions", "ym:s:publisherArticle");
       ("metrics", "ym:s:publisherviews");
       ("filters", "(ym:s:publisherArticle!n)");
       ("sort", "-ym:s:publisherviews")]
  end.

(** The reports that take a counter identifier and nothing else. *)
Inductive CounterReport : Type :=
| Summary | SearchPhrases | Browsers | TrafficSources.

Definition counterReport (report : CounterReport)
  : Client -> string -> IO JsonValue :=
  match report with
  | Summary => getSourcesSummary
  | SearchPhrases => getSourcesSearchPhrases
  | Browsers => getBrowsersReport
  | TrafficSources => getTrafficSourcesTypes
  end.

Definition counterReportParams (report : CounterReport)
    (counterId : string) : list (string * string) :=
  match report with
  | Summary => [("preset", "sources_summary"); ("id", counterId)]
  | SearchPhrases =>
      [("preset", "sources_search_phrases"); ("id", counterId)]
  | Browsers =>
      [("preset", "tech_platforms"); ("dimensions", "ym:s:browser");
       ("id", counterId)]
  | TrafficSources =>
      [("dimensions", "ym:s:lastTrafficSource");
       ("metrics", "ym:s:visits,ym:s:users");
       ("filters", "ym:s:lastTrafficSource=.('organic','direct','referral')");
       ("id", counterId); ("lang", "ru")]
  end.

(** A computation that fails its checks, or hands one URL of the API to
    [makeRequest]. *)
Definition ThrowsOrRequests (c : Client) (m : IO JsonValue) : Prop :=
  (exists e, m = throw e)
  \/ (exists rest, m = makeRequest c (API_BASE ++ "/" ++ rest) 1).

(** ** Attribution prefixes and percent-decoding *)

(** The alternatives of [dimensionPattern] before which the pattern
    lists none of their own beginnings. *)
Definition unshadowedPrefixes : list string :=
  [ "automatic"; "last"; "first"; "cross_device_first"; "crossDeviceFirst";
    "cross_device_last"; "crossDeviceLast" ].

(** The attribution models among them. *)
Definition unshadowedModels : list string :=
  [ "automatic"; "last"; "first"; "cross_device_first";
    "cross_device_last" ].

(** The place of a character in an alphabet. *)
Fixpoint indexOf (c : ascii) (alphabet : list ascii) : option nat :=
  match alphabet with
  | [] => None
  | a :: alphabet' =>
      if Ascii.eqb a c then Some 0%nat
      else option_map S (indexOf c alphabet')
  end.

(** The number a hexadecimal digit stands for: the inverse of
    [hexDigit]. *)
Definition hexValue (c : ascii) : option nat :=
  indexOf c (list_ascii_of_string "0123456789ABCDEF").

(** Reading a percent-encoded string: [%XX] stands for the byte with
    the hexadecimal number [XX], any other character for itself. *)
Fixpoint percentDecode (s : string) : option string :=
  match s with
  | EmptyString => Some EmptyString
  | String "%" (String h1 (String h2 s')) =>
      match hexValue h1, hexValue h2, percentDecode s' with
      | Some a, Some b, Some t => Some (String (ascii_of_nat (16 * a + b)) t)
      | _, _, _ => None
      end
  | String "%" _ => None
  | String c s' =>
      match percentDecode s' with
      | Some t => Some (String c t)
      | None => None
      end
  end.

(** The filter expression a URL carries: the first value of its
    [filters] parameter, percent-decoded. *)
Definition decodedFilters (url : string) : option string :=
  match hd_error (queryValues "filters" url) with
  | Some value => percentDecode value
  | None => None
  end.

(** * Statements *)

(** [makeRequest] satisfies the recursive equation the source is written
    with; the budget of [makeRequest_loop] never runs out. *)
Lemma makeRequest_unfold (c : Client) (url : string) (attempt : Z) :
  forall w,
    makeRequest c url attempt w =
    try_catch (attemptRequest c url)
      (fun error =>
         if (attempt <? r_retries (config c)) && isRetryableError error then
           delay (r_retryDelay (config c) * attempt) ;;
           makeRequest c url (attempt + 1)
         else throw error) w.
Proof.
  intro w. unfold makeRequest.
  destruct (Z.to_nat (r_retries (config c) - attempt)) as [|n] eqn:Hn;
    cbn [makeRequest_loop]; unfold try_catch;
    destruct (attemptRequest c url w) as [[e | p] w']; try reflexivity.
  - destruct (attempt <? r_retries (config c)) eqn:Hlt; [|reflexivity].
    apply Z.ltb_lt in Hlt. lia.
  - destruct (attempt <? r_retries (config c)) eqn:Hlt; [|reflexivity].
    cbn [andb]. destruct (isRetryableError e); [|reflexivity].
    replace (Z.to_nat (r_retries (config c) - (attempt + 1))) with n by lia.
    reflexivity.
Qed.

(** Running a call that starts with a validation failure. *)
Lemma run_throw {A} (e : Error) (net : Network) :
  run (@throw A e) net = (inl e, []).
Proof. reflexivity. Qed.

(** ** Substring search *)

Lemma prefix_app (p s t : string) :
  String.prefix p s = true -> String.prefix p (s ++ t) = true.
Proof.
  revert s. induction p as [|a p IH]; intros s H.
  - destruct (s ++ t); reflexivity.
  - destruct s as [|b s]; simpl in *; [discriminate|].
    destruct (ascii_dec a b); [auto | discriminate].
Qed.

Lemma includes_app_l (s t sub : string) :
  includes s sub = true -> includes (s ++ t) sub = true.
Proof.
  induction s as [|a s IH]; simpl; intro H.
  - rewrite orb_false_r in H.
    destruct sub; [|discriminate]. destruct t; reflexivity.
  - apply orb_true_iff in H. apply orb_true_iff. destruct H as [H | H].
    + left. exact (prefix_app sub (String a s) t H).
    + right. auto.
Qed.

Lemma status503_retryable (r : Response) :
  status r = 503 -> isRetryableError (statusError r) = true.
Proof.
  intro H. unfold isRetryableError, statusError. rewrite H.
  cbn [message new_Error].
  assert (Hinc : includes ("Yandex Metrika error " ++ Number_toString 503
                           ++ ": " ++ text r) "503" = true).
  { change ("Yandex Metrika error " ++ Number_toString 503 ++ ": " ++ text r)
      with ("Yandex Metrika error 503" ++ (": " ++ text r)).
    apply includes_app_l. reflexivity. }
  rewrite Hinc. simpl. rewrite !orb_true_r. reflexivity.
Qed.

(** ** Transport core *)

(** One attempt answered with a status outside 200..299. *)
Lemma attemptRequest_not_ok (c : Client) (url : string) (w : World)
    (r : Response) :
  network w (fetchCount (events w)) url = Responded r ->
  ok r = false ->
  attemptRequest c url w =
  (inl (statusError r),
   mkWorld (network w) (events w ++ [Fetch url (authorization c)])).
Proof.
  intros Hnet Hok. unfold attemptRequest, bind, fetch.
  rewrite Hnet, Hok. reflexivity.
Qed.

(** One attempt answered with a status in 200..299. *)
Lemma attemptRequest_ok (c : Client) (url : string) (w : World)
    (r : Response) :
  network w (fetchCount (events w)) url = Responded r ->
  ok r = true ->
  attemptRequest c url w =
  (inr (json r),
   mkWorld (network w) (events w ++ [Fetch url (authorization c)])).
Proof.
  intros Hnet Hok. unfold attemptRequest, bind, fetch.
  rewrite Hnet, Hok. reflexivity.
Qed.

(** A failure that [isRetryableError] does not recognise ends the call at
    once, whatever the attempt number. *)
Lemma makeRequest_fatal_once (c : Client) (url : string) (attempt : Z)
    (net : Network) (r : Response) :
  net 0%nat url = Responded r ->
  ok r = false ->
  isRetryableError (statusError r) = false ->
  run (makeRequest c url attempt) net =
  (inl (statusError r), [Fetch url (authorization c)]).
Proof.
  intros Hnet Hok Hfatal. unfold run. rewrite makeRequest_unfold.
  unfold try_catch.
  rewrite (attemptRequest_not_ok c url (initial net) r Hnet Hok).
  rewrite Hfatal, andb_false_r. reflexivity.
Qed.

(** Two failed attempts that are retried, then a third attempt. *)
Lemma makeRequest_third_attempt (c : Client) (url : string) (net : Network)
    (e1 e2 : Error) :
  r_retries (config c) = 3 ->
  attemptRequest c url (initial net) =
    (inl e1, mkWorld net [Fetch url (authorization c)]) ->
  isRetryableError e1 = true ->
  attemptRequest c url
    (mkWorld net [Fetch url (authorization c);
                  Sleep (r_retryDelay (config c) * 1)]) =
    (inl e2, mkWorld net [Fetch url (authorization c);
                          Sleep (r_retryDelay (config c) * 1);
                          Fetch url (authorization c)]) ->
  isRetryableError e2 = true ->
  makeRequest c url 1 (initial net) =
  try_catch (attemptRequest c url) (fun error => throw error)
    (mkWorld net [Fetch url (authorization c);
                  Sleep (r_retryDelay (config c) * 1);
                  Fetch url (authorization c);
                  Sleep (r_retryDelay (config c) * 2)]).
Proof.
  intros Hretries H1 Hr1 H2 Hr2.
  rewrite makeRequest_unfold. unfold try_catch at 1. rewrite H1, Hr1, Hretries.
  cbn [Z.ltb Z.compare Pos.compare Pos.compare_cont andb bind delay
       network events app initial].
  rewrite makeRequest_unfold. unfold try_catch at 1. rewrite H2, Hr2, Hretries.
  cbn [Z.ltb Z.compare Z.add Pos.add Pos.compare Pos.compare_cont andb bind
       delay network events app].
  rewrite makeRequest_unfold. rewrite Hretries.
  unfold try_catch.
  destruct (attemptRequest c url _) as [[e | [e | v]] w']; reflexivity.
Qed.

(** C1 (the code departs from the claim). The response is a 404 whose
    body happens to contain the digits 500: with the default
    configuration the call is not ended after one attempt, it is retried
    twice, after delays of 1000 and 2000 ms, and only the third 404 is
    surfaced. [isRetryableError] looks for 500, 502 and 503 anywhere in
    the message, which embeds the body text, not in the status. *)
Theorem status_404_retried_when_body_mentions_500 :
  let c := constructor "token" no_config in
  let url := "https://api-metrika.yandex.net/management/v1/counter/5000" in
  let r := mkResponse 404 "Counter 5000 not found" notJson in
  ok r = false
  /\ run (makeRequest c url 1) (always r) =
     (inl (new_Error "Yandex Metrika error 404: Counter 5000 not found"),
      [ Fetch url "OAuth token"; Sleep 1000;
        Fetch url "OAuth token"; Sleep 2000;
        Fetch url "OAuth token" ]).
Proof. split; reflexivity. Qed.

(** The same 404 with a body free of those digits ends the call after
    one attempt. *)
Example status_404_single_attempt :
  let c := constructor "token" no_config in
  let url := "https://api-metrika.yandex.net/management/v1/counter/1" in
  run (makeRequest c url 1)
      (always (mkResponse 404 "Counter not found" notJson)) =
  (inl (new_Error "Yandex Metrika error 404: Counter not found"),
   [Fetch url "OAuth token"]).
Proof. reflexivity. Qed.

(** C2. With [retries] resolved to 3 and the first two attempts answered
    503: a third attempt answered 200 ends the call in success with the
    parsed body, a third attempt answered 503 ends it with the error made
    from that third response; either way exactly three requests are sent,
    and the delays awaited between them are [retryDelay * 1] and
    [retryDelay * 2]. *)
Theorem retry_three_attempts_linear_backoff :
  forall (c : Client) (url : string) (net : Network) (r1 r2 r3 : Response),
    r_retries (config c) = 3 ->
    net 0%nat url = Responded r1 ->
    net 1%nat url = Responded r2 ->
    net 2%nat url = Responded r3 ->
    status r1 = 503 ->
    status r2 = 503 ->
    (status r3 = 200 ->
     forall v, json r3 = inr v ->
       run (makeRequest c url 1) net = (inr v, threeAttempts c url))
    /\ (status r3 = 503 ->
        run (makeRequest c url 1) net =
        (inl (new_Error ("Yandex Metrika error 503: " ++ text r3)),
         threeAttempts c url))
    /\ fetchCount (threeAttempts c url) = 3%nat
    /\ sleeps (threeAttempts c url) =
       [r_retryDelay (config c) * 1; r_retryDelay (config c) * 2].
Proof.
  intros c url net r1 r2 r3 Hretries Hn1 Hn2 Hn3 Hs1 Hs2.
  assert (Hok1 : ok r1 = false) by (unfold ok; rewrite Hs1; reflexivity).
  assert (Hok2 : ok r2 = false) by (unfold ok; rewrite Hs2; reflexivity).
  assert (Hstart :
    makeRequest c url 1 (initial net) =
    try_catch (attemptRequest c url) (fun error => throw error)
      (mkWorld net [Fetch url (authorization c);
                    Sleep (r_retryDelay (config c) * 1);
                    Fetch url (authorization c);
                    Sleep (r_retryDelay (config c) * 2)])).
  { apply (makeRequest_third_attempt c url net (statusError r1)
             (statusError r2) Hretries).
    - exact (attemptRequest_not_ok c url (initial net) r1 Hn1 Hok1).
    - exact (status503_retryable r1 Hs1).
    - exact (attemptRequest_not_ok c url
               (mkWorld net [Fetch url (authorization c);
                             Sleep (r_retryDelay (config c) * 1)])
               r2 Hn2 Hok2).
    - exact (status503_retryable r2 Hs2). }
  repeat split.
  - intros Hs3 v Hv.
    assert (Hok3 : ok r3 = true) by (unfold ok; rewrite Hs3; reflexivity).
    unfold run. rewrite Hstart. unfold try_catch.
    rewrite (attemptRequest_ok c url
               (mkWorld net [Fetch url (authorization c);
                             Sleep (r_retryDelay (config c) * 1);
                             Fetch url (authorization c);
                             Sleep (r_retryDelay (config c) * 2)])
               r3 Hn3 Hok3), Hv. reflexivity.
  - intros Hs3.
    assert (Hok3 : ok r3 = false) by (unfold ok; rewrite Hs3; reflexivity).
    unfold run. rewrite Hstart. unfold try_catch.
    rewrite (attemptRequest_not_ok c url
               (mkWorld net [Fetch url (authorization c);
                             Sleep (r_retryDelay (config c) * 1);
                             Fetch url (authorization c);
                             Sleep (r_retryDelay (config c) * 2)])
               r3 Hn3 Hok3).
    unfold statusError. rewrite Hs3. reflexivity.
Qed.

(** A run of the theorem above: 503, 503, then 200, with a delay of
    250 ms configured. *)
Lemma retry_three_attempts_witness :
  let c := constructor "token" (mkConfig None (Some 3) (Some 250)) in
  let url := "https://api-metrika.yandex.net/management/v1/counter/1" in
  let busy := mkResponse 503 "Service Unavailable" notJson in
  let done := mkResponse 200 "{}" (inr (Json "{}")) in
  run (makeRequest c url 1) (scripted [busy; busy] done) =
  (inr (Json "{}"),
   [ Fetch url "OAuth token"; Sleep 250;
     Fetch url "OAuth token"; Sleep 500;
     Fetch url "OAuth token" ]).
Proof.
  intros c url busy done.
  exact (proj1 (retry_three_attempts_linear_backoff c url
                  (scripted [busy; busy] done) busy busy done
                  eq_refl eq_refl eq_refl eq_refl eq_refl eq_refl)
               eq_refl (Json "{}") eq_refl).
Defined.

(** ** Effects of a call *)

Lemma requestedURLs_app (xs ys : list Event) :
  requestedURLs (xs ++ ys) = (requestedURLs xs ++ requestedURLs ys)%list.
Proof.
  induction xs as [|[url auth | ms] xs IH]; simpl; congruence.
Qed.

Lemma run_events {A} (m : IO A) (net : Network) :
  snd (run m net) = events (snd (m (initial net))).
Proof. unfold run. destruct (m (initial net)); reflexivity. Qed.

(** [makeRequest] only adds effects, the first of them is the request for
    [url], and it requests no other URL. *)
Lemma makeRequest_loop_events (c : Client) (url : string) (budget : nat) :
  forall (attempt : Z) (w : World),
  exists rest,
    events (snd (makeRequest_loop budget c url attempt w)) =
      (events w ++ Fetch url (authorization c) :: rest)%list
    /\ Forall (eq url) (requestedURLs rest).
Proof.
  induction budget as [|budget IH]; intros attempt w;
    cbn [makeRequest_loop]; unfold try_catch, attemptRequest, bind, fetch.
  - destruct (network w (fetchCount (events w)) url) as [e | r].
    + exists []. split; [|constructor].
      destruct ((attempt <? r_retries (config c)) && isRetryableError e);
        reflexivity.
    + exists []. split; [|constructor].
      destruct (negb (ok r)).
      * cbn [throw].
        destruct ((attempt <? r_retries (config c))
                  && isRetryableError _); reflexivity.
      * cbn [ret]. destruct (json r); reflexivity.
  - assert (Hretry : forall e : Error,
      exists rest,
        events (snd
          ((if (attempt <? r_retries (config c)) && isRetryableError e
            then
              fun w0 =>
                match delay (r_retryDelay (config c) * attempt) w0 with
                | (inr _, w') => makeRequest_loop budget c url (attempt + 1) w'
                | (inl e0, w') => (inl e0, w')
                end
            else throw e)
             (mkWorld (network w)
                (events w ++ [Fetch url (authorization c)])))) =
        (events w ++ Fetch url (authorization c) :: rest)%list
        /\ Forall (eq url) (requestedURLs rest)).
    { intro e.
      destruct ((attempt <? r_retries (config c)) && isRetryableError e).
      - cbn [delay network events].
        destruct (IH (attempt + 1)
                    (mkWorld (network w)
                       ((events w ++ [Fetch url (authorization c)])
                        ++ [Sleep (r_retryDelay (config c) * attempt)])))
          as [rest [Hev Hurls]].
        exists (Sleep (r_retryDelay (config c) * attempt)
                :: Fetch url (authorization c) :: rest).
        split.
        + refine (eq_trans Hev _). cbn [events].
          rewrite <- !app_assoc. reflexivity.
        + cbn [requestedURLs]. constructor; [reflexivity | assumption].
      - exists []. split; [reflexivity | constructor]. }
    destruct (network w (fetchCount (events w)) url) as [e | r].
    + apply Hretry.
    + destruct (negb (ok r)).
      * cbn [throw]. apply Hretry.
      * cbn [ret]. exists []. split; [|constructor].
        destruct (json r); reflexivity.
Qed.

Lemma makeRequest_sends (c : Client) (url : string) (attempt : Z)
    (net : Network) :
  SendsRequest (run (makeRequest c url attempt) net).
Proof.
  unfold SendsRequest, makeRequest. rewrite run_events.
  destruct (makeRequest_loop_events c url
              (Z.to_nat (r_retries (config c) - attempt)) attempt
              (initial net)) as [rest [Hev _]].
  exists url, (authorization c), rest. exact Hev.
Qed.

Lemma makeRequest_urls (c : Client) (url : string) (attempt : Z)
    (net : Network) :
  Forall (eq url) (requestedURLs (snd (run (makeRequest c url attempt) net))).
Proof.
  unfold makeRequest. rewrite run_events.
  destruct (makeRequest_loop_events c url
              (Z.to_nat (r_retries (config c) - attempt)) attempt
              (initial net)) as [rest [Hev Hurls]].
  rewrite Hev. cbn [initial events app requestedURLs].
  constructor; [reflexivity | assumption].
Qed.

Lemma SendsRequest_not_invalid {A} (r : Promise A * list Event) :
  SendsRequest r -> ~ InvalidParameter r.
Proof.
  intros [url [auth [rest Hsnd]]] [msg Hr]. rewrite Hr in Hsnd.
  discriminate.
Qed.

Lemma InvalidParameter_throw {A} (msg : string) (net : Network) :
  InvalidParameter (run (@throw A (new_Error msg)) net).
Proof. exists msg. reflexivity. Qed.

Lemma InvalidParameter_no_urls {A} (r : Promise A * list Event) :
  InvalidParameter r -> requestedURLs (snd r) = [].
Proof. intros [msg Hr]. rewrite Hr. reflexivity. Qed.

(** ** Date validation *)

Lemma rejectedDate_suppliedInvalid (Date_getTime : string -> option Z)
    (date : option string) :
  rejectedDate Date_getTime date -> suppliedInvalid Date_getTime date = true.
Proof.
  intros [s [-> [Hne Hbad]]]. unfold suppliedInvalid, isValidDate.
  destruct s as [|a s]; [congruence|]. cbn [truthy andb].
  destruct Hbad as [Hre | Hnan].
  - rewrite Hre. reflexivity.
  - rewrite Hnan. destruct (dateRegex_test (String a s)); reflexivity.
Qed.

(** Every URL [getVisits] requests is the one without date parameters. *)
Lemma getVisits_urls (Date_getTime : string -> option Z) (c : Client)
    (counterId : string) (dateFrom dateTo : option string) (net : Network) :
  Forall (eq (API_BASE ++ "/" ++ API_REPORTS ++ "?ids=" ++ counterId
              ++ "&metrics=ym:s:visits"))
    (requestedURLs
       (snd (run (getVisits Date_getTime c counterId dateFrom dateTo) net))).
Proof.
  unfold getVisits.
  destruct (negb (truthy counterId)); [constructor|].
  destruct (suppliedInvalid Date_getTime dateFrom); [constructor|].
  destruct (suppliedInvalid Date_getTime dateTo); [constructor|].
  apply makeRequest_urls.
Qed.

(** What the check of [getVisits] does refuse, whatever the engine: a
    [dateFrom] or [dateTo] that is supplied as a non-empty string and
    that does not match [YYYY-MM-DD], or that the engine's [Date] cannot
    read, makes the call fail before any request is sent; when the
    counter identifier is not empty the error names the offending
    argument, [dateFrom] first. *)
Theorem getVisits_rejects_invalid_dates :
  forall (Date_getTime : string -> option Z) (c : Client)
         (counterId : string) (dateFrom dateTo : option string)
         (net : Network),
    rejectedDate Date_getTime dateFrom \/ rejectedDate Date_getTime dateTo ->
    InvalidParameter
      (run (getVisits Date_getTime c counterId dateFrom dateTo) net)
    /\ (counterId <> EmptyString ->
        run (getVisits Date_getTime c counterId dateFrom dateTo) net =
        (inl (new_Error (if suppliedInvalid Date_getTime dateFrom
                         then "dateFrom must be in YYYY-MM-DD format"
                         else "dateTo must be in YYYY-MM-DD format")),
         [])).
Proof.
  intros D c counterId dateFrom dateTo net Hbad.
  assert (Hone : suppliedInvalid D dateFrom = true
                 \/ suppliedInvalid D dateFrom = false
                    /\ suppliedInvalid D dateTo = true).
  { destruct (suppliedInvalid D dateFrom) eqn:Hfrom; [left; reflexivity|].
    right. split; [reflexivity|]. destruct Hbad as [H | H].
    - apply rejectedDate_suppliedInvalid in H. congruence.
    - apply rejectedDate_suppliedInvalid in H. exact H. }
  split.
  - unfold getVisits. destruct (negb (truthy counterId)).
    + apply InvalidParameter_throw.
    + destruct Hone as [-> | [-> ->]]; apply InvalidParameter_throw.
  - intro Hne. unfold getVisits.
    destruct counterId as [|a s]; [congruence|]. cbn [truthy negb].
    destruct Hone as [-> | [-> ->]]; reflexivity.
Qed.

(** A month 13, which Node's engine does not read. *)
Example getVisits_month_13_rejected :
  run (getVisits Engines.Date_getTime_rolling defaultClient "123"
         (Some "2024-13-01") None) healthy =
  (inl (new_Error "dateFrom must be in YYYY-MM-DD format"), []).
Proof. reflexivity. Qed.

(** Whatever the engine that checks the calendar reads, Node's engine
    reads the same way. *)
Lemma Date_getTime_strict_rolling (s : string) (t : Z) :
  Engines.Date_getTime_strict s = Some t ->
  Engines.Date_getTime_rolling s = Some t.
Proof.
  unfold Engines.Date_getTime_strict, Engines.Date_getTime_rolling.
  destruct (Engines.dateFields s) as [[[y m] d]|]; [|discriminate].
  destruct ((1 <=? m) && (m <=? 12) && (1 <=? d)) eqn:Hfields;
    [|discriminate].
  cbn [andb].
  destruct (d <=? Engines.daysInMonth y m) eqn:Hd; [|discriminate].
  intro Ht. apply Z.leb_le in Hd.
  assert (Hmax : Engines.daysInMonth y m <= 31).
  { unfold Engines.daysInMonth.
    destruct (m =? 2); [destruct (Engines.isLeapYear y); lia|].
    destruct ((m =? 4) || (m =? 6) || (m =? 9) || (m =? 11)); lia. }
  replace (d <=? 31) with true by (symmetry; apply Z.leb_le; lia).
  exact Ht.
Qed.

(** C3 (the code departs from the claim). February 2024 has 29 days, so
    [2024-02-30] matches the pattern and is not a calendar date; yet
    [isValidDate] accepts it. Its calendar check asks only whether the
    time value of [new Date(dateString)] is a number, and Node's engine
    reads the string as the first of March. [getVisits], the one
    operation that validates its dates, therefore sends the request
    instead of failing. *)
Theorem getVisits_sends_impossible_date :
  let url :=
    "https://api-metrika.yandex.net/stat/v1/data?ids=123&metrics=ym:s:visits"
  in
  dateRegex_test "2024-02-30" = true
  /\ Engines.daysInMonth 2024 2 = 29
  /\ Engines.Date_getTime_rolling "2024-02-30" = Some 1709251200000
  /\ Engines.Date_getTime_rolling "2024-03-01" = Some 1709251200000
  /\ isValidDate Engines.Date_getTime_rolling "2024-02-30" = true
  /\ run (getVisits Engines.Date_getTime_rolling defaultClient "123"
            (Some "2024-02-30") None) healthy =
     (inr (Json "{}"), [Fetch url "OAuth token"])
  /\ ~ InvalidParameter
         (run (getVisits Engines.Date_getTime_rolling defaultClient "123"
                 (Some "2024-02-30") None) healthy).
Proof.
  repeat split; try reflexivity; intros [msg H]; discriminate H.
Qed.

(** Nor is a date checked anywhere else: [getContentAnalyticsSources],
    like every operation other than [getVisits], appends its dates to
    the URL as they are given, and [getVisits] itself skips the check
    for an empty string, here under an engine whose [Date] would read
    nothing at all. *)
Lemma dates_reach_network_unvalidated :
  run (getContentAnalyticsSources defaultClient "123"
         (Some "yesterday") (Some "2024-02-30")) healthy =
    (inr (Json "{}"),
     [Fetch
        "https://api-metrika.yandex.net/stat/v1/data?preset=publishers_sources&id=123&date1=yesterday&date2=2024-02-30"
        "OAuth token"])
  /\ ~ InvalidParameter
         (run (getContentAnalyticsSources defaultClient "123"
                 (Some "yesterday") (Some "2024-02-30")) healthy)
  /\ run (getVisits (fun _ => None) defaultClient "123"
            (Some EmptyString) None) healthy =
       (inr (Json "{}"),
        [Fetch
           "https://api-metrika.yandex.net/stat/v1/data?ids=123&metrics=ym:s:visits"
           "OAuth token"])
  /\ ~ InvalidParameter
         (run (getVisits (fun _ => None) defaultClient "123"
                 (Some EmptyString) None) healthy).
Proof.
  repeat split; try reflexivity; intros [msg H]; discriminate H.
Qed.

(** C8 (the code departs from the claim). Both dates are supplied and
    pass the validation, and the URL [getVisits] requests carries
    neither: its only parameters are [ids] and [metrics]. The line that
    would have appended [date1] and [date2] is commented out in the
    source. *)
Theorem getVisits_drops_supplied_dates :
  let url :=
    "https://api-metrika.yandex.net/stat/v1/data?ids=123&metrics=ym:s:visits"
  in
  isValidDate Engines.Date_getTime_strict "2024-01-01" = true
  /\ isValidDate Engines.Date_getTime_strict "2024-01-31" = true
  /\ run (getVisits Engines.Date_getTime_strict defaultClient "123"
            (Some "2024-01-01") (Some "2024-01-31")) healthy =
     (inr (Json "{}"), [Fetch url "OAuth token"])
  /\ queryKeys url = ["ids"; "metrics"].
Proof. repeat split; reflexivity. Qed.

(** Node's engine reads these two dates as the engine above does, and
    the call goes the same way. *)
Example getVisits_drops_supplied_dates_rolling :
  isValidDate Engines.Date_getTime_rolling "2024-01-01" = true
  /\ isValidDate Engines.Date_getTime_rolling "2024-01-31" = true
  /\ run (getVisits Engines.Date_getTime_rolling defaultClient "123"
            (Some "2024-01-01") (Some "2024-01-31")) healthy =
     (inr (Json "{}"),
      [Fetch
         "https://api-metrika.yandex.net/stat/v1/data?ids=123&metrics=ym:s:visits"
         "OAuth token"]).
Proof. repeat split; reflexivity. Qed.

(** The sibling [getContentAnalyticsSources] does send the same dates. *)
Example getContentAnalyticsSources_sends_dates :
  run (getContentAnalyticsSources defaultClient "123"
         (Some "2024-01-01") (Some "2024-01-31")) healthy =
  (inr (Json "{}"),
   [Fetch
      "https://api-metrika.yandex.net/stat/v1/data?preset=publishers_sources&id=123&date1=2024-01-01&date2=2024-01-31"
      "OAuth token"]).
Proof. reflexivity. Qed.

(** ** Attribution rewriting *)

Lemma stripPrefix_Some (p s rest : string) :
  stripPrefix p s = Some rest -> s = p ++ rest.
Proof.
  revert s. induction p as [|a p IH]; intros s H.
  - simpl in H. injection H as <-. reflexivity.
  - destruct s as [|b s]; simpl in H; [discriminate|].
    destruct (Ascii.eqb a b) eqn:Hab; [|discriminate].
    apply Ascii.eqb_eq in Hab. subst b. simpl. f_equal. auto.
Qed.

Lemma assoc_None (key : string) (entries : list (string * string)) :
  ~ In key (map fst entries) -> assoc key entries = None.
Proof.
  induction entries as [|[k v] entries IH]; simpl; intro H; [reflexivity|].
  destruct (String.eqb k key) eqn:Hk.
  - apply String.eqb_eq in Hk. tauto.
  - apply IH. tauto.
Qed.

(** A recognised model is an own key of the map, bound to itself. *)
Lemma recognized_lookup (a : string) :
  In a recognizedModels ->
  get_property attributionPrefixMap a = Some a.
Proof.
  unfold recognizedModels. simpl.
  intros H; repeat (destruct H as [<- | H]; [reflexivity|]); contradiction.
Qed.

Lemma recognized_truthy (a : string) :
  In a recognizedModels -> truthy a = true.
Proof.
  unfold recognizedModels. simpl.
  intros H; repeat (destruct H as [<- | H]; [reflexivity|]); contradiction.
Qed.

(** A string that is neither empty, nor a recognised model, nor the name
    of a member of [Object.prototype], is not found in the map. *)
Lemma unrecognized_lookup (a : string) :
  ~ In a recognizedModels ->
  ~ In a (map fst Object_prototype) ->
  get_property attributionPrefixMap a = None.
Proof.
  intros Hmodel Hproto. unfold get_property.
  rewrite (assoc_None a attributionPrefixMap Hmodel).
  apply assoc_None. exact Hproto.
Qed.

Lemma build_unrecognized (dimension a : string) :
  get_property attributionPrefixMap a = None ->
  buildDimensionNameWithAttribution dimension (Some a) =
  inl (invalidAttribution a).
Proof.
  intro H. unfold buildDimensionNameWithAttribution. cbn [defaultTo].
  rewrite H. reflexivity.
Qed.

Lemma build_recognized (dimension a : string) :
  In a recognizedModels ->
  buildDimensionNameWithAttribution dimension (Some a) =
  match dimensionPattern_match dimension with
  | Some (_, rest) => inr ("ym:s:" ++ a ++ rest)
  | None =>
      match basePattern_match dimension with
      | Some base => inr ("ym:s:" ++ a ++ base)
      | None => inr dimension
      end
  end.
Proof.
  intro H. unfold buildDimensionNameWithAttribution. cbn [defaultTo].
  rewrite (recognized_lookup a H). cbn [truthy_opt template].
  rewrite (recognized_truthy a H). reflexivity.
Qed.

Lemma build_recognized_total (dimension a : string) :
  In a recognizedModels ->
  exists d, buildDimensionNameWithAttribution dimension (Some a) = inr d.
Proof.
  intro H. rewrite (build_recognized dimension a H).
  destruct (dimensionPattern_match dimension) as [[p rest]|]; [eauto|].
  destruct (basePattern_match dimension); eauto.
Qed.

Lemma Array_map_total {A B} (f : A -> Error + B) (xs : list A) :
  (forall x, exists y, f x = inr y) ->
  exists ys, Array_map f xs = inr ys.
Proof.
  intro Hf. induction xs as [|x xs [ys IH]]; simpl; [eauto|].
  destruct (Hf x) as [y ->]. rewrite IH. eauto.
Qed.

(** With no attribution, or with a recognised one, the rewriting of the
    dimensions does not throw. *)
Lemma processDimensions_total (dimensions : option (list string))
    (attribution : option string) :
  (forall a, attribution = Some a -> In a recognizedModels) ->
  exists processed, processDimensions dimensions attribution = inr processed.
Proof.
  intro Hattr. unfold processDimensions.
  destruct dimensions as [dims|]; [|eauto].
  destruct (truthy_opt attribution && (0 <? Z.of_nat (Datatypes.length dims)));
    [|eauto].
  destruct attribution as [a|].
  - destruct (Array_map_total
                (fun dim => buildDimensionNameWithAttribution dim (Some a))
                dims) as [ys ->]; [|eauto].
    intro x. apply build_recognized_total. auto.
  - destruct (Array_map_total
                (fun dim => buildDimensionNameWithAttribution dim None)
                dims) as [ys ->]; [|eauto].
    intro x. apply (build_recognized_total x "automatic").
    simpl. auto.
Qed.

(** C10. A dimension that does not begin with [ym:s:] followed by at
    least one character is returned as it is, without error, for every
    recognised attribution model. *)
Theorem foreign_dimension_unchanged :
  forall (dimension a : string),
    In a recognizedModels ->
    (forall ch rest, dimension <> "ym:s:" ++ String ch rest) ->
    buildDimensionNameWithAttribution dimension (Some a) = inr dimension.
Proof.
  intros dimension a Ha Hform. rewrite (build_recognized dimension a Ha).
  unfold dimensionPattern_match, basePattern_match.
  destruct (stripPrefix "ym:s:" dimension) as [s|] eqn:Hs; [|reflexivity].
  apply stripPrefix_Some in Hs.
  destruct s as [|ch rest]; [reflexivity|].
  exfalso. exact (Hform ch rest Hs).
Qed.

(** A visitor-scope dimension under the model [last]. *)
Lemma foreign_dimension_unchanged_witness :
  buildDimensionNameWithAttribution "ym:u:age" (Some "last") = inr "ym:u:age".
Proof.
  apply (foreign_dimension_unchanged "ym:u:age" "last").
  - simpl. auto.
  - intros ch rest H. discriminate H.
Defined.

Example empty_dimension_unchanged :
  buildDimensionNameWithAttribution EmptyString (Some "first") =
  inr EmptyString.
Proof. reflexivity. Qed.

(** C4 (the code departs from the claim). The dimension carries the
    recognised prefix [lastsign]; under the model [first] the rewriter
    strips only [last], the alternative the pattern lists first, and
    leaves [sign] in place, where the claim has [ym:s:firstUTMSource]. The
    same happens to every recognised prefix that extends a shorter one
    listed before it. The two examples of the claim come out as it says. *)
Theorem longer_prefix_partially_stripped :
  buildDimensionNameWithAttribution "ym:s:lastsignUTMSource" (Some "first")
    = inr "ym:s:firstsignUTMSource"
  /\ buildDimensionNameWithAttribution
       "ym:s:cross_device_last_significantUTMSource" (Some "automatic")
     = inr "ym:s:automatic_significantUTMSource"
  /\ buildDimensionNameWithAttribution "ym:s:UTMCampaign" (Some "last")
     = inr "ym:s:lastUTMCampaign"
  /\ buildDimensionNameWithAttribution "ym:s:automaticUTMCampaign"
       (Some "first")
     = inr "ym:s:firstUTMCampaign".
Proof. repeat split; reflexivity. Qed.

(** ** The checks of [getDataByTime] *)

(** The checks all pass: the call is handed to the transport core. *)
Lemma getDataByTime_accepts (c : Client) (counterId : string)
    (metrics : list string) (dateFrom dateTo : option string)
    (dimensions : option (list string)) (group : option string)
    (topKeys : option Z) (timezone attribution : option string)
    (net : Network) :
  counterId <> EmptyString ->
  (1 <= List.length metrics <= 20)%nat ->
  (forall dims, dimensions = Some dims -> (List.length dims <= 10)%nat) ->
  (forall a, attribution = Some a -> In a recognizedModels) ->
  SendsRequest
    (run (getDataByTime c counterId (Some metrics) dateFrom dateTo dimensions
            group topKeys timezone attribution) net).
Proof.
  intros Hid Hmetrics Hdims Hattr. unfold getDataByTime.
  destruct counterId as [|ch counterId]; [congruence|]. cbn [truthy negb].
  destruct (Z.eqb_spec (Z.of_nat (List.length metrics)) 0) as [H0 | _];
    [lia|].
  destruct (Z.ltb_spec 20 (Z.of_nat (List.length metrics))) as [H20 | _];
    [lia|].
  assert (Hd : match dimensions with
               | Some dims => 10 <? Z.of_nat (List.length dims)
               | None => false
               end = false).
  { destruct dimensions as [dims|]; [|reflexivity].
    specialize (Hdims dims eq_refl). apply Z.ltb_ge. lia. }
  rewrite Hd.
  destruct (processDimensions_total dimensions attribution Hattr)
    as [processed ->].
  apply makeRequest_sends.
Qed.

(** C9. [getDataByTime] fails before any request when the metrics are
    absent, empty or 21, and when the dimensions are 11; with a counter
    identifier and an attribution that is absent or recognised, 20
    metrics are accepted (with at most 10 dimensions) and 10 dimensions
    are accepted (with 1 to 20 metrics): the request is sent. *)
Theorem getDataByTime_list_bounds :
  forall (c : Client) (counterId : string) (metrics : option (list string))
         (dateFrom dateTo : option string)
         (dimensions : option (list string)) (group : option string)
         (topKeys : option Z) (timezone attribution : option string)
         (net : Network),
    let result :=
      run (getDataByTime c counterId metrics dateFrom dateTo dimensions
             group topKeys timezone attribution) net in
    ((metrics = None
      \/ exists ms, metrics = Some ms
                    /\ (List.length ms = 0 \/ List.length ms = 21)%nat) ->
     InvalidParameter result)
    /\ ((exists dims, dimensions = Some dims /\ List.length dims = 11%nat) ->
        InvalidParameter result)
    /\ (counterId <> EmptyString ->
        (forall a, attribution = Some a -> In a recognizedModels) ->
        (exists ms, metrics = Some ms /\ List.length ms = 20%nat) ->
        (forall dims, dimensions = Some dims ->
                      (List.length dims <= 10)%nat) ->
        SendsRequest result)
    /\ (counterId <> EmptyString ->
        (forall a, attribution = Some a -> In a recognizedModels) ->
        (exists ms, metrics = Some ms /\ (1 <= List.length ms <= 20)%nat) ->
        (exists dims, dimensions = Some dims /\ List.length dims = 10%nat) ->
        SendsRequest result).
Proof.
  intros c counterId metrics dateFrom dateTo dimensions group topKeys
         timezone attribution net result.
  subst result. repeat split.
  - intros Hbad. unfold getDataByTime.
    destruct (negb (truthy counterId)); [apply InvalidParameter_throw|].
    destruct Hbad as [-> | [ms [-> [Hlen | Hlen]]]].
    + apply InvalidParameter_throw.
    + rewrite Hlen. apply InvalidParameter_throw.
    + rewrite Hlen. apply InvalidParameter_throw.
  - intros [dims [-> Hlen]]. unfold getDataByTime.
    destruct (negb (truthy counterId)); [apply InvalidParameter_throw|].
    destruct metrics as [ms|]; [|apply InvalidParameter_throw].
    destruct (Z.of_nat (List.length ms) =? 0); [apply InvalidParameter_throw|].
    destruct (20 <? Z.of_nat (List.length ms)); [apply InvalidParameter_throw|].
    rewrite Hlen. apply InvalidParameter_throw.
  - intros Hid Hattr [ms [-> Hlen]] Hdims.
    apply getDataByTime_accepts; auto. lia.
  - intros Hid Hattr [ms [-> Hlen]] [dims [-> Hdims]].
    apply getDataByTime_accepts; auto.
    intros dims' Heq. injection Heq as <-. lia.
Qed.

(** The four parts of the theorem above, on lists of 21 and 20 metrics
    and of 11 and 10 dimensions. *)
Lemma getDataByTime_list_bounds_witness :
  let call metrics dimensions :=
    run (getDataByTime defaultClient "123" (Some metrics) None None
           dimensions None None None (Some "last")) healthy in
  InvalidParameter (call (repeat "ym:s:visits" 21) None)
  /\ InvalidParameter
       (call ["ym:s:visits"] (Some (repeat "ym:s:UTMSource" 11)))
  /\ SendsRequest (call (repeat "ym:s:visits" 20) None)
  /\ SendsRequest (call ["ym:s:visits"] (Some (repeat "ym:s:UTMSource" 10))).
Proof.
  intro call. unfold call.
  split; [|split; [|split]].
  - refine (proj1 (getDataByTime_list_bounds defaultClient "123"
                     (Some (repeat "ym:s:visits" 21)) None None None None
                     None None (Some "last") healthy) _).
    right. exists (repeat "ym:s:visits" 21). split; [reflexivity|].
    right. reflexivity.
  - refine (proj1 (proj2 (getDataByTime_list_bounds defaultClient "123"
                     (Some ["ym:s:visits"]) None None
                     (Some (repeat "ym:s:UTMSource" 11)) None
                     None None (Some "last") healthy)) _).
    exists (repeat "ym:s:UTMSource" 11). split; reflexivity.
  - refine (proj1 (proj2 (proj2 (getDataByTime_list_bounds defaultClient
                     "123" (Some (repeat "ym:s:visits" 20)) None None None
                     None None None (Some "last") healthy))) _ _ _ _).
    + discriminate.
    + intros a Ha. injection Ha as <-. simpl. auto.
    + exists (repeat "ym:s:visits" 20). split; reflexivity.
    + intros dims Hd. discriminate Hd.
  - refine (proj2 (proj2 (proj2 (getDataByTime_list_bounds defaultClient
                     "123" (Some ["ym:s:visits"]) None None
                     (Some (repeat "ym:s:UTMSource" 10))
                     None None None (Some "last") healthy))) _ _ _ _).
    + discriminate.
    + intros a Ha. injection Ha as <-. simpl. auto.
    + exists ["ym:s:visits"]. split; [reflexivity | simpl; lia].
    + exists (repeat "ym:s:UTMSource" 10). split; reflexivity.
Defined.

(** C6 (as amended). When [getDataByTime] is given at least one
    dimension and an attribution that is a non-empty string, not one of
    the nine models and not the name of a member inherited from
    [Object.prototype], the call fails before any request; and when the
    counter identifier and the list lengths pass their checks, the error
    is the one that names the value and lists the nine models. *)
Theorem getDataByTime_rejects_unknown_attribution :
  forall (c : Client) (counterId : string) (metrics : option (list string))
         (dateFrom dateTo : option string) (dims : list string)
         (group : option string) (topKeys : option Z)
         (timezone : option string) (a : string) (net : Network),
    a <> EmptyString ->
    ~ In a recognizedModels ->
    ~ In a (map fst Object_prototype) ->
    dims <> [] ->
    let result :=
      run (getDataByTime c counterId metrics dateFrom dateTo (Some dims)
             group topKeys timezone (Some a)) net in
    InvalidParameter result
    /\ (counterId <> EmptyString ->
        (exists ms, metrics = Some ms /\ (1 <= List.length ms <= 20)%nat) ->
        (List.length dims <= 10)%nat ->
        result = (inl (invalidAttribution a), [])).
Proof.
  intros c counterId metrics dateFrom dateTo dims group topKeys timezone a
         net Hne Hmodel Hproto Hdims result.
  assert (Hprocess : processDimensions (Some dims) (Some a) =
                     inl (invalidAttribution a)).
  { unfold processDimensions. destruct a as [|ch a]; [congruence|].
    destruct dims as [|dim dims]; [congruence|].
    cbn [truthy_opt truthy andb]. 
    replace (0 <? Z.of_nat (List.length (dim :: dims))) with true
      by (symmetry; apply Z.ltb_lt; simpl; lia).
    cbn [Array_map].
    rewrite (build_unrecognized dim (String ch a)
               (unrecognized_lookup _ Hmodel Hproto)).
    reflexivity. }
  subst result. split.
  - unfold getDataByTime.
    destruct (negb (truthy counterId)); [apply InvalidParameter_throw|].
    destruct metrics as [ms|]; [|apply InvalidParameter_throw].
    destruct (Z.of_nat (List.length ms) =? 0); [apply InvalidParameter_throw|].
    destruct (20 <? Z.of_nat (List.length ms)); [apply InvalidParameter_throw|].
    destruct (10 <? Z.of_nat (List.length dims));
      [apply InvalidParameter_throw|].
    rewrite Hprocess. apply InvalidParameter_throw.
  - intros Hid [ms [-> Hms]] Hlen. unfold getDataByTime.
    destruct counterId as [|ch counterId]; [congruence|]. cbn [truthy negb].
    destruct (Z.eqb_spec (Z.of_nat (List.length ms)) 0) as [H0 | _]; [lia|].
    destruct (Z.ltb_spec 20 (Z.of_nat (List.length ms))) as [H20 | _]; [lia|].
    destruct (Z.ltb_spec 10 (Z.of_nat (List.length dims))) as [H10 | _];
      [lia|].
    rewrite Hprocess. reflexivity.
Qed.

(** The value [bogus] with one dimension. *)
Lemma getDataByTime_rejects_unknown_attribution_witness :
  run (getDataByTime defaultClient "123" (Some ["ym:s:visits"]) None None
         (Some ["ym:s:UTMCampaign"]) None None None (Some "bogus")) healthy =
  (inl (new_Error "Invalid attribution: bogus. Must be one of: automatic, last, first, lastsign, last_yandex_direct_click, cross_device_first, cross_device_last, cross_device_last_significant, cross_device_last_yandex_direct_click"),
   []).
Proof.
  refine (proj2 (getDataByTime_rejects_unknown_attribution defaultClient
                   "123" (Some ["ym:s:visits"]) None None
                   ["ym:s:UTMCampaign"] None None None "bogus" healthy
                   _ _ _ _) _ _ _).
  - discriminate.
  - simpl. intros H.
    repeat (destruct H as [H | H]; [discriminate H|]). exact H.
  - simpl. intros H.
    repeat (destruct H as [H | H]; [discriminate H|]). exact H.
  - discriminate.
  - discriminate.
  - exists ["ym:s:visits"]. split; [reflexivity | simpl; lia].
  - simpl. lia.
Defined.

(** C6 (counterexample). Without dimensions the attribution is never
    looked at: the value [bogus] goes unnoticed and the request is
    sent. *)
Lemma unknown_attribution_without_dimensions_accepted :
  run (getDataByTime defaultClient "123" (Some ["ym:s:visits"]) None None
         None None None None (Some "bogus")) healthy =
    (inr (Json "{}"),
     [Fetch
        "https://api-metrika.yandex.net/stat/v1/data/bytime?ids=123&metrics=ym:s:visits&group=day&top_keys=7"
        "OAuth token"])
  /\ ~ InvalidParameter
         (run (getDataByTime defaultClient "123" (Some ["ym:s:visits"]) None
                 None None None None None (Some "bogus")) healthy).
Proof.
  split; [reflexivity|]. intros [msg H]. discriminate H.
Qed.

(** Nor is the name of a member every object inherits rejected, even
    with dimensions. *)
Example inherited_member_name_accepted :
  buildDimensionNameWithAttribution "ym:s:UTMCampaign" (Some "constructor")
  = inr "ym:s:function Object() { [native code] }UTMCampaign".
Proof. reflexivity. Qed.

(** ** Strings, pieces and query parameters *)

Lemma append_assoc (a b c : string) : (a ++ b) ++ c = a ++ b ++ c.
Proof. induction a as [|x a IH]; simpl; congruence. Qed.

Lemma noChar_app (c : ascii) (a b : string) :
  noChar c (a ++ b) = noChar c a && noChar c b.
Proof.
  induction a as [|x a IH]; simpl; [reflexivity|].
  rewrite IH, andb_assoc. reflexivity.
Qed.

Lemma split_nonempty (sep : ascii) (s : string) : split sep s <> [].
Proof.
  destruct s as [|a s]; simpl; [discriminate|].
  destruct (Ascii.eqb a sep); [discriminate|].
  destruct (split sep s); discriminate.
Qed.

(** Cutting at a separator cuts what precedes it and what follows it. *)
Lemma split_app_sep (sep : ascii) (a b : string) :
  split sep (a ++ String sep b) = (split sep a ++ split sep b)%list.
Proof.
  induction a as [|x a IH]; simpl.
  - rewrite Ascii.eqb_refl. reflexivity.
  - destruct (Ascii.eqb x sep).
    + rewrite IH. reflexivity.
    + rewrite IH. destruct (split sep a) eqn:E; [|reflexivity].
      exfalso. exact (split_nonempty sep a E).
Qed.

Lemma split_clean (sep : ascii) (s : string) :
  noChar sep s = true -> split sep s = [s].
Proof.
  induction s as [|a s IH]; simpl; intro H; [reflexivity|].
  apply andb_true_iff in H as [Ha Hs]. apply negb_true_iff in Ha.
  rewrite Ha, (IH Hs). reflexivity.
Qed.

Lemma afterFirst_app (c : ascii) (u q x : string) :
  afterFirst c u = Some q -> afterFirst c (u ++ x) = Some (q ++ x).
Proof.
  induction u as [|a u IH]; simpl; [discriminate|].
  destruct (Ascii.eqb a c); [|exact IH].
  intro H. injection H as <-. reflexivity.
Qed.

Lemma beforeFirst_key (c : ascii) (k v : string) :
  noChar c k = true -> beforeFirst c (k ++ String c v) = k.
Proof.
  induction k as [|a k IH]; simpl; intro H.
  - rewrite Ascii.eqb_refl. reflexivity.
  - apply andb_true_iff in H as [Ha Hk]. apply negb_true_iff in Ha.
    rewrite Ha, (IH Hk). reflexivity.
Qed.

Lemma afterFirst_key (c : ascii) (k v : string) :
  noChar c k = true -> afterFirst c (k ++ String c v) = Some v.
Proof.
  induction k as [|a k IH]; simpl; intro H.
  - rewrite Ascii.eqb_refl. reflexivity.
  - apply andb_true_iff in H as [Ha Hk]. apply negb_true_iff in Ha.
    rewrite Ha. exact (IH Hk).
Qed.

Lemma parseParam_key_value (k v : string) :
  noChar "=" k = true -> parseParam (k ++ String "=" v) = (k, v).
Proof.
  intro H. unfold parseParam.
  rewrite (beforeFirst_key "=" k v H), (afterFirst_key "=" k v H).
  reflexivity.
Qed.

(** What follows an [&] adds its own parameters to those before it. *)
Lemma rawParams_app_amp (u q rest : string) :
  afterFirst "?" u = Some q ->
  rawParams (u ++ String "&" rest) =
  (rawParams u ++ map parseParam (split "&" rest))%list.
Proof.
  intro H. unfold rawParams.
  rewrite (afterFirst_app "?" u q (String "&" rest) H), H.
  rewrite split_app_sep, map_app. reflexivity.
Qed.

Lemma beforeFirst_noChar (c : ascii) (s : string) :
  noChar c s = true -> beforeFirst c s = s.
Proof.
  induction s as [|a s IH]; simpl; intro H; [reflexivity|].
  apply andb_true_iff in H as [Ha Hs]. apply negb_true_iff in Ha.
  rewrite Ha, (IH Hs). reflexivity.
Qed.

Lemma beforeFirst_app (c : ascii) (a b : string) :
  noChar c a = true -> beforeFirst c (a ++ b) = a ++ beforeFirst c b.
Proof.
  induction a as [|x a IH]; simpl; intro H; [reflexivity|].
  apply andb_true_iff in H as [Hx Ha]. apply negb_true_iff in Hx.
  rewrite Hx, (IH Ha). reflexivity.
Qed.

(** A URL without [#] is sent whole. *)
Lemma queryParams_whole (url : string) :
  noChar "#" url = true -> queryParams url = rawParams url.
Proof.
  intro H. unfold queryParams, withoutFragment.
  rewrite (beforeFirst_noChar "#" url H). reflexivity.
Qed.

Lemma Built_queryParams (url : string) (params : list (string * string)) :
  Built url params -> queryParams url = params.
Proof.
  intros [_ [Hparams Hwhole]].
  rewrite (queryParams_whole url Hwhole). exact Hparams.
Qed.

(** Appending [&key=value], the value without [&] and [#], adds one
    parameter. *)
Lemma Built_snoc (u : string) (ps : list (string * string))
    (lit k v : string) :
  Built u ps ->
  lit = String "&" (k ++ "=") ->
  noChar "=" k = true ->
  tidy k ->
  tidy v ->
  Built (u ++ lit ++ v) (ps ++ [(k, v)]).
Proof.
  intros [[q Hq] [Hps Hu]] -> Hk1 [Hk2 Hk3] [Hv1 Hv2].
  assert (Hshape : String "&" (k ++ "=") ++ v = String "&" (k ++ String "=" v)).
  { simpl. rewrite append_assoc. reflexivity. }
  rewrite Hshape. split; [|split].
  - exists (q ++ String "&" (k ++ String "=" v)).
    apply afterFirst_app. exact Hq.
  - rewrite (rawParams_app_amp u q _ Hq), Hps.
    rewrite split_clean.
    + simpl. rewrite (parseParam_key_value k v Hk1). reflexivity.
    + rewrite noChar_app. simpl. rewrite Hk2. exact Hv1.
  - rewrite noChar_app, Hu.
    change (noChar "#" (k ++ String "=" v) = true).
    rewrite noChar_app, Hk3. exact Hv2.
Qed.

Lemma Built_appendParam (u : string) (ps : list (string * string))
    (lit k : string) (value : option string) :
  Built u ps ->
  lit = String "&" (k ++ "=") ->
  noChar "=" k = true ->
  tidy k ->
  tidyOpt value ->
  Built (appendParam u lit value) (ps ++ optParam k value).
Proof.
  intros Hu Hlit Hk1 Hk2 Hv. unfold appendParam, optParam.
  destruct value as [v|]; [|rewrite app_nil_r; exact Hu].
  destruct (truthy v); [|rewrite app_nil_r; exact Hu].
  apply Built_snoc; auto.
Qed.

(** ** Strings without [&] *)

Lemma clean_app (a b : string) : clean a -> clean b -> clean (a ++ b).
Proof.
  unfold clean. intros Ha Hb. rewrite noChar_app, Ha, Hb. reflexivity.
Qed.

Lemma clean_app_r (a b : string) : clean (a ++ b) -> clean b.
Proof.
  unfold clean. rewrite noChar_app. intro H.
  apply andb_true_iff in H. tauto.
Qed.

Lemma uint_clean (d : Decimal.uint) : clean (NilEmpty.string_of_uint d).
Proof. unfold clean. induction d; simpl; auto. Qed.

Lemma Number_toString_clean (n : Z) : clean (Number_toString n).
Proof.
  unfold Number_toString, NilZero.string_of_int, NilZero.string_of_uint.
  destruct (Z.to_int n) as [d | d]; destruct d;
    try reflexivity; try apply uint_clean;
    unfold clean; simpl; apply uint_clean.
Qed.

Lemma join_clean (sep : string) (xs : list string) :
  clean sep -> cleanList xs -> clean (join sep xs).
Proof.
  intros Hsep Hxs. unfold join.
  induction Hxs as [|x xs Hx Hxs IH]; [reflexivity|].
  destruct xs as [|y ys]; [exact Hx|].
  change (clean (x ++ sep ++ String.concat sep (y :: ys))).
  auto using clean_app.
Qed.

Lemma hexDigit_not_amp (n : nat) : Ascii.eqb (hexDigit n) "&" = false.
Proof.
  unfold hexDigit.
  do 17 (destruct n as [|n]; [reflexivity|]). reflexivity.
Qed.

Lemma encodeURIComponent_clean (s : string) : clean (encodeURIComponent s).
Proof.
  unfold clean. induction s as [|c s IH]; simpl; [reflexivity|].
  destruct (isUnreserved c) eqn:Hc; simpl.
  - rewrite IH, andb_true_r. apply negb_true_iff.
    destruct (Ascii.eqb_spec c "&") as [-> | _]; [discriminate Hc|].
    reflexivity.
  - rewrite !hexDigit_not_amp, IH. reflexivity.
Qed.

(** ** Strings without [&] and [#] *)

Lemma tidy_app (a b : string) : tidy a -> tidy b -> tidy (a ++ b).
Proof.
  intros [Ha1 Ha2] [Hb1 Hb2]. split.
  - apply clean_app; assumption.
  - rewrite noChar_app, Ha2, Hb2. reflexivity.
Qed.

Lemma uint_whole (d : Decimal.uint) :
  noChar "#" (NilEmpty.string_of_uint d) = true.
Proof. induction d; simpl; auto. Qed.

Lemma Number_toString_tidy (n : Z) : tidy (Number_toString n).
Proof.
  split; [apply Number_toString_clean|].
  unfold Number_toString, NilZero.string_of_int, NilZero.string_of_uint.
  destruct (Z.to_int n) as [d | d]; destruct d;
    try reflexivity; try apply uint_whole; simpl; apply uint_whole.
Qed.

Lemma join_noChar (c : ascii) (sep : string) (xs : list string) :
  noChar c sep = true ->
  Forall (fun x => noChar c x = true) xs ->
  noChar c (join sep xs) = true.
Proof.
  intros Hsep Hxs. unfold join.
  induction Hxs as [|x xs Hx Hxs IH]; [reflexivity|].
  destruct xs as [|y ys]; [exact Hx|].
  change (noChar c (x ++ sep ++ String.concat sep (y :: ys)) = true).
  rewrite !noChar_app, Hx, Hsep, IH. reflexivity.
Qed.

Lemma join_tidy (sep : string) (xs : list string) :
  tidy sep -> Forall tidy xs -> tidy (join sep xs).
Proof.
  intros [Hsep1 Hsep2] Hxs. split.
  - apply join_clean; [exact Hsep1|].
    exact (Forall_impl _ (fun x Hx => proj1 Hx) Hxs).
  - apply join_noChar; [exact Hsep2|].
    exact (Forall_impl _ (fun x Hx => proj2 Hx) Hxs).
Qed.

Lemma hexDigit_not_hash (n : nat) : Ascii.eqb (hexDigit n) "#" = false.
Proof.
  unfold hexDigit.
  do 17 (destruct n as [|n]; [reflexivity|]). reflexivity.
Qed.

(** [encodeURIComponent] escapes both characters. *)
Lemma encodeURIComponent_tidy (s : string) : tidy (encodeURIComponent s).
Proof.
  split; [apply encodeURIComponent_clean|].
  induction s as [|c s IH]; simpl; [reflexivity|].
  destruct (isUnreserved c) eqn:Hc; simpl.
  - rewrite IH, andb_true_r. apply negb_true_iff.
    destruct (Ascii.eqb_spec c "#") as [-> | _]; [discriminate Hc|].
    reflexivity.
  - rewrite !hexDigit_not_hash, IH. reflexivity.
Qed.

Lemma assoc_In (key v : string) (entries : list (string * string)) :
  assoc key entries = Some v -> In v (map snd entries).
Proof.
  induction entries as [|[k w] entries IH]; simpl; [discriminate|].
  destruct (String.eqb k key).
  - intro H. injection H as <-. auto.
  - auto.
Qed.

Lemma matchAlternatives_suffix (alts : list string) (s p rest : string) :
  matchAlternatives alts s = Some (p, rest) -> s = p ++ rest.
Proof.
  induction alts as [|a alts IH]; simpl; [discriminate|].
  destruct (stripPrefix a s) as [r|] eqn:Hr; [|exact IH].
  destruct (dotPlusEnd r); [|exact IH].
  intro H. injection H as <- <-. exact (stripPrefix_Some a s r Hr).
Qed.

Lemma tidy_app_r (a b : string) : tidy (a ++ b) -> tidy b.
Proof.
  intros [H1 H2]. split; [exact (clean_app_r a b H1)|].
  rewrite noChar_app in H2. apply andb_true_iff in H2. tauto.
Qed.

(** Whatever the map or its prototype yields prints without [&] and
    [#]. *)
Lemma template_get_property_tidy (a : string) :
  tidy (template (get_property attributionPrefixMap a)).
Proof.
  assert (Hown : Forall tidy (map snd attributionPrefixMap))
    by (repeat constructor).
  assert (Hproto : Forall tidy (map snd Object_prototype))
    by (repeat constructor).
  unfold get_property.
  destruct (assoc a attributionPrefixMap) as [v|] eqn:Ha.
  - exact (proj1 (Forall_forall _ _) Hown v (assoc_In a v _ Ha)).
  - destruct (assoc a Object_prototype) as [v|] eqn:Hp.
    + exact (proj1 (Forall_forall _ _) Hproto v (assoc_In a v _ Hp)).
    + split; reflexivity.
Qed.

(** The rewriter adds no [&] and no [#] to a dimension. *)
Lemma build_tidy (dimension : string) (attribution : option string)
    (d : string) :
  tidy dimension ->
  buildDimensionNameWithAttribution dimension attribution = inr d ->
  tidy d.
Proof.
  intros Hdim. unfold buildDimensionNameWithAttribution.
  destruct (negb (truthy_opt (get_property attributionPrefixMap
                                (defaultTo attribution "automatic"))));
    [discriminate|].
  pose proof (template_get_property_tidy
                (defaultTo attribution "automatic")) as Hprefix.
  unfold dimensionPattern_match, basePattern_match.
  destruct (stripPrefix "ym:s:" dimension) as [s|] eqn:Hs.
  - apply stripPrefix_Some in Hs.
    assert (Htidy_s : tidy s)
      by (rewrite Hs in Hdim; exact (tidy_app_r _ _ Hdim)).
    destruct (matchAlternatives patternPrefixes s) as [[p rest]|] eqn:Hm.
    + apply matchAlternatives_suffix in Hm.
      assert (Hrest : tidy rest)
        by (rewrite Hm in Htidy_s; exact (tidy_app_r _ _ Htidy_s)).
      intro H. injection H as <-.
      apply (tidy_app "ym:s:"); [split; reflexivity|].
      auto using tidy_app.
    + destruct (dotPlusEnd s); intro H; injection H as <-.
      * apply (tidy_app "ym:s:"); [split; reflexivity|].
        auto using tidy_app.
      * exact Hdim.
  - intro H. injection H as <-. exact Hdim.
Qed.

Lemma Array_map_Forall (P : string -> Prop) (f : string -> Error + string)
    (xs ys : list string) :
  (forall x y, P x -> f x = inr y -> P y) ->
  Forall P xs -> Array_map f xs = inr ys -> Forall P ys.
Proof.
  intros Hf Hxs. revert ys.
  induction Hxs as [|x xs Hx Hxs IH]; simpl; intros ys H.
  - injection H as <-. constructor.
  - destruct (f x) as [e | y] eqn:Hy; [discriminate|].
    destruct (Array_map f xs) as [e | zs] eqn:Hzs; [discriminate|].
    injection H as <-.
    constructor; [exact (Hf x y Hx Hy) | exact (IH zs eq_refl)].
Qed.

Lemma processDimensions_tidy (dimensions : option (list string))
    (attribution : option string) (processed : option (list string)) :
  tidyOptList dimensions ->
  processDimensions dimensions attribution = inr processed ->
  tidyOptList processed.
Proof.
  intros Hdims. unfold processDimensions.
  destruct dimensions as [dims|].
  - destruct (truthy_opt attribution && (0 <? Z.of_nat (List.length dims))).
    + destruct (Array_map _ dims) as [e | ys] eqn:Hmap; [discriminate|].
      intro H. injection H as <-. intros xs Hxs. injection Hxs as <-.
      refine (Array_map_Forall tidy _ dims ys _ (Hdims dims eq_refl) Hmap).
      intros x y Hx Hy. exact (build_tidy x attribution y Hx Hy).
    + intro H. injection H as <-. exact Hdims.
  - intro H. injection H as <-. exact Hdims.
Qed.

(** ** The URL of [getDataByTime] *)

Lemma dataByTimeParams_keys (counterId : string) (metrics : list string)
    (dateFrom dateTo : option string)
    (processedDimensions : option (list string)) (group : string)
    (topKeys : Z) (timezone : option string) :
  incl (map fst (dataByTimeParams counterId metrics dateFrom dateTo
                   processedDimensions group topKeys timezone))
       dataByTimeKeys.
Proof.
  unfold dataByTimeParams, optParam, dimensionsParam, timezoneParam.
  destruct dateFrom as [v1|]; [destruct (truthy v1)|];
    (destruct dateTo as [v2|]; [destruct (truthy v2)|]);
    (destruct processedDimensions as [[|dim dims]|]);
    (destruct timezone as [tz|]; [destruct (truthy tz)|]);
    intros k Hk; simpl in Hk |- *; intuition.
Qed.

Lemma attribution_not_a_key : ~ In "attribution" dataByTimeKeys.
Proof.
  simpl. intros H.
  repeat (destruct H as [H | H]; [discriminate H|]). exact H.
Qed.

(** ** Filter expressions *)

Lemma hexDigit_hex (n : nat) : charIn (hexDigit n) "0123456789ABCDEF" = true.
Proof.
  unfold hexDigit.
  do 17 (destruct n as [|n]; [reflexivity|]). reflexivity.
Qed.

Lemma percentEncoded_unreserved (c : ascii) (s : string) :
  isUnreserved c = true -> percentEncoded (String c s) = percentEncoded s.
Proof.
  destruct c as [[] [] [] [] [] [] [] []]; intro H;
    solve [discriminate H | reflexivity].
Qed.

Lemma percentEncoded_escape (h1 h2 : ascii) (s : string) :
  charIn h1 "0123456789ABCDEF" = true ->
  charIn h2 "0123456789ABCDEF" = true ->
  percentEncoded (String "%" (String h1 (String h2 s))) = percentEncoded s.
Proof.
  intros H1 H2. cbn [percentEncoded]. rewrite H1, H2. reflexivity.
Qed.

(** What [encodeURIComponent] returns is in percent-encoded form. *)
Lemma encodeURIComponent_percentEncoded (s : string) :
  percentEncoded (encodeURIComponent s) = true.
Proof.
  induction s as [|c s IH]; [reflexivity|]. cbn [encodeURIComponent].
  destruct (isUnreserved c) eqn:Hc.
  - rewrite (percentEncoded_unreserved c _ Hc). exact IH.
  - rewrite percentEncoded_escape; auto using hexDigit_hex.
Qed.

(** The request of [getSearchEnginesData] with both options set. *)
Example getSearchEnginesData_request :
  run (getSearchEnginesData defaultClient "123" (Some true) (Some true))
      healthy =
  (inr (Json "{}"),
   [Fetch
      "https://api-metrika.yandex.net/stat/v1/data?dimensions=ym:s:searchEngine&metrics=ym:s:visits,ym:s:users&filters=ym%3As%3AtrafficSource%3D%3D'organic'%20AND%20ym%3As%3AisRobot%3D%3D'No'%20AND%20ym%3As%3AisNewUser%3D%3D'Yes'&id=123"
      "OAuth token"]).
Proof. reflexivity. Qed.

(** A city name with an [&] stays inside the one value. *)
Example getRegionalData_request :
  run (getRegionalData defaultClient "123" (Some ["Tyne & Wear"])) healthy =
  (inr (Json "{}"),
   [Fetch
      "https://api-metrika.yandex.net/stat/v1/data?metrics=ym:s:visits,ym:s:users&filters=ym%3As%3AregionCityName%3D.('Tyne%20%26%20Wear')&id=123&lang=ru"
      "OAuth token"]).
Proof. reflexivity. Qed.

(** C7 (counterexample). [getOrganicSearchPerformance] writes its filter
    expression into the URL as it stands: the value of [filters] holds
    [:] and [=], which percent-encoding would have turned into [%3A] and
    [%3D]. *)
Lemma literal_filters_not_percent_encoded :
  let url :=
    "https://api-metrika.yandex.net/stat/v1/data?dimensions=ym:s:searchEngine,ym:s:searchPhrase&metrics=ym:s:visits,ym:s:users,ym:s:pageviews&filters=ym:s:trafficSource=='organic'&id=123"
  in
  run (getOrganicSearchPerformance defaultClient "123" None None) healthy =
    (inr (Json "{}"), [Fetch url "OAuth token"])
  /\ queryValues "filters" url = ["ym:s:trafficSource=='organic'"]
  /\ percentEncoded "ym:s:trafficSource=='organic'" = false
  /\ encodeURIComponent "ym:s:trafficSource=='organic'" =
     "ym%3As%3AtrafficSource%3D%3D'organic'".
Proof. repeat split; reflexivity. Qed.

(** So do [getTrafficSourcesTypes] and [getContentAnalyticsArticles]. *)
Example getTrafficSourcesTypes_literal_filters :
  let url :=
    "https://api-metrika.yandex.net/stat/v1/data?dimensions=ym:s:lastTrafficSource&metrics=ym:s:visits,ym:s:users&filters=ym:s:lastTrafficSource=.('organic','direct','referral')&id=123&lang=ru"
  in
  run (getTrafficSourcesTypes defaultClient "123") healthy =
    (inr (Json "{}"), [Fetch url "OAuth token"])
  /\ queryValues "filters" url =
     ["ym:s:lastTrafficSource=.('organic','direct','referral')"]
  /\ percentEncoded "ym:s:lastTrafficSource=.('organic','direct','referral')"
     = false.
Proof. repeat split; reflexivity. Qed.

Example getContentAnalyticsArticles_literal_filters :
  let url :=
    "https://api-metrika.yandex.net/stat/v1/data?ids=123&dimensions=ym:s:publisherArticle&metrics=ym:s:publisherviews&filters=(ym:s:publisherArticle!n)&sort=-ym:s:publisherviews"
  in
  run (getContentAnalyticsArticles defaultClient "123" None None) healthy =
    (inr (Json "{}"), [Fetch url "OAuth token"])
  /\ queryValues "filters" url = ["(ym:s:publisherArticle!n)"]
  /\ percentEncoded "(ym:s:publisherArticle!n)" = false.
Proof. repeat split; reflexivity. Qed.

(** * Further properties of the transport core *)

Lemma fetchCount_app (xs ys : list Event) :
  fetchCount (xs ++ ys) = (fetchCount xs + fetchCount ys)%nat.
Proof.
  unfold fetchCount. rewrite filter_app, length_app. reflexivity.
Qed.

Lemma fetchCount_backoffTrace (url auth : string) (d : Z) (k : nat) :
  forall attempt, fetchCount (backoffTrace url auth d attempt k) = k.
Proof.
  induction k as [|k IH]; intro attempt; [reflexivity|].
  destruct k as [|k]; [reflexivity|].
  specialize (IH (attempt + 1)).
  change (backoffTrace url auth d attempt (S (S k)))
    with (Fetch url auth :: Sleep (d * attempt)
          :: backoffTrace url auth d (attempt + 1) (S k)).
  unfold fetchCount in *. cbn [filter is_fetch List.length].
  rewrite IH. reflexivity.
Qed.

(** The delays of [k] attempts numbered from [attempt]. *)
Lemma sleeps_backoffTrace (url auth : string) (d : Z) (k : nat) :
  forall attempt,
    sleeps (backoffTrace url auth d attempt (S k)) =
    map (fun i => d * (attempt + Z.of_nat i)) (seq 0 k).
Proof.
  induction k as [|k IH]; intro attempt; [reflexivity|].
  change (backoffTrace url auth d attempt (S (S k)))
    with (Fetch url auth :: Sleep (d * attempt)
          :: backoffTrace url auth d (attempt + 1) (S k)).
  cbn [sleeps]. rewrite IH. cbn [seq map].
  rewrite Z.add_0_r. f_equal.
  rewrite <- seq_shift, map_map. apply map_ext. intro i.
  f_equal. lia.
Qed.

Lemma attemptRequest_outcome (c : Client) (url : string) (w : World) :
  attemptRequest c url w =
  (match network w (fetchCount (events w)) url with
   | Rejected e => inl e
   | Responded r => if ok r then inr (json r) else inl (statusError r)
   end,
   mkWorld (network w) (events w ++ [Fetch url (authorization c)])).
Proof.
  unfold attemptRequest, bind, fetch.
  destruct (network w (fetchCount (events w)) url) as [e | r];
    [reflexivity|].
  destruct (ok r); reflexivity.
Qed.

(** An attempt that is not followed by another one ends the call. *)
Lemma Course_last (c : Client) (url : string) (attempt : Z) (w : World)
    (o : FetchOutcome) :
  network w (fetchCount (events w)) url = o ->
  retried c attempt o = false ->
  Course c url attempt w
    (settled o,
     mkWorld (network w) (events w ++ [Fetch url (authorization c)])).
Proof.
  intros Hout Hlast. exists 0%nat.
  rewrite Nat.add_0_r, Z.add_0_r, Hout. cbn [fst snd network events].
  repeat split; try reflexivity; try assumption.
  intros i Hi. lia.
Qed.

(** An attempt that is followed by another one: the delay, then the
    course of the call from the next attempt. *)
Lemma Course_retry (c : Client) (url : string) (attempt : Z) (w : World)
    (res : Promise JsonValue * World) :
  retried c attempt (network w (fetchCount (events w)) url) = true ->
  Course c url (attempt + 1)
    (mkWorld (network w)
       ((events w ++ [Fetch url (authorization c)])
        ++ [Sleep (r_retryDelay (config c) * attempt)]))
    res ->
  Course c url attempt w res.
Proof.
  intros Hretry [k [Hnet [Hev [Hbefore [Hlast Hres]]]]].
  cbn [network events] in *.
  assert (Hcount :
    fetchCount ((events w ++ [Fetch url (authorization c)])
                ++ [Sleep (r_retryDelay (config c) * attempt)]) =
    S (fetchCount (events w))).
  { rewrite !fetchCount_app. cbn. lia. }
  rewrite Hcount in *.
  exists (S k). repeat split.
  - exact Hnet.
  - rewrite Hev, <- !app_assoc. reflexivity.
  - intros [|i] Hi.
    + rewrite Nat.add_0_r, Z.add_0_r. exact Hretry.
    + replace (fetchCount (events w) + S i)%nat
        with (S (fetchCount (events w)) + i)%nat by lia.
      replace (attempt + Z.of_nat (S i)) with (attempt + 1 + Z.of_nat i)
        by lia.
      apply Hbefore. lia.
  - replace (fetchCount (events w) + S k)%nat
      with (S (fetchCount (events w)) + k)%nat by lia.
    replace (attempt + Z.of_nat (S k)) with (attempt + 1 + Z.of_nat k)
      by lia.
    exact Hlast.
  - replace (fetchCount (events w) + S k)%nat
      with (S (fetchCount (events w)) + k)%nat by lia.
    exact Hres.
Qed.

(** [makeRequest] takes the course described by [Course]. *)
Lemma makeRequest_loop_course (c : Client) (url : string) :
  forall (budget : nat) (attempt : Z) (w : World),
    (Z.to_nat (r_retries (config c) - attempt) <= budget)%nat ->
    Course c url attempt w (makeRequest_loop budget c url attempt w).
Proof.
  induction budget as [|budget IH]; intros attempt w Hbudget;
    cbn [makeRequest_loop]; unfold try_catch;
    rewrite attemptRequest_outcome;
    pose proof (Course_last c url attempt w _ eq_refl) as Hlast;
    pose proof (Course_retry c url attempt w) as Hretry;
    unfold retried in Hlast, Hretry;
    destruct (network w (fetchCount (events w)) url) as [e | r];
    cbn [caught settled] in Hlast, Hretry.
  - assert (Hlt : (attempt <? r_retries (config c)) = false)
      by (apply Z.ltb_ge; lia).
    rewrite Hlt in *. exact (Hlast eq_refl).
  - assert (Hlt : (attempt <? r_retries (config c)) = false)
      by (apply Z.ltb_ge; lia).
    destruct (ok r).
    + destruct (json r); exact (Hlast eq_refl).
    + rewrite Hlt in *. exact (Hlast eq_refl).
  - destruct ((attempt <? r_retries (config c)) && isRetryableError e)
      eqn:Hcond.
    + apply (Hretry _ eq_refl). apply IH.
      apply andb_true_iff in Hcond as [Hlt _]. apply Z.ltb_lt in Hlt. lia.
    + exact (Hlast eq_refl).
  - destruct (ok r).
    + destruct (json r); exact (Hlast eq_refl).
    + destruct ((attempt <? r_retries (config c))
                && isRetryableError (statusError r)) eqn:Hcond.
      * apply (Hretry _ eq_refl). apply IH.
        apply andb_true_iff in Hcond as [Hlt _]. apply Z.ltb_lt in Hlt. lia.
      * exact (Hlast eq_refl).
Qed.

(** The course of a call made from a world in which nothing has happened
    yet. *)
Lemma makeRequest_run_course (c : Client) (url : string) (net : Network) :
  exists k : nat,
    snd (run (makeRequest c url 1) net) =
      backoffTrace url (authorization c) (r_retryDelay (config c)) 1 (S k)
    /\ (forall i, (i < k)%nat ->
          retried c (1 + Z.of_nat i) (net i url) = true)
    /\ retried c (1 + Z.of_nat k) (net k url) = false
    /\ fst (run (makeRequest c url 1) net) = settled (net k url).
Proof.
  destruct (makeRequest_loop_course c url
              (Z.to_nat (r_retries (config c) - 1)) 1 (initial net)
              (Nat.le_refl _))
    as [k [_ [Hev [Hbefore [Hlast Hres]]]]].
  exists k. rewrite run_events. unfold run, makeRequest in *.
  cbn [initial network events fetchCount filter List.length Nat.add app]
    in *.
  destruct (makeRequest_loop _ c url 1 (initial net)) as [p w'].
  cbn [fst snd] in *. auto.
Qed.

(** Every attempt that is followed by another one is numbered below
    [retries]. *)
Lemma retried_below_retries (c : Client) (attempt : Z) (o : FetchOutcome) :
  retried c attempt o = true -> attempt < r_retries (config c).
Proof.
  unfold retried. destruct (caught o) as [e|]; [|discriminate].
  intro H. apply andb_true_iff in H as [Hlt _]. apply Z.ltb_lt. exact Hlt.
Qed.

(** X1. Whatever the network does, a call sends at least one request and
    at most [retries] of them (one when [retries] is below 1), all for
    the same URL and with the same [Authorization] header, and between
    two consecutive requests it waits [retryDelay] times the number of
    the attempt that failed. *)
Theorem makeRequest_attempts_bounded :
  forall (c : Client) (url : string) (net : Network),
  exists k : nat,
    (1 <= k)%nat
    /\ Z.of_nat k <= Z.max 1 (r_retries (config c))
    /\ snd (run (makeRequest c url 1) net) =
       backoffTrace url ("OAuth " ++ token c) (r_retryDelay (config c)) 1 k
    /\ fetchCount (snd (run (makeRequest c url 1) net)) = k
    /\ sleeps (snd (run (makeRequest c url 1) net)) =
       map (fun i => r_retryDelay (config c) * (1 + Z.of_nat i))
           (seq 0 (k - 1)).
Proof.
  intros c url net.
  destruct (makeRequest_run_course c url net) as [k [Hev [Hbefore _]]].
  exists (S k). rewrite Hev. repeat split.
  - lia.
  - destruct k as [|k]; [lia|].
    pose proof (retried_below_retries c _ _ (Hbefore k (Nat.lt_succ_diag_r k))).
    lia.
  - apply fetchCount_backoffTrace.
  - rewrite sleeps_backoffTrace. cbn [Nat.sub]. rewrite Nat.sub_0_r.
    reflexivity.
Qed.

(** X2. A call settles as its last attempt does: with that attempt's
    rejection, with the error made from that attempt's response when the
    status is not in 200..299, and otherwise as the [json()] of that
    response settles. No earlier attempt shows in the result. *)
Theorem makeRequest_settles_as_last_attempt :
  forall (c : Client) (url : string) (net : Network),
    fst (run (makeRequest c url 1) net) =
    settled (net (fetchCount (snd (run (makeRequest c url 1) net)) - 1)%nat
                 url).
Proof.
  intros c url net.
  destruct (makeRequest_run_course c url net) as [k [Hev [_ [_ Hres]]]].
  rewrite Hev, fetchCount_backoffTrace. cbn [Nat.sub].
  rewrite Nat.sub_0_r. exact Hres.
Qed.

(** X3. The number of requests of a call is decided by the first attempt
    that is not retried: every attempt before the last one failed with an
    error that [isRetryableError] accepts while its number was below
    [retries], and the last one did not. *)
Theorem makeRequest_stops_at_first_final_attempt :
  forall (c : Client) (url : string) (net : Network),
    let n := fetchCount (snd (run (makeRequest c url 1) net)) in
    forallb (fun i => retried c (Z.of_nat (S i)) (net i url))
            (seq 0 (n - 1)) = true
    /\ retried c (Z.of_nat n) (net (n - 1)%nat url) = false.
Proof.
  intros c url net n. subst n.
  destruct (makeRequest_run_course c url net) as [k [Hev [Hbefore [Hlast _]]]].
  rewrite Hev, fetchCount_backoffTrace. cbn [Nat.sub].
  rewrite Nat.sub_0_r. split.
  - apply forallb_forall. intros i Hi. apply in_seq in Hi.
    replace (Z.of_nat (S i)) with (1 + Z.of_nat i) by lia.
    apply Hbefore. lia.
  - replace (Z.of_nat (S k)) with (1 + Z.of_nat k) by lia. exact Hlast.
Qed.

(** X4. When every attempt fails with an error that [isRetryableError]
    accepts and [retries] is at least 1, the call makes exactly [retries]
    attempts, with the delays [retryDelay * 1], ..., [retryDelay *
    (retries - 1)] between them, and is rejected with the error of the
    last attempt. *)
Theorem persistent_failure_exhausts_attempts :
  forall (c : Client) (url : string) (net : Network),
    1 <= r_retries (config c) ->
    (forall n, exists e,
        caught (net n url) = Some e /\ isRetryableError e = true) ->
    run (makeRequest c url 1) net =
    (settled (net (Z.to_nat (r_retries (config c)) - 1)%nat url),
     backoffTrace url (authorization c) (r_retryDelay (config c)) 1
       (Z.to_nat (r_retries (config c)))).
Proof.
  intros c url net Hretries Hfail.
  destruct (makeRequest_run_course c url net)
    as [k [Hev [Hbefore [Hlast Hres]]]].
  assert (Hk : S k = Z.to_nat (r_retries (config c))).
  { destruct (Hfail k) as [e [He Hre]].
    unfold retried in Hlast. rewrite He, Hre, andb_true_r in Hlast.
    apply Z.ltb_ge in Hlast.
    destruct k as [|k]; [lia|].
    pose proof (retried_below_retries c _ _ (Hbefore k (Nat.lt_succ_diag_r k))).
    lia. }
  rewrite <- Hk. cbn [Nat.sub]. rewrite Nat.sub_0_r.
  rewrite <- Hev, <- Hres.
  destruct (run (makeRequest c url 1) net). reflexivity.
Qed.

(** Four attempts on a network on which every request times out. *)
Lemma persistent_failure_exhausts_attempts_witness :
  let c := constructor "token" (mkConfig None (Some 4) (Some 100)) in
  let url := "https://api-metrika.yandex.net/management/v1/counter/1" in
  run (makeRequest c url 1) unreachable =
  (inl AbortError,
   [ Fetch url "OAuth token"; Sleep 100;
     Fetch url "OAuth token"; Sleep 200;
     Fetch url "OAuth token"; Sleep 300;
     Fetch url "OAuth token" ]).
Proof.
  intros c url.
  apply (persistent_failure_exhausts_attempts c url unreachable).
  - cbn. lia.
  - intro n. exists AbortError. split; reflexivity.
Defined.

(** X5. With [retries] at 1 or below, a call makes one attempt and
    settles as that attempt does, without any delay, whatever the
    failure. *)
Theorem single_attempt_when_retries_at_most_one :
  forall (c : Client) (url : string) (net : Network),
    r_retries (config c) <= 1 ->
    run (makeRequest c url 1) net =
    (settled (net 0%nat url), [Fetch url (authorization c)]).
Proof.
  intros c url net Hretries.
  destruct (makeRequest_run_course c url net)
    as [k [Hev [Hbefore [_ Hres]]]].
  destruct k as [|k].
  - cbn [backoffTrace] in Hev. rewrite <- Hev, <- Hres.
    destruct (run (makeRequest c url 1) net). reflexivity.
  - pose proof (retried_below_retries c _ _ (Hbefore 0%nat (Nat.lt_0_succ k))).
    cbn in H. lia.
Qed.

(** A timeout with [retries] configured as 1. *)
Lemma single_attempt_when_retries_at_most_one_witness :
  let c := constructor "token" (mkConfig None (Some 1) None) in
  let url := "https://api-metrika.yandex.net/management/v1/counter/1" in
  run (makeRequest c url 1) unreachable =
  (inl AbortError, [Fetch url "OAuth token"]).
Proof.
  intros c url.
  apply (single_attempt_when_retries_at_most_one c url unreachable).
  cbn. lia.
Defined.

(** X6. A configured 0 counts as not configured: a client built with
    [retries: 0] and [retryDelay: 0] does not make a single immediate
    attempt, it behaves as the default client, with three attempts and
    waits of 1000 and 2000 ms. *)
Theorem zero_configuration_falls_back_to_defaults :
  forall (tok url : string) (cfg : ClientConfig),
    retries cfg = Some 0 ->
    retryDelay cfg = Some 0 ->
    config (constructor tok cfg) =
      mkRequired (or_default (timeout cfg) 30000) 3 1000
    /\ run (makeRequest (constructor tok cfg) url 1) unreachable =
       (inl AbortError,
        [ Fetch url ("OAuth " ++ tok); Sleep 1000;
          Fetch url ("OAuth " ++ tok); Sleep 2000;
          Fetch url ("OAuth " ++ tok) ]).
Proof.
  intros tok url [t r d] Hr Hd. cbn in Hr, Hd. subst r d.
  split; reflexivity.
Qed.

Lemma zero_configuration_falls_back_to_defaults_witness :
  run (makeRequest (constructor "token" (mkConfig (Some 5000) (Some 0)
                                           (Some 0)))
         "https://api-metrika.yandex.net/management/v1/counter/1" 1)
      unreachable =
  (inl AbortError,
   [ Fetch "https://api-metrika.yandex.net/management/v1/counter/1"
       "OAuth token"; Sleep 1000;
     Fetch "https://api-metrika.yandex.net/management/v1/counter/1"
       "OAuth token"; Sleep 2000;
     Fetch "https://api-metrika.yandex.net/management/v1/counter/1"
       "OAuth token" ]).
Proof.
  exact (proj2 (zero_configuration_falls_back_to_defaults "token"
                  "https://api-metrika.yandex.net/management/v1/counter/1"
                  (mkConfig (Some 5000) (Some 0) (Some 0))
                  eq_refl eq_refl)).
Defined.

(** X7. A response with a status in 200..299 ends the call at once:
    one request, no delay, and the call settles as [json()] of that
    response does. A body that does not parse is therefore never
    retried, whatever the parse error says. *)
Theorem success_status_ends_call :
  forall (c : Client) (url : string) (net : Network) (r : Response),
    net 0%nat url = Responded r ->
    ok r = true ->
    run (makeRequest c url 1) net =
    (json r, [Fetch url (authorization c)]).
Proof.
  intros c url net r Hnet Hok. unfold run. rewrite makeRequest_unfold.
  unfold try_catch.
  rewrite (attemptRequest_ok c url (initial net) r Hnet Hok).
  destruct (json r); reflexivity.
Qed.

(** A 200 whose body does not parse, the parse error mentioning 503. *)
Lemma success_status_ends_call_witness :
  let c := defaultClient in
  let url := "https://api-metrika.yandex.net/management/v1/counter/1" in
  let broken := mkError "SyntaxError" "Unexpected token at position 503" in
  isRetryableError broken = true
  /\ run (makeRequest c url 1) (always (mkResponse 200 "<html>" (inl broken)))
     = (inl broken, [Fetch url "OAuth token"]).
Proof.
  intros c url broken. split; [reflexivity|].
  exact (success_status_ends_call c url
           (always (mkResponse 200 "<html>" (inl broken)))
           (mkResponse 200 "<html>" (inl broken)) eq_refl eq_refl).
Defined.

Lemma prefix_refl (s : string) : String.prefix s s = true.
Proof.
  induction s as [|b s IH]; simpl; [reflexivity|].
  destruct (ascii_dec b b); [exact IH | congruence].
Qed.

Lemma includes_self (s : string) : includes s s = true.
Proof.
  destruct s as [|a s]; [reflexivity|].
  cbn [includes]. rewrite prefix_refl. reflexivity.
Qed.

Lemma includes_skip (pre s sub : string) :
  includes s sub = true -> includes (pre ++ s) sub = true.
Proof.
  induction pre as [|a pre IH]; intro Hs; [exact Hs|].
  simpl. rewrite (IH Hs). apply orb_true_r.
Qed.

Lemma statusError_includes_status (r : Response) (digits : string) :
  Number_toString (status r) = digits ->
  includes (message (statusError r)) digits = true.
Proof.
  intro H. unfold statusError. cbn [message new_Error]. rewrite H.
  apply includes_skip. apply includes_app_l. apply includes_self.
Qed.

(** X8. A timeout, that is a rejection named [AbortError], is retryable
    whatever its message, and so is the error made from a response with
    status 500, 502 or 503, whatever the body. *)
Theorem timeouts_and_server_errors_retryable :
  forall (e : Error) (r : Response),
    (name e = "AbortError" -> isRetryableError e = true)
    /\ (status r = 500 \/ status r = 502 \/ status r = 503 ->
        isRetryableError (statusError r) = true).
Proof.
  intros e r. split.
  - intro H. unfold isRetryableError. rewrite H. reflexivity.
  - intro H. unfold isRetryableError.
    assert (Htruthy : truthy (message (statusError r)) = true)
      by reflexivity.
    rewrite Htruthy. cbn [andb].
    destruct H as [H | [H | H]].
    + rewrite (statusError_includes_status r "500");
        [|rewrite H; reflexivity].
      rewrite !orb_true_r. reflexivity.
    + rewrite (statusError_includes_status r "502");
        [|rewrite H; reflexivity].
      rewrite !orb_true_r. reflexivity.
    + rewrite (statusError_includes_status r "503");
        [|rewrite H; reflexivity].
      rewrite !orb_true_r. reflexivity.
Qed.

Lemma timeouts_and_server_errors_retryable_witness :
  isRetryableError AbortError = true
  /\ isRetryableError
       (statusError (mkResponse 502 "Bad Gateway" notJson)) = true.
Proof.
  split.
  - exact (proj1 (timeouts_and_server_errors_retryable AbortError
                    (mkResponse 502 "Bad Gateway" notJson)) eq_refl).
  - exact (proj2 (timeouts_and_server_errors_retryable AbortError
                    (mkResponse 502 "Bad Gateway" notJson))
                 (or_intror (or_introl eq_refl))).
Defined.

Lemma includes_noChar (c : ascii) (s sub : string) :
  noChar c s = true -> includes s (String c sub) = false.
Proof.
  induction s as [|a s IH]; simpl; intro H; [reflexivity|].
  apply andb_true_iff in H as [Ha Hs]. apply negb_true_iff in Ha.
  rewrite (IH Hs), orb_false_r.
  destruct (ascii_dec c a) as [-> | _]; [|reflexivity].
  rewrite Ascii.eqb_refl in Ha. discriminate Ha.
Qed.

(** X9. A response whose status is not in 200..299 and is written
    without the digit 5, with a body that holds no digit 5 either, ends
    the call after one attempt, whatever [retries] is; the error carries
    the status and the body text. *)
Theorem failure_without_digit_5_not_retried :
  forall (c : Client) (url : string) (net : Network) (r : Response),
    net 0%nat url = Responded r ->
    ok r = false ->
    noChar "5" (Number_toString (status r)) = true ->
    noChar "5" (text r) = true ->
    run (makeRequest c url 1) net =
    (inl (new_Error ("Yandex Metrika error " ++ Number_toString (status r)
                     ++ ": " ++ text r)),
     [Fetch url (authorization c)]).
Proof.
  intros c url net r Hnet Hok Hstatus Hbody.
  apply (makeRequest_fatal_once c url 1 net r Hnet Hok).
  unfold isRetryableError, statusError. cbn [name message new_Error].
  assert (Hno : noChar "5" ("Yandex Metrika error "
                            ++ Number_toString (status r) ++ ": " ++ text r)
                = true).
  { rewrite !noChar_app, Hstatus, Hbody. reflexivity. }
  rewrite !(includes_noChar "5" _ _ Hno), !andb_false_r. reflexivity.
Qed.

(** A 404 with the retries left at their default. *)
Lemma failure_without_digit_5_not_retried_witness :
  let url := "https://api-metrika.yandex.net/management/v1/counter/1" in
  run (makeRequest defaultClient url 1)
      (always (mkResponse 404 "Counter not found" notJson)) =
  (inl (new_Error "Yandex Metrika error 404: Counter not found"),
   [Fetch url "OAuth token"]).
Proof.
  intro url.
  exact (failure_without_digit_5_not_retried defaultClient url
           (always (mkResponse 404 "Counter not found" notJson))
           (mkResponse 404 "Counter not found" notJson)
           eq_refl eq_refl eq_refl eq_refl).
Defined.

(** * Further properties of the query builder *)

(** ** Writing a query and reading it back *)

Lemma split_join (segments : list string) :
  Forall clean segments -> segments <> [] ->
  split "&" (join "&" segments) = segments.
Proof.
  intros Hclean Hne. unfold join.
  induction Hclean as [|x xs Hx Hxs IH]; [congruence|].
  destruct xs as [|y ys].
  - exact (split_clean "&" x Hx).
  - change (String.concat "&" (x :: y :: ys))
      with (x ++ String "&" (String.concat "&" (y :: ys))).
    rewrite split_app_sep, (split_clean "&" x Hx), IH; [reflexivity|].
    discriminate.
Qed.

Lemma renderParam_clean (kv : string * string) :
  plainParam kv -> clean (fst kv ++ String "=" (snd kv)).
Proof.
  intros [_ [[Hk _] [Hv _]]]. apply clean_app; [exact Hk|]. exact Hv.
Qed.

Lemma renderParam_tidy (kv : string * string) :
  plainParam kv -> tidy (fst kv ++ String "=" (snd kv)).
Proof.
  intros [_ [Hk [Hv1 Hv2]]]. apply tidy_app; [exact Hk|].
  split; [exact Hv1 | exact Hv2].
Qed.

Lemma renderQuery_whole (params : list (string * string)) :
  Forall plainParam params -> noChar "#" (renderQuery params) = true.
Proof.
  intro Hplain. unfold renderQuery. apply join_noChar; [reflexivity|].
  apply Forall_forall. intros seg Hseg. apply in_map_iff in Hseg.
  destruct Hseg as [kv [<- Hin]].
  exact (proj2 (renderParam_tidy kv
                  (proj1 (Forall_forall _ _) Hplain kv Hin))).
Qed.

(** A URL written from a path without [?] and [#] and from plain
    parameters reads back as these parameters. *)
Lemma Built_renderURL (path : string) (params : list (string * string)) :
  noChar "?" path = true ->
  noChar "#" path = true ->
  Forall plainParam params ->
  params <> [] ->
  Built (renderURL path params) params.
Proof.
  intros Hpath Hwhole Hplain Hne. unfold Built, rawParams, renderURL.
  rewrite (afterFirst_key "?" path (renderQuery params) Hpath).
  split; [eauto|]. split.
  - unfold renderQuery. rewrite split_join.
    + rewrite map_map. rewrite <- (map_id params) at 2.
      apply map_ext_in. intros [k v] Hin.
      destruct (proj1 (Forall_forall _ _) Hplain (k, v) Hin) as [Hk _].
      exact (parseParam_key_value k v Hk).
    + apply Forall_forall. intros seg Hseg. apply in_map_iff in Hseg.
      destruct Hseg as [kv [<- Hin]]. apply renderParam_clean.
      exact (proj1 (Forall_forall _ _) Hplain kv Hin).
    + destruct params; [congruence | discriminate].
  - rewrite noChar_app, Hwhole.
    exact (renderQuery_whole params Hplain).
Qed.

(** The same URL with the optional dates appended. *)
Lemma dated_url_params (path u : string) (fixed : list (string * string))
    (dateFrom dateTo : option string) :
  u = renderURL path fixed ->
  noChar "?" path = true ->
  noChar "#" path = true ->
  Forall plainParam fixed ->
  fixed <> [] ->
  tidyOpt dateFrom ->
  tidyOpt dateTo ->
  queryParams (appendParam (appendParam u "&date1=" dateFrom)
                 "&date2=" dateTo) =
  (fixed ++ optParam "date1" dateFrom ++ optParam "date2" dateTo)%list.
Proof.
  intros -> Hpath Hwhole Hplain Hne Hfrom Hto.
  pose proof (Built_renderURL path fixed Hpath Hwhole Hplain Hne) as H0.
  pose proof (Built_appendParam _ _ "&date1=" "date1" dateFrom H0
                eq_refl eq_refl (conj eq_refl eq_refl) Hfrom) as H1.
  pose proof (Built_appendParam _ _ "&date2=" "date2" dateTo H1
                eq_refl eq_refl (conj eq_refl eq_refl) Hto) as H2.
  rewrite (Built_queryParams _ _ H2), <- app_assoc. reflexivity.
Qed.

Lemma fixed_url_params (path u : string) (fixed : list (string * string)) :
  u = renderURL path fixed ->
  noChar "?" path = true ->
  noChar "#" path = true ->
  Forall plainParam fixed ->
  fixed <> [] ->
  queryParams u = fixed.
Proof.
  intros -> Hpath Hwhole Hplain Hne.
  exact (Built_queryParams _ _ (Built_renderURL path fixed Hpath Hwhole
                                  Hplain Hne)).
Qed.

(** The URLs of a method that checks the counter identifier and then
    requests [url]. *)
Lemma guarded_request_urls (c : Client) (counterId url : string)
    (net : Network) (P : string -> Prop) :
  P url ->
  Forall P
    (requestedURLs
       (snd (run (if negb (truthy counterId) then throw counterIdError
                  else makeRequest c url 1) net))).
Proof.
  intro HP. destruct (negb (truthy counterId)); [constructor|].
  refine (Forall_impl _ _ (makeRequest_urls c url 1 net)).
  intros u <-. exact HP.
Qed.

Lemma guarded_request_sends (c : Client) (counterId url : string)
    (net : Network) :
  counterId <> EmptyString ->
  SendsRequest
    (run (if negb (truthy counterId) then throw counterIdError
          else makeRequest c url 1) net).
Proof.
  intro Hne. destruct counterId as [|a s]; [congruence|].
  apply makeRequest_sends.
Qed.

Ltac plain_params :=
  repeat (constructor;
          [unfold plainParam; cbn [fst snd]; repeat split;
           solve [reflexivity | assumption]|]);
  try constructor.

Ltac rendered :=
  unfold renderURL, renderQuery, join;
  cbn [map fst snd String.concat];
  simpl; rewrite ?append_assoc; simpl; reflexivity.

(** ** The URL of [getDataByTime], written from its parameters *)

Lemma concat_snoc (sep : string) (xs : list string) (x : string) :
  xs <> [] ->
  String.concat sep (xs ++ [x]) = String.concat sep xs ++ sep ++ x.
Proof.
  induction xs as [|a xs IH]; intro H; [congruence|].
  destruct xs as [|b xs]; [reflexivity|].
  change (String.concat sep ((a :: b :: xs) ++ [x]))
    with (a ++ sep ++ String.concat sep ((b :: xs) ++ [x])).
  rewrite IH by discriminate.
  change (String.concat sep (a :: b :: xs))
    with (a ++ sep ++ String.concat sep (b :: xs)).
  rewrite !append_assoc. reflexivity.
Qed.

(** Appending [&key=value] to a URL writes one more parameter. *)
Lemma renderURL_snoc (path : string) (params : list (string * string))
    (lit k v : string) :
  params <> [] ->
  lit = String "&" (k ++ "=") ->
  renderURL path params ++ lit ++ v = renderURL path (params ++ [(k, v)]).
Proof.
  intros Hne ->. unfold renderURL, renderQuery, join.
  rewrite map_app. cbn [map fst snd].
  rewrite concat_snoc by (destruct params; [congruence | discriminate]).
  rewrite !append_assoc. cbn [append]. rewrite !append_assoc.
  reflexivity.
Qed.

Lemma renderURL_appendParam (path : string)
    (params : list (string * string)) (lit k : string)
    (value : option string) :
  params <> [] ->
  lit = String "&" (k ++ "=") ->
  appendParam (renderURL path params) lit value =
  renderURL path (params ++ optParam k value).
Proof.
  intros Hne Hlit. unfold appendParam, optParam.
  destruct value as [v|]; [|rewrite app_nil_r; reflexivity].
  destruct (truthy v); [|rewrite app_nil_r; reflexivity].
  apply renderURL_snoc; assumption.
Qed.

(** The URL of [getDataByTime] is written from the parameters
    [dataByTimeParams] lists, in their order. *)
Lemma dataByTimeURL_rendered (counterId : string) (metrics : list string)
    (dateFrom dateTo : option string)
    (processedDimensions : option (list string)) (group : string)
    (topKeys : Z) (timezone : option string) :
  dataByTimeURL counterId metrics dateFrom dateTo processedDimensions group
    topKeys timezone =
  renderURL "https://api-metrika.yandex.net/stat/v1/data/bytime"
    (dataByTimeParams counterId metrics dateFrom dateTo processedDimensions
       group topKeys timezone).
Proof.
  unfold dataByTimeURL, dataByTimeParams.
  set (path := "https://api-metrika.yandex.net/stat/v1/data/bytime").
  assert (Hfixed :
    API_BASE ++ "/" ++ API_REPORTS ++ "/bytime?ids=" ++ counterId
      ++ "&metrics=" ++ join "," metrics ++ "&group=" ++ group
      ++ "&top_keys=" ++ Number_toString topKeys =
    renderURL path
      [ ("ids", counterId); ("metrics", join "," metrics);
        ("group", group); ("top_keys", Number_toString topKeys) ]).
  { subst path. rendered. }
  rewrite Hfixed. clear Hfixed.
  rewrite (renderURL_appendParam path _ "&date1=" "date1" dateFrom)
    by (discriminate || reflexivity).
  rewrite (renderURL_appendParam path _ "&date2=" "date2" dateTo)
    by (discriminate || reflexivity).
  cbn [app].
  set (ps5 := (_ :: _)%list).
  assert (H5 : ps5 <> []) by (subst ps5; discriminate).
  assert (H6 :
    match processedDimensions with
    | Some dims =>
        if 0 <? Z.of_nat (List.length dims)
        then renderURL path ps5 ++ "&dimensions=" ++ join "," dims
        else renderURL path ps5
    | None => renderURL path ps5
    end = renderURL path (ps5 ++ dimensionsParam processedDimensions)).
  { destruct processedDimensions as [[|dim dims]|];
      cbn [dimensionsParam List.length Z.of_nat Z.ltb Z.compare];
      try (rewrite app_nil_r; reflexivity).
    apply renderURL_snoc; [exact H5 | reflexivity]. }
  rewrite H6. clear H6.
  assert (H6 : (ps5 ++ dimensionsParam processedDimensions)%list <> []).
  { subst ps5. discriminate. }
  unfold timezoneParam.
  destruct timezone as [tz|].
  - destruct (truthy tz).
    + rewrite (renderURL_snoc path _ "&timezone=" "timezone"
                 (encodeURIComponent tz) H6 eq_refl).
      subst ps5. cbn [app]. rewrite <- !app_assoc. reflexivity.
    + subst ps5. cbn [app]. rewrite !app_nil_r, <- ?app_assoc. reflexivity.
  - subst ps5. cbn [app]. rewrite !app_nil_r, <- ?app_assoc. reflexivity.
Qed.

Lemma dataByTimeParams_nonempty (counterId : string)
    (metrics : list string) (dateFrom dateTo : option string)
    (processedDimensions : option (list string)) (group : string)
    (topKeys : Z) (timezone : option string) :
  dataByTimeParams counterId metrics dateFrom dateTo processedDimensions
    group topKeys timezone <> [].
Proof. unfold dataByTimeParams. discriminate. Qed.

(** Arguments without [&] and [#] give parameters that read back. *)
Lemma dataByTimeParams_plain (counterId : string) (metrics : list string)
    (dateFrom dateTo : option string)
    (processedDimensions : option (list string)) (group : string)
    (topKeys : Z) (timezone : option string) :
  tidy counterId -> Forall tidy metrics -> tidyOpt dateFrom ->
  tidyOpt dateTo -> tidyOptList processedDimensions -> tidy group ->
  Forall plainParam
    (dataByTimeParams counterId metrics dateFrom dateTo processedDimensions
       group topKeys timezone).
Proof.
  intros Hid Hmetrics Hfrom Hto Hdims Hgroup.
  assert (Hopt : forall k value,
            noChar "=" k = true -> tidy k -> tidyOpt value ->
            Forall plainParam (optParam k value)).
  { intros k value Hk1 Hk2 Hvalue. unfold optParam.
    destruct value as [v|]; [|constructor].
    destruct (truthy v); [|constructor].
    constructor; [|constructor].
    split; [exact Hk1|]. split; [exact Hk2 | exact (Hvalue v eq_refl)]. }
  unfold dataByTimeParams.
  apply Forall_app; split;
    [|apply Forall_app; split;
       [|apply Forall_app; split; [|apply Forall_app; split]]].
  - repeat constructor; try reflexivity; cbn [snd].
    + exact (proj1 Hid).
    + exact (proj2 Hid).
    + exact (proj1 (join_tidy "," metrics (conj eq_refl eq_refl) Hmetrics)).
    + exact (proj2 (join_tidy "," metrics (conj eq_refl eq_refl) Hmetrics)).
    + exact (proj1 Hgroup).
    + exact (proj2 Hgroup).
    + exact (proj1 (Number_toString_tidy topKeys)).
    + exact (proj2 (Number_toString_tidy topKeys)).
  - apply Hopt; [reflexivity | split; reflexivity | exact Hfrom].
  - apply Hopt; [reflexivity | split; reflexivity | exact Hto].
  - unfold dimensionsParam.
    destruct processedDimensions as [[|dim dims]|]; try constructor;
      [|constructor].
    split; [reflexivity|]. split; [split; reflexivity|].
    exact (join_tidy "," (dim :: dims) (conj eq_refl eq_refl)
             (Hdims _ eq_refl)).
  - unfold timezoneParam. destruct timezone as [tz|]; [|constructor].
    destruct (truthy tz); [|constructor].
    constructor; [|constructor].
    split; [reflexivity|]. split; [split; reflexivity|].
    apply encodeURIComponent_tidy.
Qed.

(** C5. Every URL [getDataByTime] requests is written from the
    parameters [dataByTimeParams] lists: [ids], [metrics], [group] and
    [top_keys], then [date1], [date2], [dimensions] and [timezone] for
    the arguments that are supplied. None of them is [attribution]: the
    attribution enters the list through the rewritten dimensions and
    nowhere else. When these parameters hold no [&] and no [#], the URL
    reads back as exactly this list, so that it carries no [attribution]
    parameter. With arguments that pass the checks the request is
    sent. *)
Theorem getDataByTime_no_attribution_parameter :
  forall (c : Client) (counterId : string) (metrics : option (list string))
         (dateFrom dateTo : option string)
         (dimensions : option (list string)) (group : option string)
         (topKeys : option Z) (timezone attribution : option string)
         (net : Network),
    Number_isSafeInteger (defaultTo topKeys 7) = true ->
    Forall
      (fun url =>
         exists ms processed,
           metrics = Some ms
           /\ processDimensions dimensions attribution = inr processed
           /\ let params :=
                dataByTimeParams counterId ms dateFrom dateTo processed
                  (defaultTo group "day") (defaultTo topKeys 7) timezone in
              url =
              renderURL "https://api-metrika.yandex.net/stat/v1/data/bytime"
                params
              /\ ~ In "attribution" (map fst params)
              /\ incl (map fst params) dataByTimeKeys
              /\ (Forall plainParam params ->
                  queryParams url = params
                  /\ ~ In "attribution" (queryKeys url)))
      (requestedURLs
         (snd (run (getDataByTime c counterId metrics dateFrom dateTo
                      dimensions group topKeys timezone attribution) net)))
    /\ (counterId <> EmptyString ->
        (exists ms, metrics = Some ms /\ (1 <= List.length ms <= 20)%nat) ->
        (forall dims, dimensions = Some dims ->
                      (List.length dims <= 10)%nat) ->
        (forall a, attribution = Some a -> In a recognizedModels) ->
        SendsRequest
          (run (getDataByTime c counterId metrics dateFrom dateTo dimensions
                  group topKeys timezone attribution) net)).
Proof.
  intros c counterId metrics dateFrom dateTo dimensions group topKeys
         timezone attribution net Hsafe.
  split.
  - unfold getDataByTime.
    destruct (negb (truthy counterId)); [constructor|].
    destruct metrics as [ms|]; [|constructor].
    destruct (Z.of_nat (List.length ms) =? 0); [constructor|].
    destruct (20 <? Z.of_nat (List.length ms)); [constructor|].
    destruct (match dimensions with
              | Some dims => 10 <? Z.of_nat (List.length dims)
              | None => false
              end); [constructor|].
    destruct (processDimensions dimensions attribution) as [e | processed]
      eqn:Hprocess; [constructor|].
    refine (Forall_impl _ _ (makeRequest_urls c _ 1 net)).
    intros url <-.
    exists ms, processed. split; [reflexivity|]. split; [reflexivity|].
    cbv zeta.
    set (params := dataByTimeParams counterId ms dateFrom dateTo processed
                     (defaultTo group "day") (defaultTo topKeys 7) timezone).
    assert (Hkeys : incl (map fst params) dataByTimeKeys)
      by apply dataByTimeParams_keys.
    assert (Hnone : ~ In "attribution" (map fst params)).
    { intro Hin. exact (attribution_not_a_key (Hkeys _ Hin)). }
    rewrite dataByTimeURL_rendered. fold params.
    split; [reflexivity|]. split; [exact Hnone|]. split; [exact Hkeys|].
    intro Hplain.
    assert (Hread :
      queryParams
        (renderURL "https://api-metrika.yandex.net/stat/v1/data/bytime"
           params) = params).
    { apply Built_queryParams, Built_renderURL;
        [reflexivity | reflexivity | exact Hplain
        | apply dataByTimeParams_nonempty]. }
    split; [exact Hread|]. unfold queryKeys. rewrite Hread. exact Hnone.
  - intros Hid [ms [-> Hlen]] Hdims Hattr.
    apply getDataByTime_accepts; assumption.
Qed.

(** A call with the model [last] and one dimension: the attribution
    shows in the name of the dimension and nowhere else. *)
Lemma getDataByTime_no_attribution_parameter_witness :
  let url :=
    "https://api-metrika.yandex.net/stat/v1/data/bytime?ids=123&metrics=ym:s:visits&group=day&top_keys=7&date1=2024-01-01&dimensions=ym:s:lastUTMCampaign"
  in
  let params :=
    [ ("ids", "123"); ("metrics", "ym:s:visits"); ("group", "day");
      ("top_keys", "7"); ("date1", "2024-01-01");
      ("dimensions", "ym:s:lastUTMCampaign") ] in
  run (getDataByTime defaultClient "123" (Some ["ym:s:visits"])
         (Some "2024-01-01") None (Some ["ym:s:UTMCampaign"]) None None
         None (Some "last")) healthy =
    (inr (Json "{}"), [Fetch url "OAuth token"])
  /\ Forall
       (fun requested =>
          requested = url
          /\ queryParams requested = params
          /\ ~ In "attribution" (queryKeys requested))
       (requestedURLs
          (snd (run (getDataByTime defaultClient "123"
                       (Some ["ym:s:visits"]) (Some "2024-01-01") None
                       (Some ["ym:s:UTMCampaign"]) None None None
                       (Some "last")) healthy)))
  /\ SendsRequest
       (run (getDataByTime defaultClient "123" (Some ["ym:s:visits"])
               (Some "2024-01-01") None (Some ["ym:s:UTMCampaign"]) None
               None None (Some "last")) healthy).
Proof.
  intros url params.
  destruct (getDataByTime_no_attribution_parameter defaultClient "123"
              (Some ["ym:s:visits"]) (Some "2024-01-01") None
              (Some ["ym:s:UTMCampaign"]) None None None (Some "last")
              healthy eq_refl) as [Hurls Hsends].
  split; [reflexivity|]. split.
  - refine (Forall_impl _ _ Hurls).
    intros requested [ms [processed [Hms [Hprocess Hrest]]]].
    injection Hms as <-. injection Hprocess as <-.
    destruct Hrest as [Hurl [_ [_ Hread]]].
    split; [exact Hurl|]. apply Hread.
    repeat constructor.
  - apply Hsends.
    + discriminate.
    + exists ["ym:s:visits"]. split; [reflexivity | simpl; lia].
    + intros dims H. injection H as <-. simpl. lia.
    + intros a H. injection H as <-. simpl. auto.
Defined.

(** ** The filter expression in the URL *)

(** In a URL that continues [...&filters=value&...], with no [filters]
    among the parameters before and neither [&] nor [#] in the value,
    the first value of [filters] is that value, whatever follows. *)
Lemma filters_value (u : string) (ps : list (string * string))
    (value rest : string) :
  Built u ps ->
  filter (fun kv => (fst kv =? "filters")%string) ps = [] ->
  tidy value ->
  hd_error (queryValues "filters"
              ((u ++ "&filters=" ++ value) ++ String "&" rest)) = Some value.
Proof.
  intros Hu Hps Hvalue.
  destruct (Built_snoc u ps "&filters=" "filters" value Hu eq_refl eq_refl
              (conj eq_refl eq_refl) Hvalue) as [[q Hq] [Hparams Hwhole]].
  unfold queryValues, queryParams, withoutFragment.
  rewrite (beforeFirst_app "#" _ (String "&" rest) Hwhole).
  change (beforeFirst "#" (String "&" rest))
    with (String "&" (beforeFirst "#" rest)).
  rewrite (rawParams_app_amp _ q _ Hq), Hparams.
  rewrite !filter_app, Hps. reflexivity.
Qed.

Lemma getSearchEnginesData_filters (c : Client) (counterId : string)
    (excludeRobots newUsersOnly : option bool) (net : Network) :
  Forall
    (fun url =>
       hd_error (queryValues "filters" url) =
       Some (encodeURIComponent
               (searchEnginesFilters (defaultTo excludeRobots false)
                                     (defaultTo newUsersOnly false))))
    (requestedURLs
       (snd (run (getSearchEnginesData c counterId excludeRobots
                    newUsersOnly) net))).
Proof.
  unfold getSearchEnginesData. apply guarded_request_urls.
  set (value := encodeURIComponent _).
  set (u := API_BASE ++ "/" ++ API_REPORTS
            ++ "?dimensions=ym:s:searchEngine&metrics=ym:s:visits,ym:s:users").
  replace (API_BASE ++ "/" ++ API_REPORTS
           ++ "?dimensions=ym:s:searchEngine&metrics=ym:s:visits,ym:s:users&filters="
           ++ value ++ "&id=" ++ counterId)
    with ((u ++ "&filters=" ++ value) ++ String "&" ("id=" ++ counterId))
    by (rewrite !append_assoc; reflexivity).
  apply (filters_value u
           [("dimensions", "ym:s:searchEngine");
            ("metrics", "ym:s:visits,ym:s:users")]).
  - split; [eexists; reflexivity | split; reflexivity].
  - reflexivity.
  - apply encodeURIComponent_tidy.
Qed.

Lemma getRegionalData_filters (c : Client) (counterId : string)
    (cities : option (list string)) (net : Network) :
  Forall
    (fun url =>
       hd_error (queryValues "filters" url) =
       Some (encodeURIComponent
               (regionalFilters (defaultTo cities defaultCities))))
    (requestedURLs (snd (run (getRegionalData c counterId cities) net))).
Proof.
  unfold getRegionalData. apply guarded_request_urls.
  set (value := encodeURIComponent _).
  set (u := API_BASE ++ "/" ++ API_REPORTS
            ++ "?metrics=ym:s:visits,ym:s:users").
  replace (API_BASE ++ "/" ++ API_REPORTS
           ++ "?metrics=ym:s:visits,ym:s:users&filters="
           ++ value ++ "&id=" ++ counterId ++ "&lang=ru")
    with ((u ++ "&filters=" ++ value)
          ++ String "&" ("id=" ++ counterId ++ "&lang=ru"))
    by (rewrite !append_assoc; reflexivity).
  apply (filters_value u [("metrics", "ym:s:visits,ym:s:users")]).
  - split; [eexists; reflexivity | split; reflexivity].
  - reflexivity.
  - apply encodeURIComponent_tidy.
Qed.

Lemma getPageDepthAnalysis_filters (c : Client) (counterId : string)
    (minPages : option Z) (net : Network) :
  Forall
    (fun url =>
       hd_error (queryValues "filters" url) =
       Some (encodeURIComponent (pageDepthFilters (defaultTo minPages 5))))
    (requestedURLs
       (snd (run (getPageDepthAnalysis c counterId minPages) net))).
Proof.
  unfold getPageDepthAnalysis. apply guarded_request_urls.
  set (value := encodeURIComponent _).
  set (u := API_BASE ++ "/" ++ API_REPORTS ++ "?metrics=ym:s:visits").
  replace (API_BASE ++ "/" ++ API_REPORTS
           ++ "?metrics=ym:s:visits&filters="
           ++ value ++ "&id=" ++ counterId)
    with ((u ++ "&filters=" ++ value) ++ String "&" ("id=" ++ counterId))
    by (rewrite !append_assoc; reflexivity).
  apply (filters_value u [("metrics", "ym:s:visits")]).
  - split; [eexists; reflexivity | split; reflexivity].
  - reflexivity.
  - apply encodeURIComponent_tidy.
Qed.

(** C7 (as amended). [getSearchEnginesData], [getRegionalData] and
    [getPageDepthAnalysis], called with a counter identifier that is
    not empty, send a request; and in every URL they request the value
    of the [filters] parameter is the whole filter expression as
    [encodeURIComponent] returns it, which is in percent-encoded form.
    The page depth is a safe integer. *)
Theorem assembled_filters_percent_encoded :
  forall (c : Client) (counterId : string) (net : Network),
    (forall excludeRobots newUsersOnly : option bool,
       (counterId <> EmptyString ->
        SendsRequest
          (run (getSearchEnginesData c counterId excludeRobots newUsersOnly)
               net))
       /\ Forall
            (fun url =>
               hd_error (queryValues "filters" url) =
               Some (encodeURIComponent
                       (searchEnginesFilters (defaultTo excludeRobots false)
                                             (defaultTo newUsersOnly false))))
            (requestedURLs
               (snd (run (getSearchEnginesData c counterId excludeRobots
                            newUsersOnly) net))))
    /\ (forall cities : option (list string),
          (counterId <> EmptyString ->
           SendsRequest (run (getRegionalData c counterId cities) net))
          /\ Forall
               (fun url =>
                  hd_error (queryValues "filters" url) =
                  Some (encodeURIComponent
                          (regionalFilters (defaultTo cities defaultCities))))
               (requestedURLs
                  (snd (run (getRegionalData c counterId cities) net))))
    /\ (forall minPages : option Z,
          Number_isSafeInteger (defaultTo minPages 5) = true ->
          (counterId <> EmptyString ->
           SendsRequest (run (getPageDepthAnalysis c counterId minPages) net))
          /\ Forall
               (fun url =>
                  hd_error (queryValues "filters" url) =
                  Some (encodeURIComponent
                          (pageDepthFilters (defaultTo minPages 5))))
               (requestedURLs
                  (snd (run (getPageDepthAnalysis c counterId minPages)
                            net))))
    /\ (forall filters : string,
          percentEncoded (encodeURIComponent filters) = true).
Proof.
  intros c counterId net. split; [|split; [|split]].
  - intros excludeRobots newUsersOnly. split.
    + intro Hne. unfold getSearchEnginesData.
      apply guarded_request_sends. exact Hne.
    + apply getSearchEnginesData_filters.
  - intros cities. split.
    + intro Hne. unfold getRegionalData.
      apply guarded_request_sends. exact Hne.
    + apply getRegionalData_filters.
  - intros minPages _. split.
    + intro Hne. unfold getPageDepthAnalysis.
      apply guarded_request_sends. exact Hne.
    + apply getPageDepthAnalysis_filters.
  - exact encodeURIComponent_percentEncoded.
Qed.

(** The page depth left at its default. *)
Lemma assembled_filters_percent_encoded_witness :
  let url :=
    "https://api-metrika.yandex.net/stat/v1/data?metrics=ym:s:visits&filters=ym%3As%3ApageViews%3E5&id=123"
  in
  run (getPageDepthAnalysis defaultClient "123" None) healthy =
    (inr (Json "{}"), [Fetch url "OAuth token"])
  /\ SendsRequest (run (getPageDepthAnalysis defaultClient "123" None) healthy)
  /\ Forall
       (fun requested =>
          hd_error (queryValues "filters" requested) =
          Some "ym%3As%3ApageViews%3E5")
       (requestedURLs
          (snd (run (getPageDepthAnalysis defaultClient "123" None)
                    healthy)))
  /\ percentEncoded "ym%3As%3ApageViews%3E5" = true.
Proof.
  intro url.
  destruct (assembled_filters_percent_encoded defaultClient "123" healthy)
    as [_ [_ [Hdepth Hencoded]]].
  destruct (Hdepth None eq_refl) as [Hsends Hurls].
  split; [reflexivity|]. split; [apply Hsends; discriminate|].
  split; [exact Hurls|]. exact (Hencoded "ym:s:pageViews>5").
Defined.

(** A [#] in the counter identifier ends the query there: what follows
    is not sent, and the filter expression, which precedes it, is. *)
Example getPageDepthAnalysis_fragment :
  let url :=
    "https://api-metrika.yandex.net/stat/v1/data?metrics=ym:s:visits&filters=ym%3As%3ApageViews%3E5&id=1#x&filters=y"
  in
  run (getPageDepthAnalysis defaultClient "1#x&filters=y" None) healthy =
    (inr (Json "{}"), [Fetch url "OAuth token"])
  /\ queryParams url =
     [ ("metrics", "ym:s:visits"); ("filters", "ym%3As%3ApageViews%3E5");
       ("id", "1") ].
Proof. split; reflexivity. Qed.

(** X10. Each of the twelve reports that take a date range requests a
    URL whose parameters are the fixed ones of the report, then [date1]
    when [dateFrom] is supplied and not empty, then [date2] when
    [dateTo] is; a date that is absent or empty leaves no parameter
    behind. This holds when the counter identifier and the dates hold
    neither [&] nor [#]; with a counter identifier that is not empty the
    request is sent. *)
Theorem date_range_reports_parameters :
  forall (report : DateRangeReport) (c : Client) (counterId : string)
         (dateFrom dateTo : option string) (net : Network),
    tidy counterId ->
    tidyOpt dateFrom ->
    tidyOpt dateTo ->
    Forall
      (fun url =>
         queryParams url =
         (dateRangeParams report counterId
          ++ optParam "date1" dateFrom ++ optParam "date2" dateTo)%list)
      (requestedURLs
         (snd (run (dateRangeReport report c counterId dateFrom dateTo)
                   net)))
    /\ (counterId <> EmptyString ->
        SendsRequest
          (run (dateRangeReport report c counterId dateFrom dateTo) net)).
Proof.
  intros report c counterId dateFrom dateTo net [Hid Hwhole] Hfrom Hto.
  split.
  - destruct report; cbn [dateRangeReport dateRangeParams];
      apply guarded_request_urls;
      apply (dated_url_params (API_BASE ++ "/" ++ API_REPORTS));
      solve [rendered | reflexivity | plain_params | discriminate
            | assumption].
  - intro Hne. destruct report; cbn [dateRangeReport];
      apply guarded_request_sends; exact Hne.
Qed.

(** The device report with a start date and an empty end date. *)
Lemma date_range_reports_parameters_witness :
  Forall
    (fun url =>
       queryParams url =
       [ ("dimensions", "ym:s:browser,ym:s:operatingSystem");
         ("metrics",
          "ym:s:visits,ym:s:pageviews,ym:s:bounceRate,ym:s:avgVisitDurationSeconds");
         ("id", "123"); ("date1", "2024-01-01") ])
    (requestedURLs
       (snd (run (getDeviceAnalysis defaultClient "123" (Some "2024-01-01")
                    (Some EmptyString)) healthy)))
  /\ SendsRequest
       (run (getDeviceAnalysis defaultClient "123" (Some "2024-01-01")
               (Some EmptyString)) healthy).
Proof.
  assert (H := date_range_reports_parameters Devices defaultClient "123"
                 (Some "2024-01-01") (Some EmptyString) healthy).
  split.
  - apply H.
    + split; reflexivity.
    + intros s Hs. injection Hs as <-. split; reflexivity.
    + intros s Hs. injection Hs as <-. split; reflexivity.
  - apply H.
    + split; reflexivity.
    + intros s Hs. injection Hs as <-. split; reflexivity.
    + intros s Hs. injection Hs as <-. split; reflexivity.
    + discriminate.
Defined.

(** X11. The four reports that take only a counter identifier request
    a URL whose parameters are exactly those of the table
    [counterReportParams], the counter identifier being the value of
    [id], provided it holds neither [&] nor [#]; when it is not empty
    the request is sent. *)
Theorem counter_reports_parameters :
  forall (report : CounterReport) (c : Client) (counterId : string)
         (net : Network),
    tidy counterId ->
    Forall (fun url => queryParams url = counterReportParams report counterId)
      (requestedURLs (snd (run (counterReport report c counterId) net)))
    /\ (counterId <> EmptyString ->
        SendsRequest (run (counterReport report c counterId) net)).
Proof.
  intros report c counterId net [Hid Hwhole]. split.
  - destruct report; cbn [counterReport counterReportParams];
      apply guarded_request_urls;
      apply (fixed_url_params (API_BASE ++ "/" ++ API_REPORTS));
      solve [rendered | reflexivity | plain_params | discriminate].
  - intro Hne. destruct report; cbn [counterReport];
      apply guarded_request_sends; exact Hne.
Qed.

Lemma counter_reports_parameters_witness :
  Forall
    (fun url =>
       queryParams url =
       [ ("preset", "tech_platforms"); ("dimensions", "ym:s:browser");
         ("id", "123") ])
    (requestedURLs (snd (run (getBrowsersReport defaultClient "123") healthy)))
  /\ SendsRequest (run (getBrowsersReport defaultClient "123") healthy).
Proof.
  destruct (counter_reports_parameters Browsers defaultClient "123" healthy)
    as [Hurls Hsends]; [split; reflexivity|].
  split; [exact Hurls | apply Hsends; discriminate].
Defined.

Lemma goalsMetrics_tidy (goalIds : list Z) : tidy (goalsMetrics goalIds).
Proof.
  unfold goalsMetrics. apply join_tidy; [split; reflexivity|].
  apply Forall_forall. intros m Hm. apply in_map_iff in Hm.
  destruct Hm as [id [<- _]].
  apply (tidy_app "ym:s:goal"); [split; reflexivity|].
  apply tidy_app; [apply Number_toString_tidy | split; reflexivity].
Qed.

(** X12. [getGoalsConversion] asks for the metric [ym:s:users] followed
    by one conversion-rate metric per goal, in the order of the goals,
    all in the one [metrics] parameter; with no goal at all the value is
    [ym:s:users,], with its comma. The counter identifier, without [&]
    and [#], is the value of [id]; the goal identifiers are safe
    integers. When the counter identifier is not empty the request is
    sent. *)
Theorem goals_conversion_parameters :
  forall (c : Client) (counterId : string) (goalIds : list Z)
         (net : Network),
    tidy counterId ->
    Forall (fun id => Number_isSafeInteger id = true) goalIds ->
    Forall
      (fun url =>
         queryParams url =
         [ ("metrics",
            "ym:s:users,"
            ++ join ","
                 (map (fun id => "ym:s:goal" ++ Number_toString id
                                 ++ "conversionRate") goalIds));
           ("id", counterId) ])
      (requestedURLs
         (snd (run (getGoalsConversion c counterId goalIds) net)))
    /\ (goalIds = [] ->
        Forall
          (fun url =>
             queryParams url = [("metrics", "ym:s:users,"); ("id", counterId)])
          (requestedURLs
             (snd (run (getGoalsConversion c counterId goalIds) net))))
    /\ (counterId <> EmptyString ->
        SendsRequest (run (getGoalsConversion c counterId goalIds) net)).
Proof.
  intros c counterId goalIds net [Hid Hwhole] _.
  assert (Hurls :
    Forall
      (fun url =>
         queryParams url =
         [("metrics", "ym:s:users," ++ goalsMetrics goalIds);
          ("id", counterId)])
      (requestedURLs
         (snd (run (getGoalsConversion c counterId goalIds) net)))).
  { unfold getGoalsConversion. apply guarded_request_urls.
    apply (fixed_url_params (API_BASE ++ "/" ++ API_REPORTS)).
    - rendered.
    - reflexivity.
    - reflexivity.
    - destruct (tidy_app "ym:s:users," (goalsMetrics goalIds)
                  (conj eq_refl eq_refl) (goalsMetrics_tidy goalIds))
        as [Hv1 Hv2].
      plain_params.
    - discriminate. }
  split; [exact Hurls|]. split.
  - intros ->. exact Hurls.
  - intro Hne. unfold getGoalsConversion.
    apply guarded_request_sends. exact Hne.
Qed.

(** Two goals. *)
Lemma goals_conversion_parameters_witness :
  run (getGoalsConversion defaultClient "123" [1; 2]) healthy =
    (inr (Json "{}"),
     [Fetch
        "https://api-metrika.yandex.net/stat/v1/data?metrics=ym:s:users,ym:s:goal1conversionRate,ym:s:goal2conversionRate&id=123"
        "OAuth token"])
  /\ Forall
       (fun url =>
          queryParams url =
          [ ("metrics",
             "ym:s:users,ym:s:goal1conversionRate,ym:s:goal2conversionRate");
            ("id", "123") ])
       (requestedURLs
          (snd (run (getGoalsConversion defaultClient "123" [1; 2])
                    healthy))).
Proof.
  split; [reflexivity|].
  refine (proj1 (goals_conversion_parameters defaultClient "123" [1; 2]
                   healthy _ _)).
  - split; reflexivity.
  - repeat constructor.
Defined.

(** X13. The three reports that put an argument inside a metric or
    dimension name, called with a counter identifier that is not empty,
    send a request. In the URL [getYandexDirectExperiment] asks for the
    dimension [ym:s:experimentAB<experimentId>];
    [getEcommercePerformance] asks for the revenue metric of the
    currency, [RUB] when none is given;
    [getConversionRateBySourceAndLanding] asks for the conversion rate
    of the goal; the last two append the dates that are supplied. This
    holds when the counter identifier, the currency and the dates hold
    neither [&] nor [#], the experiment and the goal being safe
    integers. *)
Theorem parametrised_reports_parameters :
  forall (c : Client) (counterId : string) (net : Network),
    tidy counterId ->
    (forall experimentId : Z,
       Number_isSafeInteger experimentId = true ->
       (counterId <> EmptyString ->
        SendsRequest
          (run (getYandexDirectExperiment c counterId experimentId) net))
       /\ Forall
            (fun url =>
               queryParams url =
               [ ("metrics", "ym:s:bounceRate");
                 ("dimensions",
                  "ym:s:experimentAB" ++ Number_toString experimentId);
                 ("id", counterId) ])
            (requestedURLs
               (snd (run (getYandexDirectExperiment c counterId experimentId)
                         net))))
    /\ (forall currency dateFrom dateTo : option string,
          tidyOpt currency -> tidyOpt dateFrom -> tidyOpt dateTo ->
          (counterId <> EmptyString ->
           SendsRequest
             (run (getEcommercePerformance c counterId currency dateFrom
                     dateTo) net))
          /\ Forall
               (fun url =>
                  queryParams url =
                  ([ ("dimensions",
                      "ym:s:productCategory,ym:s:regionCountry,ym:s:regionCity");
                     ("metrics",
                      ("ym:s:ecommercePurchases,ym:s:ecommerce"
                       ++ defaultTo currency "RUB"
                       ++ "ConvertedRevenue")%string);
                     ("id", counterId) ]
                   ++ optParam "date1" dateFrom
                   ++ optParam "date2" dateTo)%list)
               (requestedURLs
                  (snd (run (getEcommercePerformance c counterId currency
                               dateFrom dateTo) net))))
    /\ (forall (goalId : Z) (dateFrom dateTo : option string),
          Number_isSafeInteger goalId = true ->
          tidyOpt dateFrom -> tidyOpt dateTo ->
          (counterId <> EmptyString ->
           SendsRequest
             (run (getConversionRateBySourceAndLanding c counterId goalId
                     dateFrom dateTo) net))
          /\ Forall
               (fun url =>
                  queryParams url =
                  ([ ("dimensions", "ym:s:trafficSource,ym:s:landingPage");
                     ("metrics",
                      ("ym:s:visits,ym:s:goal" ++ Number_toString goalId
                       ++ "conversionRate")%string);
                     ("id", counterId) ]
                   ++ optParam "date1" dateFrom
                   ++ optParam "date2" dateTo)%list)
               (requestedURLs
                  (snd (run (getConversionRateBySourceAndLanding c counterId
                               goalId dateFrom dateTo) net)))).
Proof.
  intros c counterId net [Hid Hwhole]. split; [|split].
  - intros experimentId _. split.
    + intro Hne. unfold getYandexDirectExperiment.
      apply guarded_request_sends. exact Hne.
    + unfold getYandexDirectExperiment.
      apply guarded_request_urls.
      apply (fixed_url_params (API_BASE ++ "/" ++ API_REPORTS)).
      * rendered.
      * reflexivity.
      * reflexivity.
      * destruct (tidy_app "ym:s:experimentAB" (Number_toString experimentId)
                    (conj eq_refl eq_refl)
                    (Number_toString_tidy experimentId)) as [Hv1 Hv2].
        plain_params.
      * discriminate.
  - intros currency dateFrom dateTo Hcur Hfrom Hto. split.
    + intro Hne. unfold getEcommercePerformance.
      apply guarded_request_sends. exact Hne.
    + unfold getEcommercePerformance. apply guarded_request_urls.
      apply (dated_url_params (API_BASE ++ "/" ++ API_REPORTS));
        try assumption.
      * rendered.
      * reflexivity.
      * reflexivity.
      * assert (Hv : tidy ("ym:s:ecommercePurchases,ym:s:ecommerce"
                           ++ defaultTo currency "RUB" ++ "ConvertedRevenue")).
        { apply tidy_app; [split; reflexivity|].
          apply tidy_app; [|split; reflexivity].
          destruct currency as [cur|];
            [exact (Hcur cur eq_refl) | split; reflexivity]. }
        destruct Hv as [Hv1 Hv2].
        plain_params.
      * discriminate.
  - intros goalId dateFrom dateTo _ Hfrom Hto. split.
    + intro Hne. unfold getConversionRateBySourceAndLanding.
      apply guarded_request_sends. exact Hne.
    + unfold getConversionRateBySourceAndLanding.
      apply guarded_request_urls.
      apply (dated_url_params (API_BASE ++ "/" ++ API_REPORTS));
        try assumption.
      * rendered.
      * reflexivity.
      * reflexivity.
      * assert (Hv : tidy ("ym:s:visits,ym:s:goal" ++ Number_toString goalId
                           ++ "conversionRate")).
        { apply tidy_app; [split; reflexivity|].
          apply tidy_app;
            [apply Number_toString_tidy | split; reflexivity]. }
        destruct Hv as [Hv1 Hv2].
        plain_params.
      * discriminate.
Qed.

(** The revenue report in the default currency, with an end date. *)
Lemma parametrised_reports_parameters_witness :
  SendsRequest
    (run (getEcommercePerformance defaultClient "123" None None
            (Some "2024-01-31")) healthy)
  /\ Forall
       (fun url =>
          queryParams url =
          [ ("dimensions",
             "ym:s:productCategory,ym:s:regionCountry,ym:s:regionCity");
            ("metrics",
             "ym:s:ecommercePurchases,ym:s:ecommerceRUBConvertedRevenue");
            ("id", "123"); ("date2", "2024-01-31") ])
       (requestedURLs
          (snd (run (getEcommercePerformance defaultClient "123" None None
                       (Some "2024-01-31")) healthy))).
Proof.
  destruct (proj1 (proj2 (parametrised_reports_parameters defaultClient
                            "123" healthy (conj eq_refl eq_refl)))
              None None (Some "2024-01-31")) as [Hsends Hurls].
  - intros s Hs. discriminate Hs.
  - intros s Hs. discriminate Hs.
  - intros s Hs. injection Hs as <-. split; reflexivity.
  - split; [apply Hsends; discriminate | exact Hurls].
Defined.

(** ** All the operations *)

(** X14. Every operation of the client refuses an empty counter
    identifier: the call is rejected with the same error and nothing is
    requested, whatever the other arguments are. *)
Theorem every_operation_requires_counter_id :
  forall (Date_getTime : string -> option Z) (c : Client) (call : Call)
         (net : Network),
    counterIdOf call = EmptyString ->
    run (perform Date_getTime c call) net =
    (inl (new_Error "Counter ID must be a non-empty string"), []).
Proof.
  intros D c call net H.
  destruct call; cbn [counterIdOf] in H; subst; reflexivity.
Qed.

Lemma every_operation_requires_counter_id_witness :
  run (getDataByTime defaultClient EmptyString (Some ["ym:s:visits"]) None
         None None None None None (Some "bogus")) healthy =
  (inl (new_Error "Counter ID must be a non-empty string"), []).
Proof.
  exact (every_operation_requires_counter_id (fun _ => None) defaultClient
           (DataByTime EmptyString (Some ["ym:s:visits"]) None None None
              None None None (Some "bogus"))
           healthy eq_refl).
Defined.

Lemma appendParam_app (a b key : string) (value : option string) :
  appendParam (a ++ b) key value = a ++ appendParam b key value.
Proof.
  unfold appendParam. destruct value as [v|]; [|reflexivity].
  destruct (truthy v); [|reflexivity]. apply append_assoc.
Qed.

Lemma guarded_ThrowsOrRequests (c : Client) (counterId rest : string) :
  ThrowsOrRequests c
    (if negb (truthy counterId) then throw counterIdError
     else makeRequest c (API_BASE ++ "/" ++ rest) 1).
Proof.
  destruct (negb (truthy counterId)); [left | right]; eauto.
Qed.

Lemma dated_ThrowsOrRequests (c : Client) (counterId rest : string)
    (dateFrom dateTo : option string) :
  ThrowsOrRequests c
    (if negb (truthy counterId) then throw counterIdError
     else makeRequest c
            (appendParam
               (appendParam (API_BASE ++ "/" ++ rest) "&date1=" dateFrom)
               "&date2=" dateTo) 1).
Proof.
  rewrite !appendParam_app. apply guarded_ThrowsOrRequests.
Qed.

Lemma dataByTimeURL_under_API (counterId : string) (metrics : list string)
    (dateFrom dateTo : option string)
    (processedDimensions : option (list string)) (group : string)
    (topKeys : Z) (timezone : option string) :
  exists rest,
    dataByTimeURL counterId metrics dateFrom dateTo processedDimensions
      group topKeys timezone = API_BASE ++ "/" ++ rest.
Proof.
  unfold dataByTimeURL. rewrite !appendParam_app.
  destruct processedDimensions as [dims|];
    [destruct (0 <? Z.of_nat (List.length dims))|];
    (destruct timezone as [tz|]; [destruct (truthy tz)|]);
    rewrite ?append_assoc; eauto.
Qed.

Lemma perform_ThrowsOrRequests (Date_getTime : string -> option Z)
    (c : Client) (call : Call) :
  ThrowsOrRequests c (perform Date_getTime c call).
Proof.
  destruct call; cbn [perform];
    try (apply guarded_ThrowsOrRequests);
    try (apply dated_ThrowsOrRequests).
  - (* getVisits *)
    unfold getVisits. destruct (negb (truthy counterId)); [left; eauto|].
    destruct (suppliedInvalid Date_getTime dateFrom); [left; eauto|].
    destruct (suppliedInvalid Date_getTime dateTo); [left; eauto|].
    right. eauto.
  - (* getDataByTime *)
    unfold getDataByTime.
    destruct (negb (truthy counterId)); [left; eauto|].
    destruct metrics as [ms|]; [|left; eauto].
    destruct (Z.of_nat (List.length ms) =? 0); [left; eauto|].
    destruct (20 <? Z.of_nat (List.length ms)); [left; eauto|].
    destruct (match dimensions with
              | Some dims => 10 <? Z.of_nat (List.length dims)
              | None => false
              end); [left; eauto|].
    destruct (processDimensions dimensions attribution) as [e | processed];
      [left; eauto|].
    destruct (dataByTimeURL_under_API counterId ms dateFrom dateTo processed
                (defaultTo group "day") (defaultTo topKeys 7) timezone)
      as [rest ->].
    right. eauto.
Qed.

(** X15. Whatever the arguments and whatever the network does, an
    operation of the client either requests nothing, when its arguments
    fail a check, or sends between one and [retries] requests (one when
    [retries] is below 1), all of them for one URL below
    [https://api-metrika.yandex.net/] and with the header
    [Authorization: OAuth <token>], waiting [retryDelay] times the
    attempt number between two requests. *)
Theorem every_operation_requests_one_api_url :
  forall (Date_getTime : string -> option Z) (c : Client) (call : Call)
         (net : Network),
  exists (rest : string) (k : nat),
    Z.of_nat k <= Z.max 1 (r_retries (config c))
    /\ snd (run (perform Date_getTime c call) net) =
       backoffTrace ("https://api-metrika.yandex.net/" ++ rest)
         ("OAuth " ++ token c) (r_retryDelay (config c)) 1 k.
Proof.
  intros D c call net.
  destruct (perform_ThrowsOrRequests D c call) as [[e ->] | [rest ->]].
  - exists EmptyString, 0%nat. split; [lia | reflexivity].
  - destruct (makeRequest_run_course c (API_BASE ++ "/" ++ rest) net)
      as [k [Hev [Hbefore _]]].
    exists rest, (S k). split; [|exact Hev].
    destruct k as [|k]; [lia|].
    pose proof (retried_below_retries c _ _
                  (Hbefore k (Nat.lt_succ_diag_r k))).
    lia.
Qed.

(** * Further properties of the attribution rewriter *)

Lemma stripPrefix_prefix (p s rest : string) :
  stripPrefix p s = Some rest -> String.prefix p s = true.
Proof.
  revert s. induction p as [|a p IH]; intros s H.
  - destruct s; reflexivity.
  - destruct s as [|b s]; simpl in H; [discriminate|].
    destruct (Ascii.eqb a b) eqn:Hab; [|discriminate].
    apply Ascii.eqb_eq in Hab. subst b. simpl.
    destruct (ascii_dec a a); [eauto | congruence].
Qed.

Lemma matchAlternatives_none (alts : list string) (s : string) :
  (forall p, In p alts -> String.prefix p s = false) ->
  matchAlternatives alts s = None.
Proof.
  induction alts as [|a alts IH]; intro H; [reflexivity|].
  cbn [matchAlternatives].
  destruct (stripPrefix a s) as [rest|] eqn:Hrest.
  - apply stripPrefix_prefix in Hrest.
    rewrite (H a (or_introl eq_refl)) in Hrest. discriminate.
  - apply IH. intros p Hp. apply H. right. exact Hp.
Qed.

Lemma matchAlternatives_rest (alts : list string) (s p rest : string) :
  matchAlternatives alts s = Some (p, rest) -> dotPlusEnd rest = true.
Proof.
  induction alts as [|a alts IH]; simpl; [discriminate|].
  destruct (stripPrefix a s) as [r|]; [|exact IH].
  destruct (dotPlusEnd r) eqn:Hr; [|exact IH].
  intro H. injection H as _ <-. exact Hr.
Qed.

(** The pattern applied to a name that begins with an unshadowed
    alternative: that alternative is the one that matches. *)
Lemma dimensionPattern_unshadowed (p rest : string) :
  In p unshadowedPrefixes ->
  dotPlusEnd rest = true ->
  dimensionPattern_match ("ym:s:" ++ p ++ rest) = Some (p, rest).
Proof.
  intros Hp Hrest. unfold unshadowedPrefixes in Hp. simpl in Hp.
  repeat (destruct Hp as [<- | Hp];
          [unfold dimensionPattern_match; simpl; rewrite Hrest; reflexivity|]).
  contradiction.
Qed.

Lemma dotPlusEnd_spec (s : string) :
  s <> EmptyString -> hasLineTerminator s = false -> dotPlusEnd s = true.
Proof.
  intros Hne Hlt. unfold dotPlusEnd. rewrite Hlt.
  destruct s; [congruence | reflexivity].
Qed.

(** X16. In a dimension whose name begins with [automatic], [last],
    [first], [cross_device_first], [crossDeviceFirst], [cross_device_last]
    or [crossDeviceLast], followed by at least one character and holding
    no line terminator, that prefix is removed whole and the prefix of
    the requested model takes its place. *)
Theorem unshadowed_prefix_replaced :
  forall (p rest a : string),
    In p unshadowedPrefixes ->
    In a recognizedModels ->
    rest <> EmptyString ->
    hasLineTerminator rest = false ->
    buildDimensionNameWithAttribution ("ym:s:" ++ p ++ rest) (Some a) =
    inr ("ym:s:" ++ a ++ rest).
Proof.
  intros p rest a Hp Ha Hne Hlt.
  rewrite (build_recognized _ a Ha).
  rewrite (dimensionPattern_unshadowed p rest Hp
             (dotPlusEnd_spec rest Hne Hlt)).
  reflexivity.
Qed.

Lemma unshadowed_prefix_replaced_witness :
  buildDimensionNameWithAttribution "ym:s:crossDeviceFirstUTMSource"
    (Some "lastsign") = inr "ym:s:lastsignUTMSource".
Proof.
  apply (unshadowed_prefix_replaced "crossDeviceFirst" "UTMSource" "lastsign").
  - simpl. auto 10.
  - simpl. auto 10.
  - discriminate.
  - reflexivity.
Defined.

(** X17. In a dimension [ym:s:<name>] whose name is not empty, holds no
    line terminator and begins with none of the fourteen prefixes of the
    pattern, the prefix of the requested model is put directly before
    the name and nothing is removed. *)
Theorem unprefixed_name_gets_prefix :
  forall (name a : string),
    In a recognizedModels ->
    name <> EmptyString ->
    hasLineTerminator name = false ->
    (forall p, In p patternPrefixes -> String.prefix p name = false) ->
    buildDimensionNameWithAttribution ("ym:s:" ++ name) (Some a) =
    inr ("ym:s:" ++ a ++ name).
Proof.
  intros name a Ha Hne Hlt Hnone.
  rewrite (build_recognized _ a Ha).
  unfold dimensionPattern_match, basePattern_match.
  change (stripPrefix "ym:s:" ("ym:s:" ++ name)) with (Some name).
  cbv beta iota.
  rewrite (matchAlternatives_none patternPrefixes name Hnone).
  rewrite (dotPlusEnd_spec name Hne Hlt). reflexivity.
Qed.

Lemma unprefixed_name_gets_prefix_witness :
  buildDimensionNameWithAttribution "ym:s:UTMSource"
    (Some "cross_device_last_significant") =
  inr "ym:s:cross_device_last_significantUTMSource".
Proof.
  apply (unprefixed_name_gets_prefix "UTMSource"
           "cross_device_last_significant").
  - simpl. auto 10.
  - discriminate.
  - reflexivity.
  - intros p Hp. simpl in Hp.
    repeat (destruct Hp as [<- | Hp]; [reflexivity|]). contradiction.
Defined.

(** X18. For the models [automatic], [last], [first],
    [cross_device_first] and [cross_device_last], rewriting a dimension
    that has already been rewritten for the same model changes nothing:
    the prefix is not added a second time. *)
Theorem rewriting_twice_changes_nothing :
  forall (dimension a rewritten : string),
    In a unshadowedModels ->
    buildDimensionNameWithAttribution dimension (Some a) = inr rewritten ->
    buildDimensionNameWithAttribution rewritten (Some a) = inr rewritten.
Proof.
  intros dimension a rewritten Ha Hfirst.
  assert (Hmodel : In a recognizedModels).
  { simpl in Ha. simpl.
    repeat (destruct Ha as [<- | Ha]; [auto 10|]). contradiction. }
  assert (Hprefix : In a unshadowedPrefixes).
  { simpl in Ha. simpl.
    repeat (destruct Ha as [<- | Ha]; [auto 10|]). contradiction. }
  assert (Hagain : forall rest, dotPlusEnd rest = true ->
            buildDimensionNameWithAttribution ("ym:s:" ++ a ++ rest) (Some a)
            = inr ("ym:s:" ++ a ++ rest)).
  { intros rest Hrest. rewrite (build_recognized _ a Hmodel).
    rewrite (dimensionPattern_unshadowed a rest Hprefix Hrest).
    reflexivity. }
  pose proof Hfirst as Hsame.
  rewrite (build_recognized dimension a Hmodel) in Hfirst.
  destruct (dimensionPattern_match dimension) as [[p rest]|] eqn:Hmatch.
  - injection Hfirst as <-. apply Hagain.
    unfold dimensionPattern_match in Hmatch.
    destruct (stripPrefix "ym:s:" dimension); [|discriminate].
    exact (matchAlternatives_rest _ _ _ _ Hmatch).
  - destruct (basePattern_match dimension) as [base|] eqn:Hbase.
    + injection Hfirst as <-. apply Hagain.
      unfold basePattern_match in Hbase.
      destruct (stripPrefix "ym:s:" dimension) as [s|]; [|discriminate].
      destruct (dotPlusEnd s) eqn:Hs; [|discriminate].
      injection Hbase as <-. exact Hs.
    + injection Hfirst as <-. exact Hsame.
Qed.

Lemma rewriting_twice_changes_nothing_witness :
  buildDimensionNameWithAttribution "ym:s:lastUTMCampaign" (Some "last")
  = inr "ym:s:lastUTMCampaign".
Proof.
  apply (rewriting_twice_changes_nothing "ym:s:UTMCampaign" "last"
           "ym:s:lastUTMCampaign").
  - simpl. auto 10.
  - reflexivity.
Defined.

(** For the other four models the second rewriting repeats the part of
    the prefix that the pattern does not strip. *)
Example rewriting_twice_lastsign :
  buildDimensionNameWithAttribution "ym:s:UTMCampaign" (Some "lastsign")
    = inr "ym:s:lastsignUTMCampaign"
  /\ buildDimensionNameWithAttribution "ym:s:lastsignUTMCampaign"
       (Some "lastsign")
     = inr "ym:s:lastsignsignUTMCampaign".
Proof. split; reflexivity. Qed.

(** * Percent-encoding read back *)

Lemma percentDecode_unreserved (c : ascii) (s : string) :
  isUnreserved c = true ->
  percentDecode (String c s) =
  match percentDecode s with
  | Some t => Some (String c t)
  | None => None
  end.
Proof.
  destruct c as [[] [] [] [] [] [] [] []]; intro H;
    solve [discriminate H | reflexivity].
Qed.

Lemma percentDecode_escape (c : ascii) (s : string) :
  percentDecode
    (String "%" (String (hexDigit (nat_of_ascii c / 16))
                   (String (hexDigit (nat_of_ascii c mod 16)) s))) =
  match percentDecode s with
  | Some t => Some (String c t)
  | None => None
  end.
Proof.
  destruct c as [[] [] [] [] [] [] [] []];
    cbn; destruct (percentDecode s); reflexivity.
Qed.

(** Decoding what [encodeURIComponent] returns gives the string back. *)
Lemma percentDecode_encodeURIComponent (s : string) :
  percentDecode (encodeURIComponent s) = Some s.
Proof.
  induction s as [|c s IH]; [reflexivity|]. cbn [encodeURIComponent].
  destruct (isUnreserved c) eqn:Hc.
  - rewrite (percentDecode_unreserved c _ Hc), IH. reflexivity.
  - rewrite percentDecode_escape, IH. reflexivity.
Qed.

Lemma encoded_filters_decoded (url filters : string) :
  hd_error (queryValues "filters" url) = Some (encodeURIComponent filters) ->
  decodedFilters url = Some filters.
Proof.
  intro H. unfold decodedFilters. rewrite H.
  apply percentDecode_encodeURIComponent.
Qed.

(** X19. The filter expression survives the encoding:
    [getSearchEnginesData], [getRegionalData] and
    [getPageDepthAnalysis], called with a counter identifier that is
    not empty, send a request, and in every URL they request
    percent-decoding the value of [filters] gives back the expression
    the method assembled, character for character, whatever the city
    names or the counter identifier hold, the page depth being a safe
    integer; and no two strings have the same encoding. *)
Theorem filter_expression_survives_encoding :
  forall (c : Client) (counterId : string) (net : Network),
    (forall excludeRobots newUsersOnly : option bool,
       (counterId <> EmptyString ->
        SendsRequest
          (run (getSearchEnginesData c counterId excludeRobots newUsersOnly)
               net))
       /\ Forall
            (fun url =>
               decodedFilters url =
               Some (searchEnginesFilters (defaultTo excludeRobots false)
                                          (defaultTo newUsersOnly false)))
            (requestedURLs
               (snd (run (getSearchEnginesData c counterId excludeRobots
                            newUsersOnly) net))))
    /\ (forall cities : option (list string),
          (counterId <> EmptyString ->
           SendsRequest (run (getRegionalData c counterId cities) net))
          /\ Forall
               (fun url =>
                  decodedFilters url =
                  Some ("ym:s:regionCityName=.("
                        ++ join ","
                             (map (fun city => "'" ++ city ++ "'")
                                  (defaultTo cities defaultCities))
                        ++ ")"))
               (requestedURLs
                  (snd (run (getRegionalData c counterId cities) net))))
    /\ (forall minPages : option Z,
          Number_isSafeInteger (defaultTo minPages 5) = true ->
          (counterId <> EmptyString ->
           SendsRequest (run (getPageDepthAnalysis c counterId minPages) net))
          /\ Forall
               (fun url =>
                  decodedFilters url =
                  Some ("ym:s:pageViews>"
                        ++ Number_toString (defaultTo minPages 5)))
               (requestedURLs
                  (snd (run (getPageDepthAnalysis c counterId minPages)
                            net))))
    /\ (forall s1 s2 : string,
          encodeURIComponent s1 = encodeURIComponent s2 -> s1 = s2).
Proof.
  intros c counterId net. split; [|split; [|split]].
  - intros excludeRobots newUsersOnly. split.
    + intro Hne. unfold getSearchEnginesData.
      apply guarded_request_sends. exact Hne.
    + refine (Forall_impl _ _ (getSearchEnginesData_filters c counterId
                                 excludeRobots newUsersOnly net)).
      intros url. apply encoded_filters_decoded.
  - intros cities. split.
    + intro Hne. unfold getRegionalData.
      apply guarded_request_sends. exact Hne.
    + refine (Forall_impl _ _ (getRegionalData_filters c counterId cities
                                 net)).
      intros url. apply encoded_filters_decoded.
  - intros minPages _. split.
    + intro Hne. unfold getPageDepthAnalysis.
      apply guarded_request_sends. exact Hne.
    + refine (Forall_impl _ _ (getPageDepthAnalysis_filters c counterId
                                 minPages net)).
      intros url. apply encoded_filters_decoded.
  - intros s1 s2 H.
    pose proof (percentDecode_encodeURIComponent s1) as H1.
    rewrite H, percentDecode_encodeURIComponent in H1. congruence.
Qed.

(** A city name with a quote, an ampersand and a Cyrillic letter. *)
Example regional_filters_round_trip :
  let url :=
    "https://api-metrika.yandex.net/stat/v1/data?metrics=ym:s:visits,ym:s:users&filters=ym%3As%3AregionCityName%3D.('O'Neil%20%26%20%D0%AF')&id=1&lang=ru"
  in
  run (getRegionalData defaultClient "1" (Some ["O'Neil & Я"])) healthy =
    (inr (Json "{}"), [Fetch url "OAuth token"])
  /\ decodedFilters url = Some "ym:s:regionCityName=.('O'Neil & Я')".
Proof. split; reflexivity. Qed.

(** * The attribution of [getDataByTime] without dimensions *)

(** X20. When [getDataByTime] is given no dimensions, or an empty list
    of them, or when the attribution is the empty string, the
    attribution plays no part at all: the call behaves exactly as the
    same call without attribution, be the value a recognised model or
    not. *)
Theorem attribution_ignored_without_dimensions :
  forall (c : Client) (counterId : string) (metrics : option (list string))
         (dateFrom dateTo : option string)
         (dimensions : option (list string)) (group : option string)
         (topKeys : option Z) (timezone attribution : option string)
         (net : Network),
    dimensions = None \/ dimensions = Some []
    \/ attribution = Some EmptyString ->
    run (getDataByTime c counterId metrics dateFrom dateTo dimensions group
           topKeys timezone attribution) net =
    run (getDataByTime c counterId metrics dateFrom dateTo dimensions group
           topKeys timezone None) net.
Proof.
  intros c counterId metrics dateFrom dateTo dimensions group topKeys
         timezone attribution net H.
  assert (Hprocess : processDimensions dimensions attribution =
                     processDimensions dimensions None).
  { unfold processDimensions. destruct H as [-> | [-> | ->]].
    - reflexivity.
    - cbn. rewrite andb_false_r. reflexivity.
    - destruct dimensions; reflexivity. }
  unfold getDataByTime. rewrite Hprocess. reflexivity.
Qed.

Lemma attribution_ignored_without_dimensions_witness :
  run (getDataByTime defaultClient "123" (Some ["ym:s:visits"]) None None
         (Some []) None None None (Some "bogus")) healthy =
  run (getDataByTime defaultClient "123" (Some ["ym:s:visits"]) None None
         (Some []) None None None None) healthy.
Proof.
  apply (attribution_ignored_without_dimensions defaultClient "123"
           (Some ["ym:s:visits"]) None None (Some []) None None None
           (Some "bogus") healthy).
  right. left. reflexivity.
Defined.

(** A page depth of 3, and a city name with an ampersand. *)
Lemma filter_expression_survives_encoding_witness :
  SendsRequest (run (getPageDepthAnalysis defaultClient "1" (Some 3)) healthy)
  /\ Forall
       (fun url => decodedFilters url = Some "ym:s:pageViews>3")
       (requestedURLs
          (snd (run (getPageDepthAnalysis defaultClient "1" (Some 3))
                    healthy)))
  /\ Forall
       (fun url =>
          decodedFilters url = Some "ym:s:regionCityName=.('Tyne & Wear')")
       (requestedURLs
          (snd (run (getRegionalData defaultClient "1" (Some ["Tyne & Wear"]))
                    healthy)))
  /\ "a b" = "a b".
Proof.
  pose proof (filter_expression_survives_encoding defaultClient "1" healthy)
    as [_ [Hregional [Hdepth Hinjective]]].
  destruct (Hdepth (Some 3) eq_refl) as [Hsends Hurls].
  split; [apply Hsends; discriminate|]. split; [exact Hurls|]. split.
  - exact (proj2 (Hregional (Some ["Tyne & Wear"]))).
  - exact (Hinjective "a b" "a b" eq_refl).
Defined.
